(** * cds-scraper: a shallow embedding of the two CDS trade scrapers

    The repository holds two independent polling pipelines:

    - [cds_live_scraper.py], class [CDSRealTimeScraper]: downloads a zipped
      CSV slice, filters it, normalises the rows and writes them to a
      database (the tabular-archive mode);
    - [enhanced_dtcc_scraper.py], class [DTCCCDSScraper]: discovers JSON
      endpoints on a dashboard page, fetches a list of records, normalises
      them and upserts them (the JSON-API mode).

    Python values are embedded as an inductive type, exceptions as an explicit
    error monad, the mutable [processed_trades] set as explicit state, the
    network, the archive reader and the database as data supplied by an
    environment, and binary64 floats as Rocq's primitive floats. *)

From Stdlib Require Import ZArith String Ascii List Bool Lia.
From Stdlib Require Import Floats.
From Stdlib Require DecimalString.
From stdpp Require Import base option list gmap strings.

Local Open Scope string_scope.
Local Open Scope Z_scope.

(** ** Python exceptions and results *)

Module Py.

(** The part of Python's exception hierarchy the two programs can tell apart:
    [except Exception] catches the first constructor only, a bare [except:]
    catches all three. *)
Inductive exn : Type :=
| Exception (cls : string)
| KeyboardInterrupt
| SystemExit.

Inductive result (A : Type) : Type :=
| Ok (a : A)
| Raise (e : exn).
Arguments Ok {A} a.
Arguments Raise {A} e.

#[global] Instance result_ret : MRet result := fun A a => Ok a.
#[global] Instance result_bind : MBind result := fun A B k r =>
  match r with
  | Ok a => k a
  | Raise e => Raise e
  end.

Definition is_ok {A : Type} (r : result A) : bool :=
match r with Ok _ => true | Raise _ => false end.

Definition TypeError {A : Type} : result A := Raise (Exception "TypeError").
Definition ValueError {A : Type} : result A := Raise (Exception "ValueError").
Definition OverflowError {A : Type} : result A := Raise (Exception "OverflowError").
Definition AttributeError {A : Type} : result A := Raise (Exception "AttributeError").
Definition KeyError {A : Type} : result A := Raise (Exception "KeyError").
Definition IndexError {A : Type} : result A := Raise (Exception "IndexError").

(** [isinstance(e, Exception)] *)
Definition is_Exception (e : exn) : bool :=
match e with Exception _ => true | _ => false end.

End Py.
Export Py.


(** ** Binary64 floats: conversions and formatting

    A Python [float] is a primitive float.  Its exact value is read off
    [Prim2SF]: mantissa [m] and exponent [e] stand for [m * 2^e]. *)

Module PyFloat.

(** The integer nearest to [p / q] for [q > 0], ties to the even one. *)
Definition round_half_even (p q : Z) : Z :=
let k := p / q in
let r := p mod q in
if 2 * r <? q then k
else if q <? 2 * r then k + 1
else if Z.even k then k else k + 1.

(** [m * 2^e * 10^d] rounded to the nearest integer. *)
Definition scaled_round (m : positive) (e : Z) (d : nat) : Z :=
if 0 <=? e then Z.pos m * 2 ^ e * 10 ^ Z.of_nat d
else round_half_even (Z.pos m * 10 ^ Z.of_nat d) (2 ^ (- e)).

Definition digit_char (n : Z) : ascii := ascii_of_nat (48 + Z.to_nat n).

(** The last [d] decimal digits of [n], most significant first. *)
Fixpoint frac_digits (d : nat) (n : Z) : string :=
match d with
| O => EmptyString
| S d' => String (digit_char (n / 10 ^ Z.of_nat d' mod 10)) (frac_digits d' n)
end.

(** [str(z)] for a Python [int]. *)
Definition str_of_Z (z : Z) : string :=
DecimalString.NilZero.string_of_int (Z.to_int z).

(** The non-negative integer [n], read as [n / 10^d], written with exactly
    [d] digits after the point. *)
Definition fixed_digits (n : Z) (d : nat) : string :=
str_of_Z (n / 10 ^ Z.of_nat d) ++
match d with
| O => EmptyString
| S _ => "." ++ frac_digits d n
end.

Definition sign_str (s : bool) : string := if s then "-" else "".

(** [f"{x:.{d}f}"]: CPython rounds the exact binary value correctly. *)
Definition format_f (d : nat) (x : float) : string :=
match Prim2SF x with
| S754_zero s => sign_str s ++ fixed_digits 0 d
| S754_infinity s => sign_str s ++ "inf"
| S754_nan => "nan"
| S754_finite s m e => sign_str s ++ fixed_digits (scaled_round m e d) d
end.

(** [int(x)]: truncation towards zero. *)
Definition int_of_float (x : float) : result Z :=
match Prim2SF x with
| S754_zero _ => Ok 0
| S754_infinity _ => OverflowError
| S754_nan => ValueError
| S754_finite s m e =>
    let a := if 0 <=? e then Z.pos m * 2 ^ e else Z.pos m / 2 ^ (- e) in
    Ok (if s then - a else a)
end.

(** [float(z)] for a Python [int]: correctly rounded, [OverflowError] when
    the integer is too large for a binary64. *)
Definition float_of_Z (z : Z) : result float :=
match binary_normalize prec emax z 0 false with
| S754_infinity _ => OverflowError
| sf => Ok (SF2Prim sf)
end.

(** [round(x, d)]: the binary64 nearest to the correctly rounded decimal. *)
Definition round_digits (x : float) (d : nat) : float :=
match Prim2SF x with
| S754_finite s m e =>
    match scaled_round m e d with
    | Z.pos n => SF2Prim (SFdiv prec emax (S754_finite s n 0)
                                 (S754_finite false (Z.to_pos (10 ^ Z.of_nat d)) 0))
    | _ => if s then (-0)%float else 0%float
    end
| _ => x
end.

Definition is_nan (x : float) : bool := negb (PrimFloat.eqb x x).

End PyFloat.
Export PyFloat.

(** ** Strings *)

Module PyStr.

(** [s[:n]] *)
Fixpoint take_str (n : nat) (s : string) : string :=
match n, s with
| S n', String c s' => String c (take_str n' s')
| _, _ => EmptyString
end.

Definition upper_char (c : ascii) : ascii :=
let n := nat_of_ascii c in
if (97 <=? n)%nat && (n <=? 122)%nat then ascii_of_nat (n - 32) else c.

(** [s.upper()] on ASCII text. *)
Fixpoint upper (s : string) : string :=
match s with
| EmptyString => EmptyString
| String c s' => String (upper_char c) (upper s')
end.

(** [s.startswith(p)] *)
Fixpoint startswith (p s : string) : bool :=
match p, s with
| EmptyString, _ => true
| String a p', String b s' => Ascii.eqb a b && startswith p' s'
| String _ _, EmptyString => false
end.

(** [p in s] for strings. *)
Fixpoint contains (p s : string) : bool :=
startswith p s ||
match s with
| EmptyString => false
| String _ s' => contains p s'
end.

(** [s * n] *)
Fixpoint repeat_str (n : nat) (s : string) : string :=
match n with
| O => EmptyString
| S n' => s ++ repeat_str n' s
end.

(** Two decimal digits, zero padded: [%d], [%m], [%H], ... of [strftime]. *)
Definition pad2 (n : Z) : string :=
String (digit_char (n / 10 mod 10)) (String (digit_char (n mod 10)) EmptyString).

End PyStr.
Export PyStr.

(** ** The regular expressions of the two programs

    Only the constructs the three patterns use: a literal character, a
    greedy star over a character class, and one capturing group.  The
    matcher backtracks the way [re] does: a star first takes as much as it
    can and gives characters back one at a time. *)

Module Regex.

Inductive item : Type :=
| Chr (c : ascii)
| Star (cls : ascii -> bool)
| GroupOpen
| GroupClose.

Definition push (grp : option string) (c : ascii) : option string :=
match grp with
| Some a => Some (a ++ String c EmptyString)
| None => None
end.

(** [rmatch re s grp cap]: match [re] at the start of [s]; [grp] collects the
    characters of the group while it is open, [cap] is the closed group.
    The result is the captured group and the text after the match. *)
Fixpoint rmatch (re : list item) (s : string) (grp : option string) (cap : string)
  : option (string * string) :=
match re with
| [] => Some (cap, s)
| Chr c :: re' =>
    match s with
    | String x s' => if Ascii.eqb x c then rmatch re' s' (push grp x) cap else None
    | EmptyString => None
    end
| Star cls :: re' =>
    (fix star (s : string) (grp : option string) : option (string * string) :=
       match s with
       | String x s' =>
           if cls x then
             match star s' (push grp x) with
             | Some r => Some r
             | None => rmatch re' s grp cap
             end
           else rmatch re' s grp cap
       | EmptyString => rmatch re' s grp cap
       end) s grp
| GroupOpen :: re' => rmatch re' s (Some EmptyString) cap
| GroupClose :: re' => rmatch re' s None (default EmptyString grp)
end.

Definition match_here (re : list item) (s : string) : option (string * string) :=
rmatch re s None EmptyString.

(** [re.findall(re, s)] for a pattern with one group: the groups of the
    non-overlapping matches, scanning from the left; [skip] characters are
    still inside the previous match. *)
Fixpoint findall_from (re : list item) (s : string) (skip : nat) : list string :=
match s with
| EmptyString => []
| String _ s' =>
    match skip with
    | S k => findall_from re s' k
    | O =>
        match match_here re s with
        | Some (cap, rest) =>
            cap :: findall_from re s' (String.length s - String.length rest - 1)
        | None => findall_from re s' 0
        end
    end
end.

Definition findall (re : list item) (s : string) : list string := findall_from re s 0.

(** [re.search(re, s) is not None] *)
Fixpoint search (re : list item) (s : string) : bool :=
match match_here re s with
| Some _ => true
| None =>
    match s with
    | EmptyString => false
    | String _ s' => search re s'
    end
end.

Fixpoint lit (s : string) : list item :=
match s with
| EmptyString => []
| String c s' => Chr c :: lit s'
end.

Definition quote : ascii := ascii_of_nat 34.
Definition newline : ascii := ascii_of_nat 10.

(** Any run of characters other than a double quote. *)
Definition not_quote_star : item := Star (fun c => negb (Ascii.eqb c quote)).
(** Any run of characters other than a newline (dot-star). *)
Definition any_star : item := Star (fun c => negb (Ascii.eqb c newline)).

End Regex.
Export Regex.

(** ** Dates and times *)

Module PyTime.

(** [datetime.datetime] (naive). *)
Record datetime : Type := mk_datetime {
  dt_year : Z; dt_month : Z; dt_day : Z;
  dt_hour : Z; dt_minute : Z; dt_second : Z; dt_microsecond : Z }.

(** [datetime.time] *)
Record pytime : Type := mk_time {
  t_hour : Z; t_minute : Z; t_second : Z; t_microsecond : Z }.

(** [dt.strftime('%H:%M:%S')] *)
Definition strftime_HMS (d : datetime) : string :=
pad2 (dt_hour d) ++ ":" ++ pad2 (dt_minute d) ++ ":" ++ pad2 (dt_second d).

(** [dt.strftime('%Y-%m-%d')]; the C library prints a year below 1000
    without padding. *)
Definition strftime_Ymd (d : datetime) : string :=
str_of_Z (dt_year d) ++ "-" ++ pad2 (dt_month d) ++ "-" ++ pad2 (dt_day d).

(** [pd.Timestamp]: nanoseconds since the epoch, and whether the value
    carries a time zone.  pandas keeps the count in 64 bits and raises
    outside that range; the range is left to the library here. *)
Record Timestamp : Type := mk_ts { ts_ns : Z; ts_aware : bool }.

Definition NS_PER_SECOND : Z := 1000000000.
Definition NS_PER_DAY : Z := 86400 * NS_PER_SECOND.

(** [Timedelta.days]: whole days, rounded down. *)
Definition timedelta_days (td : Z) : Z := td / NS_PER_DAY.

(** [Timestamp.time()] *)
Definition ts_time (t : Timestamp) : pytime :=
let r := ts_ns t mod NS_PER_DAY in
{| t_hour := r / (3600 * NS_PER_SECOND);
   t_minute := r / (60 * NS_PER_SECOND) mod 60;
   t_second := r / NS_PER_SECOND mod 60;
   t_microsecond := r / 1000 mod 1000000 |}.

(** Proleptic Gregorian date (year, month, day) of a day count since
    1970-01-01. *)
Definition civil_from_days (days : Z) : Z * Z * Z :=
let z := days + 719468 in
let era := z / 146097 in
let doe := z - era * 146097 in
let yoe := (doe - doe / 1460 + doe / 36524 - doe / 146096) / 365 in
let y := yoe + era * 400 in
let doy := doe - (365 * yoe + yoe / 4 - yoe / 100) in
let mp := (5 * doy + 2) / 153 in
let d := doy - (153 * mp + 2) / 5 + 1 in
let m := if mp <? 10 then mp + 3 else mp - 9 in
(if m <=? 2 then y + 1 else y, m, d).

(** [ts.strftime("%d/%m/%y")] *)
Definition strftime_dmy (t : Timestamp) : string :=
let '(y, m, d) := civil_from_days (ts_ns t / NS_PER_DAY) in
pad2 d ++ "/" ++ pad2 m ++ "/" ++ pad2 (y mod 100).

(** What [pd.to_datetime] returns for a scalar. *)
Inductive dtval : Type :=
| DtNone
| DtNaT
| DtTs (t : Timestamp).

End PyTime.
Export PyTime.

(** ** The libraries the programs call

    What CPython and pandas compute from text is taken as given: the
    programs are embedded over any such library, and every statement below
    holds whatever these functions return or raise. *)

(** A cell of a pandas row, or [CNone] for what [row.get] returns when the
    column is absent. An empty CSV cell is [CFloat nan]. *)
Inductive cell : Type :=
| CNone
| CBool (b : bool)
| CInt (z : Z)
| CFloat (f : float)
| CStr (s : string).

Record PyLib : Type := mk_lib {
  (** [float(s)] for a string; [None] stands for [ValueError] *)
  float_of_str : string -> option float;
  (** [int(s)] for a string; [None] stands for [ValueError] *)
  int_of_str : string -> option Z;
  (** [str(x)] for a float *)
  str_of_float : float -> string;
  (** [pd.to_datetime(v)] for a scalar *)
  to_datetime : cell -> result dtval;
  (** [datetime.strptime(s, fmt)] for a string [s] *)
  strptime : string -> string -> result datetime
}.

(** How far a polling loop got on a finite run of cycles: still looping,
    left by [break], or ended by an exception nobody caught. *)
Inductive loop_status : Type :=
| Running
| Stopped
| Crashed (e : exn).

(** ** [cds_live_scraper.py]: the tabular-archive scraper *)

Module CDSRealTimeScraper.

(** [self.target_entities] *)
Definition target_entities : gmap string string :=
list_to_map
  [ ("VODAFONE GROUP PLC", "VODFON");
    ("DEUTSCHE BANK AG", "DBKGN");
    ("BNP PARIBAS SA", "BNPPR");
    ("BANCO SANTANDER SA", "SANES");
    ("TELECOM ITALIA SPA", "TITIM");
    ("TOTALENERGIES SE", "TOTFP");
    ("SHELL PLC", "SHEL");
    ("SIEMENS AG", "SIE");
    ("BMW AG", "BMW");
    ("SAP SE", "SAP") ].

(** A [pandas.DataFrame]: column names and rectangular data. *)
Record DataFrame : Type := mk_df {
  df_columns : list string;
  df_rows : list (list cell) }.

(** [pd.DataFrame()] *)
Definition empty_frame : DataFrame := mk_df [] [].

(** [df.empty]: some axis has length zero. *)
Definition df_empty (df : DataFrame) : bool :=
match df_columns df, df_rows df with
| _ :: _, _ :: _ => false
| _, _ => true
end.

(** One row as [iterrows] yields it: a labelled series. *)
Definition row : Type := list (string * cell).

Definition label (columns : list string) (cells : list cell) : row := zip columns cells.

Definition iterrows (df : DataFrame) : list row :=
map (label (df_columns df)) (df_rows df).

(** [row.get(col, default)] *)
Fixpoint row_get (r : row) (col : string) (dflt : cell) : cell :=
match r with
| [] => dflt
| (k, v) :: r' => if String.eqb k col then v else row_get r' col dflt
end.

(** The environment of [get_latest_credit_slice]: what the dashboard and the
    download answer. *)
Inductive csv_file : Type :=
| Unparsable
| Table (df : DataFrame).

Inductive archive : Type :=
| NotAZip
| Zip (entries : list (string * csv_file)).

Record slice_env : Type := mk_slice_env {
  (** the [href] of every [a] tag of the dashboard page, in document order,
      or the error of the request *)
  dashboard_anchors : result (list (option string));
  (** the body served at a URL, read as an archive, or the error of the
      request *)
  download : string -> result archive }.

(** [CFTC_SLICE_CREDITS.*\.ZIP] *)
Definition slice_link_re : list item :=
lit "CFTC_SLICE_CREDITS" ++ [any_star] ++ lit ".ZIP".

(** [soup.find_all("a", href=re.compile(...))], as the list of the hrefs. *)
Definition find_slice_links (anchors : list (option string)) : list string :=
omap (fun a => match a with
               | Some href => if search slice_link_re href then Some href else None
               | None => None
               end) anchors.

Definition get_latest_credit_slice (env : slice_env) : result (option DataFrame) :=
anchors ← dashboard_anchors env;
match find_slice_links anchors with
| [] => Ok None
| latest_zip_url :: _ =>
    data ← download env latest_zip_url;
    match data with
    | NotAZip => Raise (Exception "BadZipFile")
    | Zip [] => IndexError
    | Zip ((csv_name, csvfile) :: _) =>
        match csvfile with
        | Unparsable => Raise (Exception "ParserError")
        | Table df => Ok (Some df)
        end
    end
end.

Definition cell_is_str (c : cell) (s : string) : bool :=
match c with
| CStr x => String.eqb x s
| _ => false
end.

Definition is_target (c : cell) : bool :=
match c with
| CStr x => bool_decide (is_Some (target_entities !! x))
| _ => false
end.

Definition keep_row (r : row) : bool :=
cell_is_str (row_get r "Asset Class" CNone) "CR"
&& cell_is_str (row_get r "Notional currency-Leg 1" CNone) "EUR"
&& is_target (row_get r "Underlying Asset Name" CNone).

(** [df[col]] *)
Definition column_check (df : DataFrame) (col : string) : result unit :=
if bool_decide (col ∈ df_columns df) then Ok tt else KeyError.

Definition filter_eur_cds (df : option DataFrame) : result DataFrame :=
match df with
| None => Ok empty_frame
| Some d =>
    if df_empty d then Ok empty_frame
    else
      _ ← column_check d "Asset Class";
      _ ← column_check d "Notional currency-Leg 1";
      _ ← column_check d "Underlying Asset Name";
      Ok (mk_df (df_columns d)
                (filter (fun cells => keep_row (label (df_columns d) cells)) (df_rows d)))
end.

Definition format_notional (amount : float) : result string :=
if (1e6 <=? amount)%float then Ok (format_f 3 (amount / 1e6)%float ++ "M")
else if (1e3 <=? amount)%float then Ok (format_f 1 (amount / 1e3)%float ++ "K")
else n ← int_of_float amount; Ok (str_of_Z n).

(** The dictionary appended to [processed]. *)
Record trade : Type := mk_trade {
  trade_time : pytime;
  instrument : string;
  price : float;
  notional_display : string;
  code : string;
  maturity_date : string;
  rate_spread : Z;
  currency : string;
  notional_full : Z;
  platform_id : string;
  other_payment : option float;
  rating_category : string;
  entity_name : string;
  sector : string }.

(** [str(v)] *)
Definition cell_str (lib : PyLib) (c : cell) : string :=
match c with
| CNone => "None"
| CBool true => "True"
| CBool false => "False"
| CInt z => str_of_Z z
| CFloat f => str_of_float lib f
| CStr s => s
end.

(** [v[:n]]: only a string can be sliced. *)
Definition cell_slice (n : nat) (c : cell) : result string :=
match c with
| CStr s => Ok (take_str n s)
| _ => TypeError
end.

(** [float(v)] *)
Definition cell_float (lib : PyLib) (c : cell) : result float :=
match c with
| CNone => TypeError
| CBool b => Ok (if b then 1%float else 0%float)
| CInt z => float_of_Z z
| CFloat f => Ok f
| CStr s => match float_of_str lib s with Some f => Ok f | None => ValueError end
end.

(** [pd.notnull(v)] *)
Definition notnull (c : cell) : bool :=
match c with
| CNone => false
| CFloat f => negb (is_nan f)
| _ => true
end.

(** [pd.to_datetime(v).time()] *)
Definition dt_time (v : dtval) : result pytime :=
match v with
| DtNone => AttributeError
| DtNaT => ValueError
| DtTs t => Ok (ts_time t)
end.

(** [max(1, (expiry - now).days // 365)], [now] being naive.  [None] cannot
    be subtracted from; with [NaT] the difference is [NaT], its [days] is
    nan, and [max(1, nan)] is 1. *)
Definition years_to_maturity (expiry : dtval) (now : Z) : result Z :=
match expiry with
| DtNone => TypeError
| DtNaT => Ok 1
| DtTs t =>
    if ts_aware t then TypeError
    else Ok (Z.max 1 (timedelta_days (ts_ns t - now) / 365))
end.

(** [expiry.strftime("%d/%m/%y")] *)
Definition dt_strftime (v : dtval) : result string :=
match v with
| DtNone => AttributeError
| DtNaT => ValueError
| DtTs t => Ok (strftime_dmy t)
end.

Definition lookup_ticker (underlying dflt : string) : string :=
default dflt (target_entities !! underlying).

(** The body of the loop of [process_trades] after the duplicate check:
    one row to one dictionary, or the exception that leaves the loop. *)
Definition process_row (lib : PyLib) (now : Z) (r : row) : result trade :=
let underlying := row_get r "Underlying Asset Name" CNone in
dflt ← cell_slice 6 underlying;
let name := match underlying with CStr s => s | _ => EmptyString end in
let ticker := lookup_ticker name dflt in
notional ← cell_float lib (row_get r "Notional amount-Leg 1" (CInt 0));
exec ← to_datetime lib (row_get r "Execution Timestamp" CNone);
instr_time ← dt_time exec;
expiry ← to_datetime lib (row_get r "Expiration Date" CNone);
years ← years_to_maturity expiry now;
let instr := ticker ++ " CDS EUR SR " ++ str_of_Z years ++ "Y" in
raw_price ← cell_float lib (row_get r "Price" (CInt 0));
platform ← cell_slice 4 (row_get r "Platform identifier" (CStr ""));
let other := row_get r "Other payment amount" CNone in
display ← format_notional notional;
maturity ← dt_strftime expiry;
full ← int_of_float notional;
payment ← (if notnull other then f ← cell_float lib other; Ok (Some f) else Ok None);
Ok {| trade_time := instr_time;
      instrument := instr;
      price := round_digits raw_price 2;
      notional_display := display;
      code := "TR";
      maturity_date := maturity;
      rate_spread := years;
      currency := "EUR";
      notional_full := full;
      platform_id := platform;
      other_payment := payment;
      rating_category := if String.eqb ticker "TITIM" then "HY" else "IG";
      entity_name := name;
      sector := "" |}.

Definition trade_id_of (lib : PyLib) (r : row) : string :=
cell_str lib (row_get r "Dissemination Identifier" CNone).

(** The loop of [process_trades]: [seen] is [self.processed_trades], which
    the loop mutates and which keeps its additions when a row raises. *)
Fixpoint process_rows (lib : PyLib) (now : Z) (rows : list row)
    (seen : gset string) (processed : list trade)
  : gset string * result (list trade) :=
match rows with
| [] => (seen, Ok processed)
| r :: rest =>
    let trade_id := trade_id_of lib r in
    if bool_decide (trade_id ∈ seen) then process_rows lib now rest seen processed
    else
      match process_row lib now r with
      | Raise e => (seen, Raise e)
      | Ok t => process_rows lib now rest ({[trade_id]} ∪ seen) (processed ++ [t])
      end
end.

Definition process_trades (lib : PyLib) (now : Z) (seen : gset string) (df : DataFrame)
  : gset string * result (list trade) :=
process_rows lib now (iterrows df) seen [].

(** [save_trades]: [db] is what connecting, inserting and committing the
    batch does; it is not called for an empty batch. *)
Definition save_trades (db : list trade -> result unit) (trades : list trade) : result unit :=
match trades with
| [] => Ok tt
| _ :: _ => db trades
end.

(** What the world answers during one pass of the loop of [run]. *)
Record cycle_env : Type := mk_cycle_env {
  source : slice_env;
  clock : Z;
  database : list trade -> result unit;
  (** [asyncio.sleep(60)] *)
  sleeping : Z -> result unit }.

(** The body of [while True] in [run], with the set it leaves behind. *)
Definition cycle (lib : PyLib) (env : cycle_env) (seen : gset string)
  : gset string * result unit :=
match get_latest_credit_slice (source env) with
| Raise e => (seen, Raise e)
| Ok df =>
    match filter_eur_cds df with
    | Raise e => (seen, Raise e)
    | Ok eur_cds =>
        match process_trades lib (clock env) seen eur_cds with
        | (seen', Raise e) => (seen', Raise e)
        | (seen', Ok trades) =>
            (seen', _ ← save_trades (database env) trades; sleeping env 60)
        end
    end
end.

(** [run]: nothing is caught, so the first exception ends the loop.  The
    result lists the sleeps taken (in seconds) and the final set. *)
Fixpoint run (lib : PyLib) (envs : list cycle_env) (seen : gset string)
  : list Z * gset string * loop_status :=
match envs with
| [] => ([], seen, Running)
| env :: rest =>
    match cycle lib env seen with
    | (seen', Raise e) => ([], seen', Crashed e)
    | (seen', Ok _) =>
        let '(sleeps, final, status) := run lib rest seen' in
        (60 :: sleeps, final, status)
    end
end.

End CDSRealTimeScraper.

(** ** [enhanced_dtcc_scraper.py]: the JSON-API scraper *)

Module DTCCCDSScraper.

(** A decoded JSON value. *)
#[warnings="-register-all"]
Inductive pyval : Type :=
| PNone
| PBool (b : bool)
| PInt (z : Z)
| PFloat (f : float)
| PStr (s : string)
| PList (l : list pyval)
| PDict (d : list (string * pyval)).

(** [bool(v)] *)
Definition truthy (v : pyval) : bool :=
match v with
| PNone => false
| PBool b => b
| PInt z => negb (z =? 0)
| PFloat f => negb (f =? 0)%float
| PStr s => negb (String.eqb s "")
| PList l => match l with [] => false | _ => true end
| PDict d => match d with [] => false | _ => true end
end.

(** [a or b] *)
Definition py_or (a b : pyval) : pyval := if truthy a then a else b.

Fixpoint assoc (d : list (string * pyval)) (key : string) : option pyval :=
match d with
| [] => None
| (k, v) :: d' => if String.eqb k key then Some v else assoc d' key
end.

(** [t.get(key, dflt)]: only a dictionary has the method. *)
Definition py_get (t : pyval) (key : string) (dflt : pyval) : result pyval :=
match t with
| PDict d => Ok (default dflt (assoc d key))
| _ => AttributeError
end.

(** [float(v)] *)
Definition py_float (lib : PyLib) (v : pyval) : result float :=
match v with
| PNone => TypeError
| PBool b => Ok (if b then 1%float else 0%float)
| PInt z => float_of_Z z
| PFloat f => Ok f
| PStr s => match float_of_str lib s with Some f => Ok f | None => ValueError end
| PList _ => TypeError
| PDict _ => TypeError
end.

(** [int(v * 100)] *)
Definition int_times_100 (lib : PyLib) (v : pyval) : result Z :=
match v with
| PNone => TypeError
| PBool b => Ok (if b then 100 else 0)
| PInt z => Ok (z * 100)
| PFloat f => int_of_float (f * 100)%float
| PStr s => match int_of_str lib (repeat_str 100 s) with Some z => Ok z | None => ValueError end
| PList _ => TypeError
| PDict _ => TypeError
end.

(** [v.upper()] *)
Definition py_upper (v : pyval) : result string :=
match v with
| PStr s => Ok (upper s)
| _ => AttributeError
end.

(** [datetime.strptime(v, fmt)]: a value that is not a string is a
    [TypeError]. *)
Definition py_strptime (lib : PyLib) (v : pyval) (fmt : string) : result datetime :=
match v with
| PStr s => strptime lib s fmt
| _ => TypeError
end.

(** The loop of [parse_timestamp] and [parse_date]: the first format whose
    body returns wins; the bare [except: pass] swallows every exception. *)
Fixpoint first_format (lib : PyLib) (render : datetime -> string) (s : pyval)
    (formats : list string) : option string :=
match formats with
| [] => None
| fmt :: rest =>
    match py_strptime lib s fmt with
    | Ok dt => Some (render dt)
    | Raise _ => first_format lib render s rest
    end
end.

Definition timestamp_formats : list string :=
["%Y-%m-%dT%H:%M:%S.%fZ"; "%Y-%m-%dT%H:%M:%SZ"; "%Y-%m-%d %H:%M:%S"].

Definition date_formats : list string :=
["%Y-%m-%d"; "%d/%m/%Y"; "%m/%d/%Y"].

(** [now] is what [datetime.now()] returns. *)
Definition parse_timestamp (lib : PyLib) (now : datetime) (s : pyval) : result string :=
match first_format lib strftime_HMS s timestamp_formats with
| Some r => Ok r
| None => Ok (strftime_HMS now)
end.

Definition parse_date (lib : PyLib) (now : datetime) (s : pyval) : result string :=
match first_format lib strftime_Ymd s date_formats with
| Some r => Ok r
| None => Ok (strftime_Ymd now)
end.

(** The dictionary [parse_trade] returns. *)
Record trade : Type := mk_trade {
  trade_time : string;
  ticker : pyval;
  name : pyval;
  price : float;
  notional : float;
  code : pyval;
  maturity : string;
  rate_spr : Z;
  currency : pyval;
  platform_id : pyval;
  other_payment : float;
  is_hy : bool;
  is_ig : bool }.

(** The body of the [try] of [parse_trade], field by field in the order of
    the dictionary display. *)
Definition parse_trade_body (lib : PyLib) (now : datetime) (t : pyval) : result trade :=
ts ← py_get t "executionTimestamp" PNone;
time ← parse_timestamp lib now (py_or ts (PStr ""));
tick ← py_get t "referenceEntity" (PStr "UNKNOWN");
nm ← py_get t "issuerName" (PStr "");
p ← py_get t "price" (PInt 0);
pr ← py_float lib (py_or p (PInt 0));
n ← py_get t "notionalAmount" (PInt 0);
notl ← py_float lib (py_or n (PInt 0));
cd ← py_get t "tradeType" (PStr "");
m ← py_get t "maturityDate" PNone;
mat ← parse_date lib now (py_or m (PStr ""));
sp ← py_get t "spread" (PInt 0);
spr ← int_times_100 lib (py_or sp (PInt 0));
cur ← py_get t "currency" (PStr "EUR");
venue ← py_get t "executionVenue" (PStr "");
up ← py_get t "upfrontPayment" (PInt 0);
other ← py_float lib (py_or up (PInt 0));
rc1 ← py_get t "ratingClass" (PStr "");
u1 ← py_upper (py_or rc1 (PStr ""));
rc2 ← py_get t "ratingClass" (PStr "");
u2 ← py_upper (py_or rc2 (PStr ""));
Ok {| trade_time := time; ticker := tick; name := nm; price := pr;
      notional := notl; code := cd; maturity := mat; rate_spr := spr;
      currency := cur; platform_id := venue; other_payment := other;
      is_hy := contains "HY" u1; is_ig := contains "IG" u2 |}.

(** [parse_trade]: the bare [except] turns every exception into [None]. *)
Definition parse_trade (lib : PyLib) (now : datetime) (t : pyval) : result (option trade) :=
match parse_trade_body lib now t with
| Ok d => Ok (Some d)
| Raise _ => Ok None
end.

(** [self.dtcc_base] *)
Definition dtcc_base : string := "https://pddata.dtcc.com".

Definition default_endpoint : string := dtcc_base ++ "/ppd/api/cds/trades".

(** The first pattern: the word fetch, an opening parenthesis and a double
    quote, then a group of non-quote characters around [/api/], then a
    double quote. *)
Definition fetch_re : list item :=
lit "fetch(" ++ [Chr quote; GroupOpen; not_quote_star] ++ lit "/api/"
  ++ [not_quote_star; GroupClose; Chr quote].

(** The second pattern: a double quote, a group starting with [/ppd/api/]
    followed by non-quote characters, a double quote. *)
Definition ppd_re : list item :=
[Chr quote; GroupOpen] ++ lit "/ppd/api/" ++ [not_quote_star; GroupClose; Chr quote].

Definition patterns : list (list item) := [fetch_re; ppd_re].

(** The inner loop of [discover_api_endpoints] over the matches of one
    pattern. *)
Definition add_matches (endpoints : gset string) (found : list string) : gset string :=
foldl (fun acc m => if startswith "/" m then {[dtcc_base ++ m]} ∪ acc else {[m]} ∪ acc)
      endpoints found.

Definition scan (content : string) : gset string :=
foldl (fun acc p => add_matches acc (findall p content)) ∅ patterns.

(** [dashboard] is the text of the dashboard page or the error of the
    request.  [list(endpoints)] lists the set in an unspecified order. *)
Definition discover_api_endpoints (dashboard : result string) : result (list string) :=
match dashboard with
| Ok content => Ok (elements (scan content))
| Raise (Exception _) => Ok [default_endpoint]
| Raise e => Raise e
end.

(** An HTTP response: the status and what [r.json()] does. *)
Record response : Type := mk_response {
  status_code : Z;
  json : result pyval }.

(** [r.raise_for_status()] *)
Definition raise_for_status (r : response) : result unit :=
if (400 <=? status_code r) && (status_code r <? 600)
then Raise (Exception "HTTPError") else Ok tt.

(** [key in data] *)
Definition py_in (key : string) (data : pyval) : result bool :=
match data with
| PDict d => Ok (bool_decide (is_Some (assoc d key)))
| PList l => Ok (existsb (fun v => match v with PStr s => String.eqb s key | _ => false end) l)
| PStr s => Ok (contains key s)
| _ => TypeError
end.

(** [data[key]] for a string key *)
Definition py_index (data : pyval) (key : string) : result pyval :=
match data with
| PDict d => match assoc d key with Some v => Ok v | None => KeyError end
| _ => TypeError
end.

(** The loop over the container keys inside the [try] of
    [fetch_cds_trades]; [None] when no key returned. *)
Fixpoint find_container (data : pyval) (keys : list string) : result (option (list pyval)) :=
match keys with
| [] => Ok None
| key :: rest =>
    present ← py_in key data;
    if (present : bool) then
      v ← py_index data key;
      match v with
      | PList l => Ok (Some l)
      | _ => find_container data rest
      end
    else find_container data rest
end.

Definition container_keys : list string := ["data"; "trades"; "records"; "results"].

(** The body of the [try] of [fetch_cds_trades]; [None] when it falls
    through to the final [return []]. *)
Definition fetch_body (http_get : string -> result response) (endpoint : string)
  : result (option (list pyval)) :=
r ← http_get endpoint;
_ ← raise_for_status r;
data ← json r;
found ← find_container data container_keys;
match found with
| Some l => Ok (Some l)
| None =>
    match data with
    | PList l => Ok (Some l)
    | _ => Ok None
    end
end.

Definition fetch_cds_trades (http_get : string -> result response) (endpoint : string)
  : result (list pyval) :=
match fetch_body http_get endpoint with
| Ok (Some l) => Ok l
| Ok None => Ok []
| Raise (Exception _) => Ok []
| Raise e => Raise e
end.

(** What the world answers during one pass of the loop of [run_forever].
    [now] stands for every [datetime.now()] of the pass. *)
Record cycle_env : Type := mk_cycle_env {
  dashboard : result string;
  http_get : string -> result response;
  now : datetime;
  upsert : list trade -> result unit;
  (** [time.sleep(seconds)] *)
  sleeping : Z -> result unit }.

(** The inner [for raw in data] of [scrape_cycle]. *)
Fixpoint parse_all (lib : PyLib) (now : datetime) (data : list pyval) : result (list trade) :=
match data with
| [] => Ok []
| raw :: rest =>
    parsed ← parse_trade lib now raw;
    more ← parse_all lib now rest;
    Ok (match parsed with Some t => t :: more | None => more end)
end.

(** The [for ep in endpoints[:2]] of [scrape_cycle], leaving at the first
    endpoint with data. *)
Fixpoint try_endpoints (lib : PyLib) (env : cycle_env) (eps : list string)
  : result (list trade) :=
match eps with
| [] => Ok []
| ep :: rest =>
    data ← fetch_cds_trades (http_get env) ep;
    match data with
    | [] => try_endpoints lib env rest
    | _ :: _ => parse_all lib (now env) data
    end
end.

(** [scrape_cycle].  The source returns nothing and logs how many trades it
    stored; the count is returned here so that statements can name it. *)
Definition scrape_cycle (lib : PyLib) (env : cycle_env) : result nat :=
endpoints ← discover_api_endpoints (dashboard env);
all_trades ← try_endpoints lib env (take 2 endpoints);
match all_trades with
| [] => Ok O
| _ :: _ => _ ← upsert env all_trades; Ok (length all_trades)
end.

(** [run_forever] on a finite run of cycles: the sleeps taken, in seconds,
    and how the loop stands. *)
Fixpoint run_forever (lib : PyLib) (envs : list cycle_env) : list Z * loop_status :=
match envs with
| [] => ([], Running)
| env :: rest =>
    match (_ ← scrape_cycle lib env; sleeping env 60) with
    | Ok _ =>
        let '(sleeps, status) := run_forever lib rest in (60 :: sleeps, status)
    | Raise KeyboardInterrupt => ([], Stopped)
    | Raise (Exception _) =>
        match sleeping env 30 with
        | Ok _ =>
            let '(sleeps, status) := run_forever lib rest in (30 :: sleeps, status)
        | Raise e => ([], Crashed e)
        end
    | Raise e => ([], Crashed e)
    end
end.

End DTCCCDSScraper.

(** ** A reference library

    CPython's and pandas' behaviour on ASCII text, used to run the programs
    on concrete data: [int] and [float] of a string, [repr] of a float,
    [datetime.strptime] as [_strptime.py] has it for the directives the
    programs use, and [pd.to_datetime] on ISO 8601 text (pandas accepts
    more date formats than these; the examples stay within them). *)

Module RefLib.

Definition is_digit (c : ascii) : bool :=
let n := nat_of_ascii c in (48 <=? n)%nat && (n <=? 57)%nat.

Definition digit_val (c : ascii) : Z := Z.of_nat (nat_of_ascii c) - 48.

Definition is_space (c : ascii) : bool :=
let n := nat_of_ascii c in (n =? 32)%nat || ((9 <=? n)%nat && (n <=? 13)%nat).

Definition next_is_digit (s : string) : bool :=
match s with
| String c _ => is_digit c
| EmptyString => false
end.

(** The longest prefix of digits (single underscores may separate them), as
    a number, the count of digits, and the rest. *)
Fixpoint read_digits (s : string) (acc : Z) (len : nat) : Z * nat * string :=
match s with
| String c s' =>
    if is_digit c then read_digits s' (acc * 10 + digit_val c) (S len)
    else if Ascii.eqb c "_" && negb (len =? 0)%nat && next_is_digit s'
    then read_digits s' acc len
    else (acc, len, s)
| EmptyString => (acc, len, s)
end.

Fixpoint lstrip (s : string) : string :=
match s with
| String c s' => if is_space c then lstrip s' else s
| EmptyString => s
end.

Fixpoint all_space (s : string) : bool :=
match s with
| String c s' => is_space c && all_space s'
| EmptyString => true
end.

Definition read_sign (s : string) : bool * string :=
match s with
| String "-" s' => (true, s')
| String "+" s' => (false, s')
| _ => (false, s)
end.

(** [int(s)]: blanks, a sign, decimal digits, blanks. *)
Definition ref_int_of_str (s : string) : option Z :=
let '(neg, s1) := read_sign (lstrip s) in
let '(n, len, s2) := read_digits s1 0 0 in
match len with
| O => None
| S _ => if all_space s2 then Some (if neg then - n else n) else None
end.

(** The binary64 nearest to [n * 10^k]. *)
Definition decimal_to_float (neg : bool) (n k : Z) : float :=
match n with
| Z.pos p =>
    if 0 <=? k
    then SF2Prim (binary_normalize prec emax
                    ((if neg then Z.neg p else Z.pos p) * 10 ^ k) 0 neg)
    else SF2Prim (SFdiv prec emax (S754_finite neg p 0)
                        (S754_finite false (Z.to_pos (10 ^ (- k))) 0))
| _ => if neg then (-0)%float else 0%float
end.

(** The optional exponent of a float literal: its value and the rest, or
    [None] when the letter e is not followed by digits. *)
Definition read_exponent (s : string) : option (Z * string) :=
match s with
| String c s' =>
    if Ascii.eqb c "e" || Ascii.eqb c "E" then
      let '(eneg, s1) := read_sign s' in
      let '(e, elen, rest) := read_digits s1 0 0 in
      match elen with
      | O => None
      | S _ => Some ((if eneg then - e else e), rest)
      end
    else Some (0, s)
| EmptyString => Some (0, s)
end.

Definition special_float (neg : bool) (word : string) : option float :=
if String.eqb word "INF" || String.eqb word "INFINITY"
then Some (if neg then neg_infinity else infinity)
else if String.eqb word "NAN" then Some nan
else None.

Fixpoint rstrip_aux (s : string) : string * bool :=
match s with
| String c s' =>
    let '(r, blank) := rstrip_aux s' in
    if blank && is_space c then (EmptyString, true) else (String c r, false)
| EmptyString => (EmptyString, true)
end.

Definition strip (s : string) : string := fst (rstrip_aux (lstrip s)).

(** [float(s)]: blanks, a sign, then inf, infinity or nan in any case, or
    digits with an optional fraction and an optional exponent; blanks. *)
Definition ref_float_of_str (s : string) : option float :=
let '(neg, s1) := read_sign (strip s) in
match special_float neg (upper s1) with
| Some f => Some f
| None =>
    let '(ip, ilen, s2) := read_digits s1 0 0 in
    let '(mant, flen, s3) :=
      match s2 with
      | String "." s2' => read_digits s2' ip 0
      | _ => (ip, O, s2)
      end in
    match ilen, flen with
    | O, O => None
    | _, _ =>
        match read_exponent s3 with
        | Some (ex, EmptyString) => Some (decimal_to_float neg mant (ex - Z.of_nat flen))
        | _ => None
        end
    end
end.

(** [repr] of a float: the shortest decimal that reads back as the same
    binary64, the nearest one among the shortest. *)

(** [x < 10^d] for [x = num / den]. *)
Definition below_pow10 (num den d : Z) : bool :=
if 0 <=? d then num <? 10 ^ d * den else num * 10 ^ (- d) <? den.

Fixpoint find_decpt (fuel : nat) (num den d : Z) : Z :=
match fuel with
| O => d
| S fuel' => if below_pow10 num den d then d else find_decpt fuel' num den (d + 1)
end.

(** The least [d] with [m * 2^e < 10^d]. *)
Definition decpt (m : positive) (e : Z) : Z * Z * Z :=
let '(num, den) := if 0 <=? e then (Z.pos m * 2 ^ e, 1) else (Z.pos m, 2 ^ (- e)) in
let l := Z.log2 (Z.pos m) + e in
(num, den, find_decpt 8 num den (l * 30103 / 100000 - 1)).

(** The [p]-digit decimal for [x = num / den] that reads back as [x], if
    one of the two neighbours of [x] does. *)
Definition digits_at (x : float) (num den dp : Z) (p : Z) : option Z :=
let scale := p - dp in
let '(a, b) := if 0 <=? scale then (num * 10 ^ scale, den) else (num, den * 10 ^ (- scale)) in
let lo := a / b in
let r := a mod b in
let ok n := (decimal_to_float false n (- scale) =? x)%float in
let prefer_lo := (2 * r <? b) || ((2 * r =? b) && Z.even lo) in
match ok lo, ok (lo + 1) with
| true, true => Some (if prefer_lo then lo else lo + 1)
| true, false => Some lo
| false, true => Some (lo + 1)
| false, false => None
end.

Fixpoint shortest (fuel : nat) (x : float) (num den dp : Z) (p : Z) : Z * Z :=
match fuel with
| O => (0, p)
| S fuel' =>
    match digits_at x num den dp p with
    | Some n => (n, p)
    | None => shortest fuel' x num den dp (p + 1)
    end
end.

Fixpoint drop_str (n : nat) (s : string) : string :=
match n, s with
| S n', String _ s' => drop_str n' s'
| _, _ => s
end.

Definition layout (ds : string) (dp : Z) : string :=
let n := Z.of_nat (String.length ds) in
if (dp <? -3) || (16 <? dp) then
  let ex := dp - 1 in
  take_str 1 ds ++ (if 1 <? n then "." ++ drop_str 1 ds else "")
    ++ "e" ++ (if ex <? 0 then "-" else "+")
    ++ (if Z.abs ex <? 10 then "0" else "") ++ str_of_Z (Z.abs ex)
else if dp <=? 0 then "0." ++ repeat_str (Z.to_nat (- dp)) "0" ++ ds
else if n <=? dp then ds ++ repeat_str (Z.to_nat (dp - n)) "0" ++ ".0"
else take_str (Z.to_nat dp) ds ++ "." ++ drop_str (Z.to_nat dp) ds.

Definition ref_str_of_float (x : float) : string :=
match Prim2SF x with
| S754_nan => "nan"
| S754_infinity s => sign_str s ++ "inf"
| S754_zero s => sign_str s ++ "0.0"
| S754_finite s m e =>
    let '(num, den, dp) := decpt m e in
    let '(n, p) := shortest 17 (abs x) num den dp 1 in
    sign_str s ++
    (if n =? 10 ^ p then layout "1" (dp + 1) else layout (str_of_Z n) dp)
end.

(** [datetime.strptime]: the format becomes a regular expression, one
    alternation per directive, matched case-insensitively with
    backtracking; the match must use up the whole text, and the fields must
    form a valid date and time. *)

Inductive tok : Type :=
| TDir (d : ascii)
| TLit (c : ascii)
| TSpace.

Definition known_directive (d : ascii) : bool :=
existsb (Ascii.eqb d) ["Y"; "m"; "d"; "H"; "M"; "S"; "f"]%char.

Fixpoint tokens (fmt : string) : option (list tok) :=
match fmt with
| EmptyString => Some []
| String "%" (String d rest) =>
    if known_directive d then cons (TDir d) <$> tokens rest
    else if Ascii.eqb d "%" then cons (TLit "%") <$> tokens rest
    else None
| String "%" EmptyString => None
| String c rest =>
    if is_space c then cons TSpace <$> tokens rest else cons (TLit c) <$> tokens rest
end.

(** A run of blanks in the format is one [\s+]. *)
Fixpoint squeeze (toks : list tok) : list tok :=
match toks with
| TSpace :: ((TSpace :: _) as rest) => squeeze rest
| t :: rest => t :: squeeze rest
| [] => []
end.

Definition in_range (lo hi c : ascii) : bool :=
(nat_of_ascii lo <=? nat_of_ascii c)%nat && (nat_of_ascii c <=? nat_of_ascii hi)%nat.

(** The two-character alternatives of a directive, as a test on the two
    characters. *)
Definition two_chars (d a b : ascii) : bool :=
if Ascii.eqb d "m" then
  (Ascii.eqb a "1" && in_range "0" "2" b) || (Ascii.eqb a "0" && in_range "1" "9" b)
else if Ascii.eqb d "d" then
  (Ascii.eqb a "3" && in_range "0" "1" b) || (in_range "1" "2" a && is_digit b)
  || (Ascii.eqb a "0" && in_range "1" "9" b)
else if Ascii.eqb d "H" then
  (Ascii.eqb a "2" && in_range "0" "3" b) || (in_range "0" "1" a && is_digit b)
else if Ascii.eqb d "M" then in_range "0" "5" a && is_digit b
else if Ascii.eqb d "S" then
  (Ascii.eqb a "6" && in_range "0" "1" b) || (in_range "0" "5" a && is_digit b)
else false.

(** The one-character alternative. *)
Definition one_char (d a : ascii) : bool :=
if Ascii.eqb d "m" || Ascii.eqb d "d" then in_range "1" "9" a
else if Ascii.eqb d "H" || Ascii.eqb d "M" || Ascii.eqb d "S" then is_digit a
else false.

(** Up to [k] leading digits, longest first, each padded on the right to
    six digits: the alternatives of [%f]. *)
Fixpoint fraction_cands (k : nat) (s : string) (acc : Z) : list (Z * string) :=
match k, s with
| S k', String c s' =>
    if is_digit c then
      let v := acc * 10 + digit_val c in
      fraction_cands k' s' v ++ [(v * 10 ^ Z.of_nat k', s')]
    else []
| _, _ => []
end.

(** The ways a directive can match at the start of [s], in the order the
    regular expression tries them: the value and the rest. *)
Definition cands (d : ascii) (s : string) : list (Z * string) :=
if Ascii.eqb d "Y" then
  match s with
  | String a (String b (String c (String e r))) =>
      if is_digit a && is_digit b && is_digit c && is_digit e
      then [(((digit_val a * 10 + digit_val b) * 10 + digit_val c) * 10 + digit_val e, r)]
      else []
  | _ => []
  end
else if Ascii.eqb d "f" then fraction_cands 6 s 0
else
  match s with
  | String a r1 =>
      match r1 with
      | String b r2 => if two_chars d a b then [(digit_val a * 10 + digit_val b, r2)] else []
      | EmptyString => []
      end
      ++ (if one_char d a then [(digit_val a, r1)] else [])
      ++ match r1 with
         | String b r2 =>
             if Ascii.eqb d "d" && Ascii.eqb a " " && in_range "1" "9" b
             then [(digit_val b, r2)] else []
         | EmptyString => []
         end
  | EmptyString => []
  end.

(** The rests after one or more blanks, longest run first. *)
Fixpoint space_cands (s : string) : list string :=
match s with
| String c s' => if is_space c then space_cands s' ++ [s'] else []
| EmptyString => []
end.

Definition set_field (d : ascii) (v : Z) (f : datetime) : datetime :=
if Ascii.eqb d "Y" then mk_datetime v (dt_month f) (dt_day f) (dt_hour f) (dt_minute f) (dt_second f) (dt_microsecond f)
else if Ascii.eqb d "m" then mk_datetime (dt_year f) v (dt_day f) (dt_hour f) (dt_minute f) (dt_second f) (dt_microsecond f)
else if Ascii.eqb d "d" then mk_datetime (dt_year f) (dt_month f) v (dt_hour f) (dt_minute f) (dt_second f) (dt_microsecond f)
else if Ascii.eqb d "H" then mk_datetime (dt_year f) (dt_month f) (dt_day f) v (dt_minute f) (dt_second f) (dt_microsecond f)
else if Ascii.eqb d "M" then mk_datetime (dt_year f) (dt_month f) (dt_day f) (dt_hour f) v (dt_second f) (dt_microsecond f)
else if Ascii.eqb d "S" then mk_datetime (dt_year f) (dt_month f) (dt_day f) (dt_hour f) (dt_minute f) v (dt_microsecond f)
else mk_datetime (dt_year f) (dt_month f) (dt_day f) (dt_hour f) (dt_minute f) (dt_second f) v.

Definition first_success {A B : Type} (k : A -> option B) (l : list A) : option B :=
fold_right (fun a later => match k a with Some r => Some r | None => later end) None l.

Fixpoint sp_match (toks : list tok) (s : string) (f : datetime) : option (datetime * string) :=
match toks with
| [] => Some (f, s)
| TLit c :: toks' =>
    match s with
    | String x s' =>
        if Ascii.eqb (upper_char x) (upper_char c) then sp_match toks' s' f else None
    | EmptyString => None
    end
| TSpace :: toks' => first_success (fun rest => sp_match toks' rest f) (space_cands s)
| TDir d :: toks' =>
    first_success (fun vr => sp_match toks' (snd vr) (set_field d (fst vr) f)) (cands d s)
end.

Definition is_leap (y : Z) : bool :=
(y mod 4 =? 0) && (negb (y mod 100 =? 0) || (y mod 400 =? 0)).

Definition days_in_month (y m : Z) : Z :=
if m =? 2 then (if is_leap y then 29 else 28)
else if (m =? 4) || (m =? 6) || (m =? 9) || (m =? 11) then 30 else 31.

(** The checks of the [datetime] constructor. *)
Definition valid_datetime (f : datetime) : bool :=
(1 <=? dt_year f) && (dt_year f <=? 9999)
&& (1 <=? dt_month f) && (dt_month f <=? 12)
&& (1 <=? dt_day f) && (dt_day f <=? days_in_month (dt_year f) (dt_month f))
&& (dt_hour f <=? 23) && (dt_minute f <=? 59) && (dt_second f <=? 59).

Definition epoch_fields : datetime := mk_datetime 1900 1 1 0 0 0 0.

Definition ref_strptime (s fmt : string) : result datetime :=
match tokens fmt with
| None => ValueError
| Some toks =>
    match sp_match (squeeze toks) s epoch_fields with
    | Some (f, EmptyString) => if valid_datetime f then Ok f else ValueError
    | _ => ValueError
    end
end.

(** Days since 1970-01-01 of a proleptic Gregorian date. *)
Definition days_from_civil (y m d : Z) : Z :=
let y' := if m <=? 2 then y - 1 else y in
let era := y' / 400 in
let yoe := y' - era * 400 in
let doy := (153 * (if 2 <? m then m - 3 else m + 9) + 2) / 5 + d - 1 in
let doe := yoe * 365 + yoe / 4 - yoe / 100 + doy in
era * 146097 + doe - 719468.

Definition timestamp_of (f : datetime) (aware : bool) : Timestamp :=
mk_ts (days_from_civil (dt_year f) (dt_month f) (dt_day f) * NS_PER_DAY
       + ((dt_hour f * 60 + dt_minute f) * 60 + dt_second f) * NS_PER_SECOND
       + dt_microsecond f * 1000) aware.

(** The ISO 8601 layouts read by [ref_to_datetime], with whether the
    result carries a time zone. *)
Definition iso_formats : list (string * bool) :=
[ ("%Y-%m-%d", false);
  ("%Y-%m-%dT%H:%M:%S", false);
  ("%Y-%m-%d %H:%M:%S", false);
  ("%Y-%m-%dT%H:%M:%S.%f", false);
  ("%Y-%m-%d %H:%M:%S.%f", false);
  ("%Y-%m-%dT%H:%M:%SZ", true);
  ("%Y-%m-%dT%H:%M:%S.%fZ", true) ].

Definition nat_strings : list string := [""; "NaT"; "nat"; "NAT"; "nan"; "NaN"; "NAN"].

Definition ref_to_datetime (v : cell) : result dtval :=
match v with
| CNone => Ok DtNone
| CBool _ => TypeError
| CInt z => Ok (DtTs (mk_ts z false))
| CFloat f => if is_nan f then Ok DtNaT else n ← int_of_float f; Ok (DtTs (mk_ts n false))
| CStr s =>
    if existsb (String.eqb s) nat_strings then Ok DtNaT
    else
      match first_success
              (fun fa => match ref_strptime s (fst fa) with
                         | Ok f => Some (timestamp_of f (snd fa))
                         | Raise _ => None
                         end) iso_formats with
      | Some t => Ok (DtTs t)
      | None => ValueError
      end
end.

Definition ref_lib : PyLib :=
{| float_of_str := ref_float_of_str;
   int_of_str := ref_int_of_str;
   str_of_float := ref_str_of_float;
   to_datetime := ref_to_datetime;
   strptime := ref_strptime |}.

End RefLib.


(** ** Notions the statements use *)

Module Notions.
Import CDSRealTimeScraper.

(** The records a call hands to its caller: none when it raised. *)
Definition emitted {A : Type} (r : result (list A)) : list A :=
match r with
| Ok l => l
| Raise _ => []
end.

(** Deduplication as the specification words it: a row is admitted when
    its identifier is observed for the first time, that is, it is neither
    in [seen] nor carried by an earlier admitted row of the batch. *)
Fixpoint admitted (lib : PyLib) (seen : gset string) (rows : list row) : list row :=
match rows with
| [] => []
| r :: rest =>
    if bool_decide (trade_id_of lib r ∈ seen) then admitted lib seen rest
    else r :: admitted lib ({[trade_id_of lib r]} ∪ seen) rest
end.

(** The identifiers of a batch. *)
Definition batch_ids (lib : PyLib) (rows : list row) : gset string :=
list_to_set (trade_id_of lib <$> rows).

(** Every character of a text satisfies a test. *)
Fixpoint all_chars (cls : ascii -> bool) (s : string) : bool :=
match s with
| EmptyString => true
| String c s' => cls c && all_chars cls s'
end.

(** What the group of a pattern has collected after a further text. *)
Definition pushes (grp : option string) (a : string) : option string :=
match grp with
| Some g => Some (g ++ a)
| None => None
end.

(** A text without a double quote. *)
Definition quote_free (s : string) : bool :=
all_chars (fun c => negb (Ascii.eqb c quote)) s.

(** The first of the keys whose value in a dictionary is a list. *)
Fixpoint first_list (d : list (string * DTCCCDSScraper.pyval)) (keys : list string)
  : option (list DTCCCDSScraper.pyval) :=
match keys with
| [] => None
| key :: rest =>
    match DTCCCDSScraper.assoc d key with
    | Some (DTCCCDSScraper.PList l) => Some l
    | _ => first_list d rest
    end
end.

(** A list holds one of the keys as a string element. *)
Definition holds_key (l : list DTCCCDSScraper.pyval) (keys : list string) : bool :=
existsb (fun key =>
           existsb (fun v => match v with
                             | DTCCCDSScraper.PStr s => String.eqb s key
                             | _ => false
                             end) l) keys.

(** A text without a newline. *)
Definition newline_free (s : string) : bool :=
all_chars (fun c => negb (Ascii.eqb c newline)) s.

(** The same environment with another database. *)
Definition with_database (env : cycle_env) (db : list trade -> result unit) : cycle_env :=
{| source := source env; clock := clock env; database := db; sleeping := sleeping env |}.

(** [t.get(key, dflt) or alt] on the entries of a dictionary. *)
Definition get_or (d : list (string * DTCCCDSScraper.pyval)) (key : string)
    (dflt alt : DTCCCDSScraper.pyval) : DTCCCDSScraper.pyval :=
DTCCCDSScraper.py_or (default dflt (DTCCCDSScraper.assoc d key)) alt.

(** The text the two rating flags are computed from: the upper-cased
    [ratingClass], empty when the field is not a string. *)
Definition rating_text (d : list (string * DTCCCDSScraper.pyval)) : string :=
match get_or d "ratingClass" (DTCCCDSScraper.PStr "") (DTCCCDSScraper.PStr "") with
| DTCCCDSScraper.PStr s => upper s
| _ => ""
end.

(** No rating signal: [ratingClass] is absent, null or otherwise falsy. *)
Definition no_rating_signal (d : list (string * DTCCCDSScraper.pyval)) : bool :=
negb (DTCCCDSScraper.truthy
        (default (DTCCCDSScraper.PStr "") (DTCCCDSScraper.assoc d "ratingClass"))).

(** The ticker [process_trades] derives from an issuer name. *)
Definition ticker_of (issuer : string) : string :=
lookup_ticker issuer (take_str 6 issuer).

(** What makes [parse_trade] drop a record: it is no dictionary, or one of
    its numeric fields or its rating class does not convert. *)
Definition coercion_fails (lib : PyLib) (raw : DTCCCDSScraper.pyval) : bool :=
match raw with
| DTCCCDSScraper.PDict d =>
    negb (is_ok (DTCCCDSScraper.py_float lib
                   (get_or d "price" (DTCCCDSScraper.PInt 0) (DTCCCDSScraper.PInt 0))))
    || negb (is_ok (DTCCCDSScraper.py_float lib
                   (get_or d "notionalAmount" (DTCCCDSScraper.PInt 0) (DTCCCDSScraper.PInt 0))))
    || negb (is_ok (DTCCCDSScraper.int_times_100 lib
                   (get_or d "spread" (DTCCCDSScraper.PInt 0) (DTCCCDSScraper.PInt 0))))
    || negb (is_ok (DTCCCDSScraper.py_float lib
                   (get_or d "upfrontPayment" (DTCCCDSScraper.PInt 0) (DTCCCDSScraper.PInt 0))))
    || negb (is_ok (DTCCCDSScraper.py_upper
                   (get_or d "ratingClass" (DTCCCDSScraper.PStr "") (DTCCCDSScraper.PStr ""))))
| _ => true
end.

(** What [parse_trade] keeps of a record. *)
Definition kept (lib : PyLib) (now : datetime) (raw : DTCCCDSScraper.pyval)
  : option DTCCCDSScraper.trade :=
match DTCCCDSScraper.parse_trade_body lib now raw with
| Ok d => Some d
| Raise _ => None
end.

(** A result that is a value or an exception below [Exception]. *)
Definition ordinary {A : Type} (r : result A) : Prop :=
match r with
| Ok _ => True
| Raise e => is_Exception e = true
end.

(** An environment of the JSON-API cycle in which requests, decoding and
    the upsert return or raise below [Exception], and sleeping is not
    interrupted. *)
Definition ordinary_env (env : DTCCCDSScraper.cycle_env) : Prop :=
ordinary (DTCCCDSScraper.dashboard env)
/\ (forall ep, ordinary (DTCCCDSScraper.http_get env ep))
/\ (forall ep r, DTCCCDSScraper.http_get env ep = Ok r -> ordinary (DTCCCDSScraper.json r))
/\ (forall trades, ordinary (DTCCCDSScraper.upsert env trades))
/\ (forall seconds, DTCCCDSScraper.sleeping env seconds = Ok tt).

(** The sleep [run_forever] takes after a cycle. *)
Definition sleep_after (lib : PyLib) (env : DTCCCDSScraper.cycle_env) : Z :=
if is_ok (DTCCCDSScraper.scrape_cycle lib env) then 60 else 30.

End Notions.
Export Notions.

(** ** Sample data *)

Module Samples.
Import CDSRealTimeScraper RefLib.

Definition columns : list string :=
[ "Dissemination Identifier"; "Asset Class"; "Notional currency-Leg 1";
  "Underlying Asset Name"; "Notional amount-Leg 1"; "Execution Timestamp";
  "Expiration Date"; "Price"; "Platform identifier"; "Other payment amount" ].

(** A row of the slice for an issuer, with the given identifier and
    expiration date. *)
Definition slice_row (id : Z) (issuer expiration : string) : list cell :=
[ CInt id; CStr "CR"; CStr "EUR"; CStr issuer; CInt 5000000;
  CStr "2024-02-29T14:45:12Z"; CStr expiration; CFloat (12345 / 10000)%float;
  CStr "XOFF"; CFloat nan ].

(** 2024-06-20 00:00:00 *)
Definition clock_2024 : Z := 1718841600 * NS_PER_SECOND.

Definition sap_frame : DataFrame :=
mk_df columns [slice_row 1001 "SAP SE" "2027-06-20"].

Definition two_issuers : DataFrame :=
mk_df columns [ slice_row 1001 "SAP SE" "2027-06-20";
                slice_row 1002 "TELECOM ITALIA SPA" "2029-12-20" ].

(** A dashboard with one slice link, whose archive holds [df]. *)
Definition serving (df : DataFrame) : slice_env :=
{| dashboard_anchors := Ok [Some "/about"; Some "https://pddata.dtcc.com/CFTC_SLICE_CREDITS_2024_06_20.ZIP"];
   download := fun _ => Ok (Zip [("slice.csv", Table df)]) |}.

(** The slice link answers with a body that is not an archive. *)
Definition serving_garbage : slice_env :=
{| dashboard_anchors := Ok [Some "https://pddata.dtcc.com/CFTC_SLICE_CREDITS_2024_06_20.ZIP"];
   download := fun _ => Ok NotAZip |}.

Definition database_down : list trade -> result unit :=
fun _ => Raise (Exception "OperationalError").

Definition database_up : list trade -> result unit := fun _ => Ok tt.

Definition quiet_sleep : Z -> result unit := fun _ => Ok tt.

(** A cycle in which the slice holds the SAP row and the database is down. *)
Definition sap_cycle_database_down : cycle_env :=
{| source := serving sap_frame; clock := clock_2024;
   database := database_down; sleeping := quiet_sleep |}.

(** What [process_trades] hands over for the SAP row. *)
Definition sap_trades : list trade :=
Eval vm_compute in
  match (process_trades ref_lib clock_2024 ∅ sap_frame).2 with
  | Ok l => l
  | Raise _ => []
  end.

(** A record of the JSON API with the given maturity date and price; it
    has no rating class. *)
Definition api_record (maturity_date : string) (price : DTCCCDSScraper.pyval)
  : DTCCCDSScraper.pyval :=
DTCCCDSScraper.PDict
  [ ("executionTimestamp", DTCCCDSScraper.PStr "2024-02-29T14:45:12Z");
    ("referenceEntity", DTCCCDSScraper.PStr "SAP");
    ("issuerName", DTCCCDSScraper.PStr "SAP SE");
    ("price", price);
    ("notionalAmount", DTCCCDSScraper.PInt 5000000);
    ("tradeType", DTCCCDSScraper.PStr "TR");
    ("maturityDate", DTCCCDSScraper.PStr maturity_date);
    ("spread", DTCCCDSScraper.PFloat 0.5);
    ("currency", DTCCCDSScraper.PStr "EUR");
    ("executionVenue", DTCCCDSScraper.PStr "XOFF");
    ("upfrontPayment", DTCCCDSScraper.PInt 0) ].

(** Five records; the third carries a maturity date no format reads. *)
Definition five_records : list DTCCCDSScraper.pyval :=
[ api_record "2027-06-20" (DTCCCDSScraper.PFloat 1.25);
  api_record "2028-06-20" (DTCCCDSScraper.PFloat 1.25);
  api_record "not-a-date" (DTCCCDSScraper.PFloat 1.25);
  api_record "2029-06-20" (DTCCCDSScraper.PFloat 1.25);
  api_record "20/06/2030" (DTCCCDSScraper.PFloat 1.25) ].

(** Five records; the price of the third is text that is no number. *)
Definition five_records_bad_price : list DTCCCDSScraper.pyval :=
[ api_record "2027-06-20" (DTCCCDSScraper.PFloat 1.25);
  api_record "2028-06-20" (DTCCCDSScraper.PFloat 1.25);
  api_record "2028-09-20" (DTCCCDSScraper.PStr "n/a");
  api_record "2029-06-20" (DTCCCDSScraper.PFloat 1.25);
  api_record "20/06/2030" (DTCCCDSScraper.PFloat 1.25) ].

(** 2024-06-20 09:30:00 *)
Definition wall_clock : datetime := mk_datetime 2024 6 20 9 30 0 0.

(** Five rows of the slice; the third carries an expiration date pandas
    does not read. *)
Definition five_rows : DataFrame :=
mk_df columns [ slice_row 1 "SAP SE" "2027-06-20";
                slice_row 2 "BMW AG" "2028-06-20";
                slice_row 3 "SIEMENS AG" "not-a-date";
                slice_row 4 "SHELL PLC" "2029-06-20";
                slice_row 5 "SAP SE" "2030-06-20" ].

(** The SAP row as [iterrows] yields it, and the dictionary
    [process_trades] makes of it. *)
Definition sap_row : row := label columns (slice_row 1001 "SAP SE" "2027-06-20").

Definition sap_trade : trade :=
Eval vm_compute in
  match process_row ref_lib clock_2024 sap_row with
  | Ok t => t
  | Raise _ =>
      mk_trade (mk_time 0 0 0 0) "" 0%float "" "" "" 0 "" 0 "" None "" "" ""
  end.

(** The entries of a JSON record without [ratingClass], and the dictionary
    [parse_trade] makes of it. *)
Definition unrated_entries : list (string * DTCCCDSScraper.pyval) :=
match api_record "2027-06-20" (DTCCCDSScraper.PFloat 1.25) with
| DTCCCDSScraper.PDict d => d
| _ => []
end.

Definition unrated_trade : DTCCCDSScraper.trade :=
Eval vm_compute in
  match DTCCCDSScraper.parse_trade_body ref_lib wall_clock
          (DTCCCDSScraper.PDict unrated_entries) with
  | Ok d => d
  | Raise _ =>
      DTCCCDSScraper.mk_trade "" DTCCCDSScraper.PNone DTCCCDSScraper.PNone 0%float
        0%float DTCCCDSScraper.PNone "" 0 DTCCCDSScraper.PNone DTCCCDSScraper.PNone
        0%float false false
  end.

(** A slice with rows the filter turns down: an interest-rate row, a
    dollar row and an issuer outside the list. *)
Definition mixed_frame : DataFrame :=
mk_df columns
  [ slice_row 1001 "SAP SE" "2027-06-20";
    [ CInt 1002; CStr "IR"; CStr "EUR"; CStr "SAP SE"; CInt 5000000;
      CStr "2024-02-29T14:45:12Z"; CStr "2027-06-20"; CFloat 1.5; CStr "XOFF";
      CFloat nan ];
    [ CInt 1003; CStr "CR"; CStr "USD"; CStr "BMW AG"; CInt 5000000;
      CStr "2024-02-29T14:45:12Z"; CStr "2027-06-20"; CFloat 1.5; CStr "XOFF";
      CFloat nan ];
    slice_row 1004 "ACME CORP" "2027-06-20";
    slice_row 1005 "BMW AG" "2028-06-20" ].

(** A slice without the currency column. *)
Definition frame_without_currency : DataFrame :=
mk_df ["Dissemination Identifier"; "Asset Class"; "Underlying Asset Name"]
      [[CInt 1; CStr "CR"; CStr "SAP SE"]].

(** A slice without the issuer column. *)
Definition frame_without_issuer : DataFrame :=
mk_df ["Dissemination Identifier"; "Asset Class"]
      [[CInt 1; CStr "CR"]; [CInt 2; CStr "CR"]].

(** The rows of [five_rows] as [iterrows] yields them: the two before the
    row with the unreadable date, that row, and the two after it. *)
Definition rows_before_bad : list row :=
[ label columns (slice_row 1 "SAP SE" "2027-06-20");
  label columns (slice_row 2 "BMW AG" "2028-06-20") ].

Definition bad_row : row := label columns (slice_row 3 "SIEMENS AG" "not-a-date").

Definition rows_after_bad : list row :=
[ label columns (slice_row 4 "SHELL PLC" "2029-06-20");
  label columns (slice_row 5 "SAP SE" "2030-06-20") ].

(** A cycle whose dashboard carries no slice link, with the database down. *)
Definition no_link_cycle : cycle_env :=
{| source := {| dashboard_anchors := Ok [Some "/about"; None; Some "/CFTC_SLICE_RATES.ZIP"];
                download := fun _ => Raise (Exception "ClientError") |};
   clock := clock_2024; database := database_down; sleeping := quiet_sleep |}.

(** A JSON record with a null currency and a spread written as text. *)
Definition sparse_entries : list (string * DTCCCDSScraper.pyval) :=
[ ("currency", DTCCCDSScraper.PNone); ("spread", DTCCCDSScraper.PStr "5");
  ("price", DTCCCDSScraper.PStr "") ].

Definition sparse_trade : DTCCCDSScraper.trade :=
Eval vm_compute in
  match DTCCCDSScraper.parse_trade_body ref_lib wall_clock
          (DTCCCDSScraper.PDict sparse_entries) with
  | Ok d => d
  | Raise _ =>
      DTCCCDSScraper.mk_trade "" DTCCCDSScraper.PNone DTCCCDSScraper.PNone 0%float
        0%float DTCCCDSScraper.PNone "" 0 DTCCCDSScraper.PNone DTCCCDSScraper.PNone
        0%float false false
  end.

Definition q : string := String quote EmptyString.

(** A dashboard page whose script names three endpoints, one of them
    twice. *)
Definition dashboard_with_endpoints : string :=
"<script>fetch(" ++ q ++ "/ppd/api/cds/trades" ++ q ++ "); var u = " ++ q
  ++ "/ppd/api/cds/slices" ++ q ++ "; fetch(" ++ q
  ++ "https://pddata.dtcc.com/v2/api/rates" ++ q ++ "); fetch(" ++ q
  ++ "/ppd/api/cds/trades" ++ q ++ ")</script>".

(** A dashboard page that names no endpoint. *)
Definition dashboard_without_endpoints : string :=
"<html><body>CFTC dashboard</body></html>".

(** A cycle of the tabular loop whose download is no archive. *)
Definition garbage_cycle : cycle_env :=
{| source := serving_garbage; clock := clock_2024;
   database := database_up; sleeping := quiet_sleep |}.

(** A cycle of the tabular loop that would go through. *)
Definition good_cycle : cycle_env :=
{| source := serving sap_frame; clock := clock_2024;
   database := database_up; sleeping := quiet_sleep |}.

(** A response with status 200 and the given JSON body. *)
Definition ok_response (body : DTCCCDSScraper.pyval) : DTCCCDSScraper.response :=
{| DTCCCDSScraper.status_code := 200; DTCCCDSScraper.json := Ok body |}.

(** A cycle of the JSON-API loop: the default endpoint serves the five
    records under the key trades. *)
Definition api_good_cycle : DTCCCDSScraper.cycle_env :=
{| DTCCCDSScraper.dashboard := Raise (Exception "ConnectionError");
   DTCCCDSScraper.http_get := fun _ =>
     Ok (ok_response (DTCCCDSScraper.PDict
                        [("count", DTCCCDSScraper.PInt 5);
                         ("trades", DTCCCDSScraper.PList five_records)]));
   DTCCCDSScraper.now := wall_clock;
   DTCCCDSScraper.upsert := fun _ => Ok tt;
   DTCCCDSScraper.sleeping := fun _ => Ok tt |}.

(** A cycle of the JSON-API loop in which the upsert fails. *)
Definition api_upsert_fails : DTCCCDSScraper.cycle_env :=
{| DTCCCDSScraper.dashboard := Raise (Exception "ConnectionError");
   DTCCCDSScraper.http_get := fun _ =>
     Ok (ok_response (DTCCCDSScraper.PList five_records));
   DTCCCDSScraper.now := wall_clock;
   DTCCCDSScraper.upsert := fun _ => Raise (Exception "APIError");
   DTCCCDSScraper.sleeping := fun _ => Ok tt |}.

(** A record that [parse_trade] drops: its price is a list. *)
Definition dropped_record : DTCCCDSScraper.pyval :=
api_record "2027-06-20" (DTCCCDSScraper.PList [DTCCCDSScraper.PInt 1]).

(** A cycle of the JSON-API loop: discovery fails, and the default endpoint
    serves two records that are both dropped. *)
Definition api_all_dropped : DTCCCDSScraper.cycle_env :=
{| DTCCCDSScraper.dashboard := Raise (Exception "ConnectionError");
   DTCCCDSScraper.http_get := fun _ =>
     Ok (ok_response (DTCCCDSScraper.PList [dropped_record; dropped_record]));
   DTCCCDSScraper.now := wall_clock;
   DTCCCDSScraper.upsert := fun _ => Raise (Exception "APIError");
   DTCCCDSScraper.sleeping := fun _ => Ok tt |}.

(** A cycle of the JSON-API loop: the dashboard names three endpoints, and
    only the one listed third serves records. *)
Definition api_third_endpoint_only : DTCCCDSScraper.cycle_env :=
{| DTCCCDSScraper.dashboard := Ok dashboard_with_endpoints;
   DTCCCDSScraper.http_get := fun ep =>
     if String.eqb ep "https://pddata.dtcc.com/ppd/api/cds/trades"
     then Ok (ok_response (DTCCCDSScraper.PList five_records))
     else Ok (ok_response (DTCCCDSScraper.PList []));
   DTCCCDSScraper.now := wall_clock;
   DTCCCDSScraper.upsert := fun _ => Ok tt;
   DTCCCDSScraper.sleeping := fun _ => Ok tt |}.

(** A JSON record whose rating class is a plain English phrase. *)
Definition high_yield_entries : list (string * DTCCCDSScraper.pyval) :=
[ ("referenceEntity", DTCCCDSScraper.PStr "TITIM");
  ("ratingClass", DTCCCDSScraper.PStr "High Yield") ].

Definition high_yield_trade : DTCCCDSScraper.trade :=
Eval vm_compute in
  match DTCCCDSScraper.parse_trade_body ref_lib wall_clock
          (DTCCCDSScraper.PDict high_yield_entries) with
  | Ok d => d
  | Raise _ =>
      DTCCCDSScraper.mk_trade "" DTCCCDSScraper.PNone DTCCCDSScraper.PNone 0%float
        0%float DTCCCDSScraper.PNone "" 0 DTCCCDSScraper.PNone DTCCCDSScraper.PNone
        0%float false false
  end.

(** A cycle of the JSON-API loop interrupted during the dashboard request. *)
Definition api_interrupted_request : DTCCCDSScraper.cycle_env :=
{| DTCCCDSScraper.dashboard := Raise KeyboardInterrupt;
   DTCCCDSScraper.http_get := DTCCCDSScraper.http_get api_good_cycle;
   DTCCCDSScraper.now := wall_clock;
   DTCCCDSScraper.upsert := fun _ => Ok tt;
   DTCCCDSScraper.sleeping := fun _ => Ok tt |}.

(** A cycle of the JSON-API loop interrupted during the request to the
    endpoint. *)
Definition api_interrupted_fetch : DTCCCDSScraper.cycle_env :=
{| DTCCCDSScraper.dashboard := Raise (Exception "ConnectionError");
   DTCCCDSScraper.http_get := fun _ => Raise KeyboardInterrupt;
   DTCCCDSScraper.now := wall_clock;
   DTCCCDSScraper.upsert := fun _ => Ok tt;
   DTCCCDSScraper.sleeping := fun _ => Ok tt |}.

(** A cycle of the JSON-API loop that goes through and is interrupted while
    it sleeps. *)
Definition api_interrupted_sleep : DTCCCDSScraper.cycle_env :=
{| DTCCCDSScraper.dashboard := DTCCCDSScraper.dashboard api_good_cycle;
   DTCCCDSScraper.http_get := DTCCCDSScraper.http_get api_good_cycle;
   DTCCCDSScraper.now := wall_clock;
   DTCCCDSScraper.upsert := fun _ => Ok tt;
   DTCCCDSScraper.sleeping := fun _ => Raise KeyboardInterrupt |}.

(** A cycle of the JSON-API loop in which the upsert fails and the sleep
    after the failure is interrupted. *)
Definition api_interrupted_backoff : DTCCCDSScraper.cycle_env :=
{| DTCCCDSScraper.dashboard := DTCCCDSScraper.dashboard api_upsert_fails;
   DTCCCDSScraper.http_get := DTCCCDSScraper.http_get api_upsert_fails;
   DTCCCDSScraper.now := wall_clock;
   DTCCCDSScraper.upsert := DTCCCDSScraper.upsert api_upsert_fails;
   DTCCCDSScraper.sleeping := fun _ => Raise KeyboardInterrupt |}.

End Samples.

(** * Properties *)

Import CDSRealTimeScraper.

(** ** Tenor *)

Lemma NS_PER_DAY_pos : 0 < NS_PER_DAY.
Proof. unfold NS_PER_DAY, NS_PER_SECOND. lia. Qed.

(** Whole days first and whole years of 365 days next is the same as whole
    years of 365 days of the exact difference. *)
Lemma days_then_years (td : Z) :
  timedelta_days td / 365 = td / (365 * NS_PER_DAY).
Proof.
  unfold timedelta_days.
  rewrite Z.div_div by (pose proof NS_PER_DAY_pos; lia).
  f_equal; lia.
Qed.

Lemma years_to_maturity_naive (expiry now : Z) :
  years_to_maturity (DtTs (mk_ts expiry false)) now
    = Ok (Z.max 1 ((expiry - now) / (365 * NS_PER_DAY))).
Proof.
  unfold years_to_maturity. cbn [ts_aware ts_ns].
  now rewrite days_then_years.
Qed.

(** C6: for every maturity date (a naive timestamp, in the past, near or
    far), the tenor [process_trades] computes is
    [max(1, floor((maturity_date - now) / 365 days))], and it is at least 1. *)
Theorem tenor_floor_at_least_one (expiry now : Z) :
  years_to_maturity (DtTs (mk_ts expiry false)) now
    = Ok (Z.max 1 ((expiry - now) / (365 * NS_PER_DAY)))
  /\ 1 <= Z.max 1 ((expiry - now) / (365 * NS_PER_DAY)).
Proof.
  split.
  - apply years_to_maturity_naive.
  - apply Z.le_max_l.
Qed.

(** A maturity in the past or less than 365 days ahead has tenor 1. *)
Lemma tenor_near_dated (expiry now : Z) :
  expiry - now < 365 * NS_PER_DAY ->
  years_to_maturity (DtTs (mk_ts expiry false)) now = Ok 1.
Proof.
  intros Hlt.
  rewrite years_to_maturity_naive.
  f_equal. apply Z.max_l.
  pose proof NS_PER_DAY_pos.
  assert ((expiry - now) / (365 * NS_PER_DAY) < 1); [|lia].
  apply Z.div_lt_upper_bound; lia.
Qed.

(** ** Deduplication *)

Section Dedup.
Context (lib : PyLib).

(** Whether and how a row fails does not depend on the clock. *)
Lemma process_row_raise_any_clock (now1 now2 : Z) (r : row) (e : exn) :
  process_row lib now1 r = Raise e -> process_row lib now2 r = Raise e.
Proof.
  unfold process_row, mbind, result_bind, years_to_maturity.
  intros H.
  destruct (cell_slice 6 _); [|exact H].
  destruct (cell_float lib (row_get r "Notional amount-Leg 1" _)); [|exact H].
  destruct (to_datetime lib (row_get r "Execution Timestamp" _)); [|exact H].
  destruct (dt_time _); [|exact H].
  destruct (to_datetime lib (row_get r "Expiration Date" _)) as [[| |t]|]; [exact H| |..|exact H].
  - destruct (cell_float lib (row_get r "Price" _)); [|exact H].
    destruct (cell_slice 4 _); [|exact H].
    destruct (format_notional _); [|exact H].
    exact H.
  - destruct (ts_aware t); [exact H|].
    destruct (cell_float lib (row_get r "Price" _)); [|exact H].
    destruct (cell_slice 4 _); [|exact H].
    destruct (format_notional _); [|exact H].
    destruct (dt_strftime _); [|exact H].
    destruct (int_of_float _); [|exact H].
    destruct (if notnull _ then _ else _); [discriminate|exact H].
Qed.

(** *** The specification's view: first occurrences *)

Lemma admitted_fresh (seen : gset string) (rows : list row) (r : row) :
  r ∈ admitted lib seen rows -> trade_id_of lib r ∉ seen.
Proof.
  revert seen. induction rows as [|r0 rest IH]; intros seen Hin; cbn in Hin.
  - inversion Hin.
  - case_bool_decide as Hseen.
    + now apply IH.
    + apply elem_of_cons in Hin as [->|Hin]; [exact Hseen|].
      apply IH in Hin. set_solver.
Qed.

Lemma admitted_ids_nodup (seen : gset string) (rows : list row) :
  NoDup (trade_id_of lib <$> admitted lib seen rows).
Proof.
  revert seen. induction rows as [|r0 rest IH]; intros seen; cbn.
  - constructor.
  - case_bool_decide as Hseen; [apply IH|].
    cbn. constructor; [|apply IH].
    intros Hin. apply list_elem_of_fmap in Hin as (r & Heq & Hin).
    apply admitted_fresh in Hin. set_solver.
Qed.

(** Every identifier of the batch that was not seen before is admitted
    once. *)
Lemma admitted_complete (seen : gset string) (rows : list row) (r : row) :
  r ∈ rows -> trade_id_of lib r ∉ seen ->
  trade_id_of lib r ∈ (trade_id_of lib <$> admitted lib seen rows).
Proof.
  revert seen. induction rows as [|r0 rest IH]; intros seen Hin Hfresh.
  - inversion Hin.
  - cbn. apply elem_of_cons in Hin as [->|Hin].
    + rewrite bool_decide_eq_false_2 by exact Hfresh. cbn. left.
    + case_bool_decide as Hseen; [now apply IH|].
      cbn. destruct (decide (trade_id_of lib r = trade_id_of lib r0)) as [->|Hne].
      * left.
      * right. apply IH; [exact Hin|].
        apply not_elem_of_union. split; [now apply not_elem_of_singleton|exact Hfresh].
Qed.

Lemma admitted_all_seen (seen : gset string) (rows : list row) :
  (forall r, r ∈ rows -> trade_id_of lib r ∈ seen) -> admitted lib seen rows = [].
Proof.
  induction rows as [|r0 rest IH]; intros Hall; cbn; [reflexivity|].
  rewrite bool_decide_eq_true_2 by (apply Hall; left).
  apply IH. intros r Hr. apply Hall. now right.
Qed.

(** *** The loop against the specification *)

(** What the loop returns is what normalising the admitted rows in order
    returns, appended to the accumulator; a failing row ends both. *)
Lemma process_rows_result (now : Z) (rows : list row) (seen : gset string)
    (acc : list trade) :
  (process_rows lib now rows seen acc).2
  = (l ← mapM (process_row lib now) (admitted lib seen rows); Ok (acc ++ l)%list).
Proof.
  revert seen acc. induction rows as [|r rest IH]; intros seen acc; cbn.
  - now rewrite app_nil_r.
  - case_bool_decide as Hseen; [apply IH|].
    cbn. destruct (process_row lib now r) as [t|e]; cbn; [|reflexivity].
    rewrite IH.
    destruct (mapM (process_row lib now) (admitted lib _ rest)) as [l|e]; cbn;
      [|reflexivity].
    now rewrite <- app_assoc.
Qed.

(** The set only grows. *)
Lemma process_rows_grows (now : Z) (rows : list row) (seen : gset string)
    (acc : list trade) :
  seen ⊆ (process_rows lib now rows seen acc).1.
Proof.
  revert seen acc. induction rows as [|r rest IH]; intros seen acc; cbn;
    [reflexivity|].
  case_bool_decide as Hseen; [apply IH|].
  destruct (process_row lib now r) as [t|e]; cbn; [|reflexivity].
  etrans; [|apply IH]. set_solver.
Qed.

(** After a run that returned, every identifier of the batch is in the
    set. *)
Lemma process_rows_marks (now : Z) (rows : list row) (seen : gset string)
    (acc out : list trade) (r : row) :
  (process_rows lib now rows seen acc).2 = Ok out ->
  r ∈ rows -> trade_id_of lib r ∈ (process_rows lib now rows seen acc).1.
Proof.
  revert seen acc. induction rows as [|r0 rest IH]; intros seen acc Hok Hin.
  - inversion Hin.
  - cbn in *. case_bool_decide as Hseen.
    + apply elem_of_cons in Hin as [->|Hin]; [|now apply IH].
      now apply process_rows_grows.
    + destruct (process_row lib now r0) as [t|e]; cbn in *; [|discriminate].
      apply elem_of_cons in Hin as [->|Hin]; [|now apply IH].
      apply process_rows_grows. set_solver.
Qed.

(** A batch whose identifiers are all in the set yields nothing and leaves
    the set as it is. *)
Lemma process_rows_all_seen (now : Z) (rows : list row) (seen : gset string)
    (acc : list trade) :
  (forall r, r ∈ rows -> trade_id_of lib r ∈ seen) ->
  process_rows lib now rows seen acc = (seen, Ok acc).
Proof.
  induction rows as [|r0 rest IH]; intros Hall; cbn; [reflexivity|].
  rewrite bool_decide_eq_true_2 by (apply Hall; left).
  apply IH. intros r Hr. apply Hall. now right.
Qed.

(** A run that raised raises again, at the same row, when the batch is fed
    again: nothing is emitted and the set stays. *)
Lemma process_rows_raise_again (now1 now2 : Z) (rows : list row)
    (seen : gset string) (acc1 acc2 : list trade) (e : exn) :
  (process_rows lib now1 rows seen acc1).2 = Raise e ->
  process_rows lib now2 rows (process_rows lib now1 rows seen acc1).1 acc2
  = ((process_rows lib now1 rows seen acc1).1, Raise e).
Proof.
  revert seen acc1. induction rows as [|r rest IH]; intros seen acc1 Hr; cbn in *.
  - discriminate.
  - case_bool_decide as Hseen.
    + rewrite bool_decide_eq_true_2
        by (now apply process_rows_grows).
      now apply IH.
    + destruct (process_row lib now1 r) as [t|e'] eqn:Hrow; cbn in *.
      * rewrite bool_decide_eq_true_2
          by (apply process_rows_grows; set_solver).
        now apply IH.
      * injection Hr as ->.
        rewrite bool_decide_eq_false_2 by exact Hseen.
        now rewrite (process_row_raise_any_clock now1 now2 r e Hrow).
Qed.

(** Feeding a batch again, right after it was processed. *)
Lemma process_rows_again (now1 now2 : Z) (rows : list row) (seen : gset string)
    (acc1 acc2 : list trade) :
  process_rows lib now2 rows (process_rows lib now1 rows seen acc1).1 acc2
  = ((process_rows lib now1 rows seen acc1).1,
     _ ← (process_rows lib now1 rows seen acc1).2; Ok acc2).
Proof.
  destruct (process_rows lib now1 rows seen acc1).2 as [out|e] eqn:Hr; cbn.
  - apply process_rows_all_seen. intros r Hin.
    now apply (process_rows_marks now1 rows seen acc1 out).
  - now apply process_rows_raise_again.
Qed.

End Dedup.

(** C1: a batch fed twice.  The first call returns what normalising, in
    order, the rows whose identifier is observed for the first time
    returns; the second call, whatever the clock, emits nothing and leaves
    the set as the first call left it (and returns the empty list when the
    first call returned).  The admitted rows carry pairwise distinct
    identifiers, none of them seen before. *)
Theorem same_batch_twice (lib : PyLib) (now1 now2 : Z) (seen : gset string)
    (df : DataFrame) :
  let first := process_trades lib now1 seen df in
  let second := process_trades lib now2 first.1 df in
  first.2 = mapM (process_row lib now1) (admitted lib seen (iterrows df))
  /\ second = (first.1, _ ← first.2; Ok [])
  /\ emitted second.2 = []
  /\ NoDup (trade_id_of lib <$> admitted lib seen (iterrows df))
  /\ (forall r, r ∈ admitted lib seen (iterrows df) -> trade_id_of lib r ∉ seen)
  /\ (forall r, r ∈ iterrows df -> trade_id_of lib r ∉ seen ->
        trade_id_of lib r ∈ (trade_id_of lib <$> admitted lib seen (iterrows df))).
Proof.
  cbv zeta. unfold process_trades.
  assert (Hsecond := process_rows_again lib now1 now2 (iterrows df) seen [] []).
  repeat split.
  - rewrite process_rows_result. cbn.
    now destruct (mapM _ _).
  - exact Hsecond.
  - rewrite Hsecond. cbn. now destruct (process_rows lib now1 _ seen []).2.
  - apply admitted_ids_nodup.
  - intros r. apply admitted_fresh.
  - intros r. apply admitted_complete.
Qed.

(** ** The set and persistence *)

Section Persistence.
Context (lib : PyLib).

Lemma process_trades_grows (now : Z) (seen : gset string) (df : DataFrame) :
  seen ⊆ (process_trades lib now seen df).1.
Proof. apply process_rows_grows. Qed.

Lemma cycle_grows (env : cycle_env) (seen : gset string) :
  seen ⊆ (cycle lib env seen).1.
Proof.
  unfold cycle.
  destruct (get_latest_credit_slice _) as [df|]; [|reflexivity].
  destruct (filter_eur_cds df) as [eur|]; [|reflexivity].
  pose proof (process_trades_grows (clock env) seen eur) as Hsub.
  destruct (process_trades lib (clock env) seen eur) as [seen' [trades|e]];
    exact Hsub.
Qed.

(** The set of a later cycle contains the set of every earlier one. *)
Lemma run_grows (envs : list cycle_env) (seen : gset string) :
  seen ⊆ (run lib envs seen).1.2.
Proof.
  revert seen. induction envs as [|env rest IH]; intros seen; cbn;
    [reflexivity|].
  pose proof (cycle_grows env seen) as Hsub.
  destruct (cycle lib env seen) as [seen' [u|e]]; cbn in *; [|exact Hsub].
  specialize (IH seen').
  destruct (run lib rest seen') as [[sleeps final] status]; cbn in *.
  etrans; [exact Hsub|exact IH].
Qed.

(** The set a cycle leaves behind is decided before the database is
    touched. *)
Lemma cycle_set_without_database (env : cycle_env) (seen : gset string)
    (db : list trade -> result unit) :
  (cycle lib (with_database env db) seen).1 = (cycle lib env seen).1.
Proof.
  unfold cycle, with_database. cbn.
  destruct (get_latest_credit_slice _) as [df|]; [|reflexivity].
  destruct (filter_eur_cds df) as [eur|]; [|reflexivity].
  now destruct (process_trades lib (clock env) seen eur) as [seen' [trades|e]].
Qed.

(** C9: the identifiers enter the set in [process_trades], before
    [save_trades] runs and whatever it does.  When the batch was processed
    and the database write then fails, the cycle ends with that error and
    with the identifiers of the whole batch in the set, the same set as
    with any other database; from then on, in any later state of the set
    and at any time, the batch yields nothing, and no admitted row of any
    batch carries one of these identifiers. *)
Theorem marked_before_persistence (env : cycle_env) (seen seen1 : gset string)
    (df : option DataFrame) (eur : DataFrame) (trades : list trade) (e : exn) :
  get_latest_credit_slice (source env) = Ok df ->
  filter_eur_cds df = Ok eur ->
  process_trades lib (clock env) seen eur = (seen1, Ok trades) ->
  save_trades (database env) trades = Raise e ->
  cycle lib env seen = (seen1, Raise e)
  /\ (forall db, (cycle lib (with_database env db) seen).1 = seen1)
  /\ (forall r, r ∈ iterrows eur -> trade_id_of lib r ∈ seen1)
  /\ (forall envs, seen1 ⊆ (run lib envs seen1).1.2)
  /\ (forall now' seen', seen1 ⊆ seen' ->
        process_trades lib now' seen' eur = (seen', Ok []))
  /\ (forall seen' df' r, seen1 ⊆ seen' ->
        r ∈ admitted lib seen' (iterrows df') -> trade_id_of lib r ∉ seen1).
Proof.
  intros Hget Hfilter Hproc Hsave.
  assert (Hcycle : cycle lib env seen = (seen1, Raise e)).
  { unfold cycle. rewrite Hget, Hfilter, Hproc. cbn. now rewrite Hsave. }
  assert (Hmarked : forall r, r ∈ iterrows eur -> trade_id_of lib r ∈ seen1).
  { intros r Hin.
    pose proof (process_rows_marks lib (clock env) (iterrows eur) seen [] trades r)
      as Hm.
    unfold process_trades in Hproc. rewrite Hproc in Hm. now apply Hm. }
  repeat split.
  - exact Hcycle.
  - intros db. rewrite cycle_set_without_database. now rewrite Hcycle.
  - exact Hmarked.
  - intros envs. apply run_grows.
  - intros now' seen' Hsub. apply process_rows_all_seen.
    intros r Hin. apply Hsub. now apply Hmarked.
  - intros seen' df' r Hsub Hin Hold.
    apply admitted_fresh in Hin. apply Hin. now apply Hsub.
Qed.

End Persistence.

Import Samples RefLib.

Lemma marked_before_persistence_witness :
  (get_latest_credit_slice (source sap_cycle_database_down) = Ok (Some sap_frame)
   /\ filter_eur_cds (Some sap_frame) = Ok sap_frame
   /\ process_trades ref_lib (clock sap_cycle_database_down) ∅ sap_frame
      = ({["1001"]}, Ok sap_trades)
   /\ save_trades (database sap_cycle_database_down) sap_trades
      = Raise (Exception "OperationalError"))
  /\ (cycle ref_lib sap_cycle_database_down ∅
        = ({["1001"]}, Raise (Exception "OperationalError"))
      /\ (forall db, (cycle ref_lib (with_database sap_cycle_database_down db) ∅).1
                     = {["1001"]})
      /\ (forall r, r ∈ iterrows sap_frame -> trade_id_of ref_lib r ∈ ({["1001"]} : gset string))
      /\ (forall envs, {["1001"]} ⊆ (run ref_lib envs {["1001"]}).1.2)
      /\ (forall now' seen', {["1001"]} ⊆ seen' ->
            process_trades ref_lib now' seen' sap_frame = (seen', Ok []))
      /\ (forall seen' df' r, {["1001"]} ⊆ seen' ->
            r ∈ admitted ref_lib seen' (iterrows df') ->
            trade_id_of ref_lib r ∉ ({["1001"]} : gset string))).
Proof.
  assert (H1 : get_latest_credit_slice (source sap_cycle_database_down)
               = Ok (Some sap_frame)) by (vm_compute; reflexivity).
  assert (H2 : filter_eur_cds (Some sap_frame) = Ok sap_frame)
    by (vm_compute; reflexivity).
  assert (H3 : process_trades ref_lib (clock sap_cycle_database_down) ∅ sap_frame
               = ({["1001"]}, Ok sap_trades)) by (vm_compute; reflexivity).
  assert (H4 : save_trades (database sap_cycle_database_down) sap_trades
               = Raise (Exception "OperationalError")) by (vm_compute; reflexivity).
  split; [repeat split; assumption|].
  exact (marked_before_persistence ref_lib sap_cycle_database_down ∅ {["1001"]}
           (Some sap_frame) sap_frame sap_trades (Exception "OperationalError")
           H1 H2 H3 H4).
Defined.

(** ** Notional display *)

Lemma frac_digits_length (d : nat) (n : Z) : String.length (frac_digits d n) = d.
Proof. induction d as [|d IH]; cbn; [reflexivity|now rewrite IH]. Qed.

(** [round_half_even p q] is an integer nearest to [p / q]. *)
Lemma round_half_even_nearest (p q : Z) :
  0 < q -> 2 * Z.abs (round_half_even p q * q - p) <= q.
Proof.
  intros Hq. unfold round_half_even.
  pose proof (Z.div_mod p q ltac:(lia)) as Hdm.
  pose proof (Z.mod_pos_bound p q Hq) as Hr.
  set (k := p / q) in *. set (r := p mod q) in *.
  assert (Hk : k * q - p = - r) by lia.
  assert (Hk1 : (k + 1) * q - p = q - r) by lia.
  destruct (2 * r <? q) eqn:H1.
  - apply Z.ltb_lt in H1. rewrite Hk. lia.
  - apply Z.ltb_ge in H1. destruct (q <? 2 * r) eqn:H2.
    + apply Z.ltb_lt in H2. rewrite Hk1. lia.
    + apply Z.ltb_ge in H2. destruct (Z.even k); [rewrite Hk|rewrite Hk1]; lia.
Qed.

(** The integer [format_f] prints is the value [m * 2^e * 10^d] itself when
    that is an integer, and an integer nearest to it otherwise. *)
Lemma scaled_round_nearest (m : positive) (e : Z) (d : nat) :
  if 0 <=? e then scaled_round m e d = Z.pos m * 2 ^ e * 10 ^ Z.of_nat d
  else 2 * Z.abs (scaled_round m e d * 2 ^ (- e) - Z.pos m * 10 ^ Z.of_nat d)
       <= 2 ^ (- e).
Proof.
  unfold scaled_round. destruct (0 <=? e) eqn:He; [reflexivity|].
  apply Z.leb_gt in He. apply round_half_even_nearest.
  apply Z.pow_pos_nonneg; lia.
Qed.

(** A finite float printed with [d >= 1] decimals: the integer part, a
    point, and exactly [d] digits. *)
Lemma format_f_finite (d : nat) (x : float) (s : bool) (m : positive) (e : Z) :
  Prim2SF x = S754_finite s m e ->
  format_f (S d) x
  = sign_str s ++ str_of_Z (scaled_round m e (S d) / 10 ^ Z.of_nat (S d))
      ++ "." ++ frac_digits (S d) (scaled_round m e (S d)).
Proof. intros Hx. unfold format_f, fixed_digits. now rewrite Hx. Qed.

(** A float that is at least zero and not at least a thousand is a zero or
    a positive finite number: [int] of it is a natural number. *)
Lemma int_of_small_float (amount : float) :
  (0 <=? amount)%float = true -> (1e3 <=? amount)%float = false ->
  exists n, 0 <= n /\ int_of_float amount = Ok n.
Proof.
  rewrite !leb_spec. unfold int_of_float.
  change (Prim2SF 0) with (S754_zero false).
  replace (Prim2SF 1e3) with (S754_finite false 8796093022208000 (-43))
    by (vm_compute; reflexivity).
  destruct (Prim2SF amount) as [s|s| |s m e]; cbn.
  - intros _ _. exists 0. split; [lia|reflexivity].
  - destruct s; cbn; discriminate.
  - discriminate.
  - destruct s; cbn; [discriminate|]. intros _ _.
    eexists. split; [|reflexivity].
    destruct (0 <=? e) eqn:He.
    + apply Z.leb_le in He. apply Z.mul_nonneg_nonneg; [lia|].
      apply Z.pow_nonneg; lia.
    + apply Z.div_pos; [lia|]. apply Z.pow_pos_nonneg; lia.
Qed.

(** C7: for every non-negative amount, [format_notional] returns the amount
    over a million with three decimals and an M when the amount is at least
    1,000,000, the amount over a thousand with one decimal and a K when it
    is at least 1,000, and otherwise its integer value as text; 2,500,000
    gives 2.500M, 45,000 gives 45.0K and 900 gives 900. *)
Theorem notional_display_cases (amount : float) :
  (0 <=? amount)%float = true ->
  (if (1e6 <=? amount)%float
   then format_notional amount = Ok (format_f 3 (amount / 1e6) ++ "M")
   else if (1e3 <=? amount)%float
   then format_notional amount = Ok (format_f 1 (amount / 1e3) ++ "K")
   else exists n, 0 <= n /\ int_of_float amount = Ok n
                  /\ format_notional amount = Ok (str_of_Z n))
  /\ format_notional 2500000 = Ok "2.500M"
  /\ format_notional 45000 = Ok "45.0K"
  /\ format_notional 900 = Ok "900".
Proof.
  intros Hpos. split; [|repeat split; vm_compute; reflexivity].
  unfold format_notional.
  destruct (1e6 <=? amount)%float; [reflexivity|].
  destruct (1e3 <=? amount)%float eqn:Hk; [reflexivity|].
  destruct (int_of_small_float amount Hpos Hk) as (n & Hn & Hint).
  exists n. rewrite Hint. now repeat split.
Qed.

Lemma notional_display_cases_witness :
  (0 <=? 2500000)%float = true
  /\ ((if (1e6 <=? 2500000)%float
       then format_notional 2500000 = Ok (format_f 3 (2500000 / 1e6) ++ "M")
       else if (1e3 <=? 2500000)%float
       then format_notional 2500000 = Ok (format_f 1 (2500000 / 1e3) ++ "K")
       else exists n, 0 <= n /\ int_of_float 2500000 = Ok n
                      /\ format_notional 2500000 = Ok (str_of_Z n))
      /\ format_notional 2500000 = Ok "2.500M"
      /\ format_notional 45000 = Ok "45.0K"
      /\ format_notional 900 = Ok "900").
Proof.
  split; [reflexivity|].
  apply (notional_display_cases 2500000). reflexivity.
Defined.

(** ** The JSON-API parsers *)

Section ApiParsers.
Import DTCCCDSScraper.
Context (lib : PyLib).

Lemma first_format_none (render : datetime -> string) (v : pyval)
    (formats : list string) :
  Forall (fun fmt => is_ok (py_strptime lib v fmt) = false) formats ->
  first_format lib render v formats = None.
Proof.
  induction 1 as [|fmt rest Hfmt _ IH]; cbn; [reflexivity|].
  destruct (py_strptime lib v fmt); [discriminate|exact IH].
Qed.

Lemma first_format_first (render : datetime -> string) (v : pyval)
    (pre post : list string) (fmt : string) (dt : datetime) :
  Forall (fun f => is_ok (py_strptime lib v f) = false) pre ->
  py_strptime lib v fmt = Ok dt ->
  first_format lib render v (pre ++ fmt :: post) = Some (render dt).
Proof.
  induction 1 as [|f rest Hf _ IH]; cbn; intros Hfmt.
  - now rewrite Hfmt.
  - destruct (py_strptime lib v f); [discriminate|now apply IH].
Qed.

Lemma parse_timestamp_ok (now : datetime) (v : pyval) :
  exists text, parse_timestamp lib now v = Ok text.
Proof. unfold parse_timestamp. destruct (first_format _ _ _ _); eauto. Qed.

Lemma parse_date_ok (now : datetime) (v : pyval) :
  exists text, parse_date lib now v = Ok text.
Proof. unfold parse_date. destruct (first_format _ _ _ _); eauto. Qed.

Lemma parse_trade_ok (now : datetime) (t : pyval) :
  exists r, parse_trade lib now t = Ok r.
Proof. unfold parse_trade. destruct (parse_trade_body lib now t); eauto. Qed.

(** C10: [parse_timestamp] and [parse_date] return a text for every input,
    whatever [strptime] does with it: the rendering of the first format of
    their list that [strptime] accepts, and the current time or date when
    it accepts none; [parse_trade] returns a dictionary or [None] for every
    input.  None of the three raises. *)
Theorem api_parsers_total (now : datetime) (v t : pyval) :
  (exists text, parse_timestamp lib now v = Ok text)
  /\ (exists text, parse_date lib now v = Ok text)
  /\ (exists r, parse_trade lib now t = Ok r)
  /\ (Forall (fun fmt => is_ok (py_strptime lib v fmt) = false) timestamp_formats ->
      parse_timestamp lib now v = Ok (strftime_HMS now))
  /\ (Forall (fun fmt => is_ok (py_strptime lib v fmt) = false) date_formats ->
      parse_date lib now v = Ok (strftime_Ymd now))
  /\ (forall (pre : list string) (fmt : string) (post : list string) (dt : datetime),
        timestamp_formats = (pre ++ fmt :: post)%list ->
        Forall (fun f => is_ok (py_strptime lib v f) = false) pre ->
        py_strptime lib v fmt = Ok dt ->
        parse_timestamp lib now v = Ok (strftime_HMS dt))
  /\ (forall (pre : list string) (fmt : string) (post : list string) (dt : datetime),
        date_formats = (pre ++ fmt :: post)%list ->
        Forall (fun f => is_ok (py_strptime lib v f) = false) pre ->
        py_strptime lib v fmt = Ok dt ->
        parse_date lib now v = Ok (strftime_Ymd dt)).
Proof.
  split; [apply parse_timestamp_ok|].
  split; [apply parse_date_ok|].
  split; [apply parse_trade_ok|].
  split; [|split; [|split]].
  - intros Hnone. unfold parse_timestamp. now rewrite first_format_none.
  - intros Hnone. unfold parse_date. now rewrite first_format_none.
  - intros pre fmt post dt Hsplit Hpre Hfmt. unfold parse_timestamp.
    rewrite Hsplit. now rewrite (first_format_first _ _ _ _ _ dt).
  - intros pre fmt post dt Hsplit Hpre Hfmt. unfold parse_date.
    rewrite Hsplit. now rewrite (first_format_first _ _ _ _ _ dt).
Qed.

End ApiParsers.

(** ** Partial batches in the JSON-API mode *)

Section ApiBatch.
Import DTCCCDSScraper.
Context (lib : PyLib).

(** [parse_trade] on a dictionary, with the lookups done. *)
Lemma parse_trade_body_dict (now : datetime) (d : list (string * pyval)) :
  parse_trade_body lib now (PDict d)
  = (time ← parse_timestamp lib now (get_or d "executionTimestamp" PNone (PStr ""));
     pr ← py_float lib (get_or d "price" (PInt 0) (PInt 0));
     notl ← py_float lib (get_or d "notionalAmount" (PInt 0) (PInt 0));
     mat ← parse_date lib now (get_or d "maturityDate" PNone (PStr ""));
     spr ← int_times_100 lib (get_or d "spread" (PInt 0) (PInt 0));
     other ← py_float lib (get_or d "upfrontPayment" (PInt 0) (PInt 0));
     u1 ← py_upper (get_or d "ratingClass" (PStr "") (PStr ""));
     u2 ← py_upper (get_or d "ratingClass" (PStr "") (PStr ""));
     Ok {| trade_time := time;
           ticker := default (PStr "UNKNOWN") (assoc d "referenceEntity");
           name := default (PStr "") (assoc d "issuerName");
           price := pr; notional := notl;
           code := default (PStr "") (assoc d "tradeType");
           maturity := mat; rate_spr := spr;
           currency := default (PStr "EUR") (assoc d "currency");
           platform_id := default (PStr "") (assoc d "executionVenue");
           other_payment := other;
           is_hy := contains "HY" u1; is_ig := contains "IG" u2 |}).
Proof. reflexivity. Qed.

Lemma parse_trade_body_not_dict (now : datetime) (t : pyval) :
  match t with
  | PDict _ => True
  | _ => parse_trade_body lib now t = AttributeError
  end.
Proof. now destruct t. Qed.

(** A record is dropped exactly when a type coercion fails; the two date
    fields never drop it. *)
Lemma kept_iff_coerces (now : datetime) (raw : pyval) :
  kept lib now raw = None <-> coercion_fails lib raw = true.
Proof.
  unfold kept. destruct raw as [| | | | | |d];
    try (cbn; split; [reflexivity|reflexivity]).
  rewrite parse_trade_body_dict. unfold coercion_fails.
  destruct (parse_timestamp_ok lib now (get_or d "executionTimestamp" PNone (PStr "")))
    as [time ->].
  destruct (parse_date_ok lib now (get_or d "maturityDate" PNone (PStr "")))
    as [mat ->].
  cbn.
  destruct (py_float lib (get_or d "price" _ _)); cbn; [|tauto].
  destruct (py_float lib (get_or d "notionalAmount" _ _)); cbn; [|tauto].
  destruct (int_times_100 lib _); cbn; [|tauto].
  destruct (py_float lib (get_or d "upfrontPayment" _ _)); cbn; [|tauto].
  destruct (py_upper _); cbn; [|tauto].
  split; discriminate.
Qed.

(** The batch loop keeps, in order, what each record yields on its own. *)
Lemma parse_all_omap (now : datetime) (data : list pyval) :
  parse_all lib now data = Ok (omap (kept lib now) data).
Proof.
  induction data as [|raw rest IH]; cbn; [reflexivity|].
  rewrite IH. unfold parse_trade, kept.
  now destruct (parse_trade_body lib now raw).
Qed.

(** The maturity of a kept record is what [parse_date] made of its
    [maturityDate]. *)
Lemma kept_maturity (now : datetime) (d : list (string * pyval)) (t : trade) :
  parse_trade_body lib now (PDict d) = Ok t ->
  parse_date lib now (get_or d "maturityDate" PNone (PStr "")) = Ok (maturity t).
Proof.
  rewrite parse_trade_body_dict. unfold mbind, result_bind.
  destruct (parse_timestamp lib now _); [|discriminate].
  destruct (py_float lib (get_or d "price" _ _)); [|discriminate].
  destruct (py_float lib (get_or d "notionalAmount" _ _)); [|discriminate].
  destruct (parse_date lib now _); [|discriminate].
  destruct (int_times_100 lib _); [|discriminate].
  destruct (py_float lib (get_or d "upfrontPayment" _ _)); [|discriminate].
  destruct (py_upper _); [|discriminate].
  now intros [= <-].
Qed.

(** C4, as the JSON-API mode has it: the batch loop keeps, in order, what
    each record yields on its own, so a record that fails does not touch
    its siblings; a record is dropped exactly when it is no dictionary or
    a numeric field or the rating class fails to convert; and a record
    whose maturity date no format reads is kept, with the current date as
    its maturity. *)
Theorem api_partial_batch (now : datetime) (data : list pyval) :
  parse_all lib now data = Ok (omap (kept lib now) data)
  /\ (forall raw, kept lib now raw = None <-> coercion_fails lib raw = true)
  /\ (forall d t,
        parse_trade_body lib now (PDict d) = Ok t ->
        Forall (fun fmt => is_ok (py_strptime lib
                  (get_or d "maturityDate" PNone (PStr "")) fmt) = false) date_formats ->
        maturity t = strftime_Ymd now).
Proof.
  split; [apply parse_all_omap|].
  split; [intros raw; apply kept_iff_coerces|].
  intros d t Hkept Hnone.
  apply kept_maturity in Hkept.
  unfold parse_date in Hkept. rewrite first_format_none in Hkept by exact Hnone.
  now injection Hkept.
Qed.

End ApiBatch.

(** Five records, the third with an unreadable maturity date: five trades,
    not four. *)
Lemma api_unreadable_date_is_kept :
  length (emitted (DTCCCDSScraper.parse_all ref_lib wall_clock five_records)) = 5%nat
  /\ (length (emitted (DTCCCDSScraper.parse_all ref_lib wall_clock five_records))
      =? 4)%nat = false
  /\ (DTCCCDSScraper.maturity
        <$> emitted (DTCCCDSScraper.parse_all ref_lib wall_clock five_records))
     = ["2027-06-20"; "2028-06-20"; "2024-06-20"; "2029-06-20"; "2030-06-20"].
Proof. vm_compute. repeat split. Qed.

(** Five records, the third with a price that is no number: four trades. *)
Lemma api_bad_price_is_dropped :
  length (emitted (DTCCCDSScraper.parse_all ref_lib wall_clock five_records_bad_price))
  = 4%nat.
Proof. vm_compute. reflexivity. Qed.

(** Five rows of the slice, the third with an unreadable expiration date:
    [process_trades] raises, nothing is returned, and the first two
    identifiers are in the set already. *)
Lemma tabular_unreadable_date_aborts :
  process_trades ref_lib clock_2024 ∅ five_rows
  = ({["1"; "2"]}, Raise (Exception "ValueError")).
Proof. vm_compute. reflexivity. Qed.

(** ** Rating *)

Section Rating.
Context (lib : PyLib).

(** Tabular mode: the rating is read off the ticker. *)
Lemma process_row_rating (now : Z) (r : row) (t : trade) :
  process_row lib now r = Ok t ->
  rating_category t
  = if String.eqb (ticker_of (entity_name t)) "TITIM" then "HY" else "IG".
Proof.
  unfold process_row, mbind, result_bind, ticker_of.
  destruct (row_get r "Underlying Asset Name" CNone) as [| | | |issuer];
    try discriminate.
  cbn [cell_slice].
  destruct (cell_float lib (row_get r "Notional amount-Leg 1" _)); [|discriminate].
  destruct (to_datetime lib (row_get r "Execution Timestamp" _)); [|discriminate].
  destruct (dt_time _); [|discriminate].
  destruct (to_datetime lib (row_get r "Expiration Date" _)); [|discriminate].
  destruct (years_to_maturity _ _); [|discriminate].
  destruct (cell_float lib (row_get r "Price" _)); [|discriminate].
  destruct (cell_slice 4 _); [|discriminate].
  destruct (format_notional _); [|discriminate].
  destruct (dt_strftime _); [|discriminate].
  destruct (int_of_float _); [|discriminate].
  destruct (if notnull _ then _ else _); [|discriminate].
  now intros [= <-].
Qed.

(** JSON-API mode: both flags are read off [ratingClass] alone. *)
Lemma parse_trade_flags (now : datetime)
    (d : list (string * DTCCCDSScraper.pyval)) (t : DTCCCDSScraper.trade) :
  DTCCCDSScraper.parse_trade_body lib now (DTCCCDSScraper.PDict d) = Ok t ->
  DTCCCDSScraper.is_hy t = contains "HY" (rating_text d)
  /\ DTCCCDSScraper.is_ig t = contains "IG" (rating_text d).
Proof.
  rewrite parse_trade_body_dict. unfold mbind, result_bind, rating_text.
  destruct (DTCCCDSScraper.parse_timestamp lib now _); [|discriminate].
  destruct (DTCCCDSScraper.py_float lib (get_or d "price" _ _)); [|discriminate].
  destruct (DTCCCDSScraper.py_float lib (get_or d "notionalAmount" _ _));
    [|discriminate].
  destruct (DTCCCDSScraper.parse_date lib now _); [|discriminate].
  destruct (DTCCCDSScraper.int_times_100 lib _); [|discriminate].
  destruct (DTCCCDSScraper.py_float lib (get_or d "upfrontPayment" _ _));
    [|discriminate].
  destruct (get_or d "ratingClass" _ _); try discriminate.
  cbn. now intros [= <-].
Qed.

Lemma no_signal_no_text (d : list (string * DTCCCDSScraper.pyval)) :
  no_rating_signal d = true -> rating_text d = "".
Proof.
  unfold no_rating_signal, rating_text, get_or, DTCCCDSScraper.py_or.
  intros H. apply negb_true_iff in H. now rewrite H.
Qed.

(** C8, as the code has it.  In the tabular mode the rating category is
    never UNKNOWN: it is HY when the ticker derived from the issuer name is
    TITIM and IG otherwise.  In the JSON-API mode the two flags are computed
    from the rating class alone, and a record without a rating signal has
    both flags false. *)
Theorem rating_by_mode (now : Z) (r : row) (t : trade) (wall : datetime)
    (d : list (string * DTCCCDSScraper.pyval)) (a : DTCCCDSScraper.trade) :
  process_row lib now r = Ok t ->
  DTCCCDSScraper.parse_trade lib wall (DTCCCDSScraper.PDict d) = Ok (Some a) ->
  rating_category t
    = (if String.eqb (ticker_of (entity_name t)) "TITIM" then "HY" else "IG")
  /\ rating_category t <> "UNKNOWN"
  /\ DTCCCDSScraper.is_hy a = contains "HY" (rating_text d)
  /\ DTCCCDSScraper.is_ig a = contains "IG" (rating_text d)
  /\ (no_rating_signal d = true ->
      DTCCCDSScraper.is_hy a = false /\ DTCCCDSScraper.is_ig a = false).
Proof.
  intros Hrow Htrade.
  apply process_row_rating in Hrow.
  unfold DTCCCDSScraper.parse_trade in Htrade.
  destruct (DTCCCDSScraper.parse_trade_body lib wall _) as [a'|] eqn:Hbody;
    [|discriminate].
  injection Htrade as ->.
  apply parse_trade_flags in Hbody as [Hhy Hig].
  split; [exact Hrow|].
  split; [rewrite Hrow; destruct (String.eqb _ _); discriminate|].
  split; [exact Hhy|]. split; [exact Hig|].
  intros Hnone. apply no_signal_no_text in Hnone.
  rewrite Hhy, Hig, Hnone. split; reflexivity.
Qed.

End Rating.

Lemma rating_by_mode_witness :
  (process_row ref_lib clock_2024 sap_row = Ok sap_trade
   /\ DTCCCDSScraper.parse_trade ref_lib wall_clock
        (DTCCCDSScraper.PDict unrated_entries) = Ok (Some unrated_trade))
  /\ (rating_category sap_trade
       = (if String.eqb (ticker_of (entity_name sap_trade)) "TITIM" then "HY" else "IG")
      /\ rating_category sap_trade <> "UNKNOWN"
      /\ DTCCCDSScraper.is_hy unrated_trade = contains "HY" (rating_text unrated_entries)
      /\ DTCCCDSScraper.is_ig unrated_trade = contains "IG" (rating_text unrated_entries)
      /\ (no_rating_signal unrated_entries = true ->
          DTCCCDSScraper.is_hy unrated_trade = false
          /\ DTCCCDSScraper.is_ig unrated_trade = false)).
Proof.
  assert (H1 : process_row ref_lib clock_2024 sap_row = Ok sap_trade)
    by (vm_compute; reflexivity).
  assert (H2 : DTCCCDSScraper.parse_trade ref_lib wall_clock
                 (DTCCCDSScraper.PDict unrated_entries) = Ok (Some unrated_trade))
    by (vm_compute; reflexivity).
  split; [split; assumption|].
  exact (rating_by_mode ref_lib clock_2024 sap_row sap_trade wall_clock
           unrated_entries unrated_trade H1 H2).
Defined.

(** A row that carries no rating at all gets the category IG, not
    UNKNOWN. *)
Lemma tabular_rating_is_guessed :
  rating_category <$> emitted (process_trades ref_lib clock_2024 ∅ sap_frame).2 = ["IG"]
  /\ String.eqb "IG" "UNKNOWN" = false.
Proof. vm_compute. repeat split. Qed.

(** ** Endpoint discovery *)

Section Discovery.
Import DTCCCDSScraper.

(** A failed request falls back to the default endpoint. *)
Lemma discover_falls_back_on_error (cls : string) :
  discover_api_endpoints (Raise (Exception cls)) = Ok [default_endpoint].
Proof. reflexivity. Qed.

(** A successful request returns the scanned set, listed without repeats,
    whatever it holds. *)
Lemma discover_lists_the_scan (content : string) :
  exists eps, discover_api_endpoints (Ok content) = Ok eps
              /\ NoDup eps /\ forall u, u ∈ eps <-> u ∈ scan content.
Proof.
  exists (elements (scan content)). split; [reflexivity|].
  split; [apply NoDup_elements|]. intros u. apply elem_of_elements.
Qed.

Lemma add_matches_cons (acc : gset string) (m : string) (rest : list string) :
  add_matches acc (m :: rest)
  = add_matches (if startswith "/" m then {[dtcc_base ++ m]} ∪ acc else {[m]} ∪ acc) rest.
Proof. reflexivity. Qed.

(** Every endpoint the inner loop adds is a match, or the base address
    followed by a match that starts with a slash. *)
Lemma add_matches_spec (found : list string) (acc : gset string) (u : string) :
  u ∈ add_matches acc found <->
  u ∈ acc \/ exists m, m ∈ found
                       /\ u = (if startswith "/" m then dtcc_base ++ m else m).
Proof.
  revert acc. induction found as [|m0 rest IH]; intros acc.
  - split; [now left|]. intros [H|(m & Hm & _)]; [exact H|inversion Hm].
  - rewrite add_matches_cons, IH.
    assert (Hstep : u ∈ (if startswith "/" m0 then {[dtcc_base ++ m0]} ∪ acc
                         else {[m0]} ∪ acc)
                    <-> u = (if startswith "/" m0 then dtcc_base ++ m0 else m0)
                        \/ u ∈ acc).
    { destruct (startswith "/" m0);
        now rewrite elem_of_union, elem_of_singleton. }
    rewrite Hstep. split.
    + intros [[Hnew|Hold]|(m & Hm & Hu)].
      * right. exists m0. split; [left|exact Hnew].
      * now left.
      * right. exists m. split; [now right|exact Hu].
    + intros [Hacc|(m & Hm & Hu)].
      * left. now right.
      * apply elem_of_cons in Hm as [->|Hm].
        -- left. now left.
        -- right. exists m. now split.
Qed.

(** The scanned set: the matches of the two patterns, made absolute when
    they start with a slash. *)
Lemma scan_spec (content u : string) :
  u ∈ scan content <->
  exists m, (m ∈ findall fetch_re content \/ m ∈ findall ppd_re content)
            /\ u = (if startswith "/" m then dtcc_base ++ m else m).
Proof.
  unfold scan, patterns. cbn [foldl]. rewrite !add_matches_spec. split.
  - intros [[Hempty|(m & Hm & Hu)]|(m & Hm & Hu)].
    + now apply not_elem_of_empty in Hempty.
    + exists m. split; [now left|exact Hu].
    + exists m. split; [now right|exact Hu].
  - intros (m & [Hm|Hm] & Hu).
    + left. right. exists m. now split.
    + right. exists m. now split.
Qed.

End Discovery.

(** C5 on a dashboard that names no endpoint: the request succeeds, the
    scan finds nothing, and the resolver returns the empty list, while a
    failed request returns the default endpoint alone. *)
Theorem discovery_finds_nothing :
  DTCCCDSScraper.discover_api_endpoints (Ok dashboard_without_endpoints) = Ok []
  /\ DTCCCDSScraper.discover_api_endpoints (Raise (Exception "ConnectionError"))
     = Ok [DTCCCDSScraper.default_endpoint]
  /\ DTCCCDSScraper.scrape_cycle ref_lib
       {| DTCCCDSScraper.dashboard := Ok dashboard_without_endpoints;
          DTCCCDSScraper.http_get := DTCCCDSScraper.http_get api_good_cycle;
          DTCCCDSScraper.now := wall_clock;
          DTCCCDSScraper.upsert := fun _ => Ok tt;
          DTCCCDSScraper.sleeping := fun _ => Ok tt |} = Ok 0%nat.
Proof. vm_compute. repeat split. Qed.

(** A dashboard that names endpoints: the distinct matches, the relative
    ones behind the base address. *)
Lemma discovery_on_a_page_with_endpoints :
  DTCCCDSScraper.discover_api_endpoints (Ok dashboard_with_endpoints)
  = Ok [ "https://pddata.dtcc.com/v2/api/rates";
         "https://pddata.dtcc.com/ppd/api/cds/slices";
         "https://pddata.dtcc.com/ppd/api/cds/trades" ].
Proof. vm_compute. reflexivity. Qed.

(** ** Decoding *)

Section ApiDecoding.
Import DTCCCDSScraper.

Lemma find_container_ordinary (data : pyval) (keys : list string) :
  ordinary (find_container data keys).
Proof.
  induction keys as [|key rest IH]; cbn; [exact I|].
  destruct (py_in key data) as [[|]|e] eqn:Hin; cbn.
  - destruct (py_index data key) as [v|e] eqn:Hidx; cbn.
    + destruct v; try exact IH. exact I.
    + destruct data; cbn in Hidx; try (injection Hidx as <-; reflexivity).
      destruct (assoc d key); [discriminate|injection Hidx as <-; reflexivity].
  - exact IH.
  - destruct data; cbn in Hin; try discriminate; injection Hin as <-; reflexivity.
Qed.

(** The JSON decoder never raises below [Exception]: whatever the request,
    the status and the body, [fetch_cds_trades] returns a list. *)
Lemma fetch_cds_trades_returns (http_get : string -> result response)
    (endpoint : string) :
  ordinary (http_get endpoint) ->
  (forall r, http_get endpoint = Ok r -> ordinary (json r)) ->
  exists records, fetch_cds_trades http_get endpoint = Ok records.
Proof.
  intros Hget Hjson. unfold fetch_cds_trades, fetch_body.
  destruct (http_get endpoint) as [r|e]; cbn -[find_container] in *.
  - specialize (Hjson r eq_refl).
    unfold raise_for_status.
    destruct ((400 <=? status_code r) && (status_code r <? 600));
      cbn -[find_container]; [eauto|].
    destruct (json r) as [data|e]; cbn -[find_container] in *.
    + pose proof (find_container_ordinary data container_keys) as Hfind.
      destruct (find_container data container_keys) as [[l|]|e];
        cbn -[find_container] in *.
      * eauto.
      * destruct data; eauto.
      * destruct e; try discriminate. eauto.
    + destruct e; try discriminate. eauto.
  - destruct e; try discriminate. eauto.
Qed.

(** A failed request, an error status, a body that is no JSON, and a body
    without a container all decode to the empty list. *)
Lemma fetch_cds_trades_empty_cases (endpoint cls : string) (status : Z)
    (d : list (string * pyval)) :
  fetch_cds_trades (fun _ => Raise (Exception cls)) endpoint = Ok []
  /\ fetch_cds_trades (fun _ => Ok (mk_response 503 (Ok (PList [])))) endpoint = Ok []
  /\ fetch_cds_trades (fun _ => Ok (mk_response 200 (Raise (Exception cls)))) endpoint
     = Ok []
  /\ fetch_cds_trades (fun _ => Ok (mk_response 200 (Ok (PDict [("error", PStr cls)]))))
       endpoint = Ok []
  /\ fetch_cds_trades (fun _ => Ok (mk_response 200 (Ok PNone))) endpoint = Ok [].
Proof. repeat split. Qed.

End ApiDecoding.

(** C3 on a download that is no archive, and on an archive without
    entries: [get_latest_credit_slice] raises, the cycle ends with the
    exception, and so does the loop.  A dashboard without a slice link
    gives no data and no error. *)
Theorem tabular_decoder_raises :
  get_latest_credit_slice serving_garbage = Raise (Exception "BadZipFile")
  /\ get_latest_credit_slice
       {| dashboard_anchors := dashboard_anchors serving_garbage;
          download := fun _ => Ok (Zip []) |} = Raise (Exception "IndexError")
  /\ (cycle ref_lib garbage_cycle ∅).2 = Raise (Exception "BadZipFile")
  /\ get_latest_credit_slice
       {| dashboard_anchors := Ok [Some "/about"];
          download := download serving_garbage |} = Ok None.
Proof. vm_compute. repeat split. Qed.

(** ** The polling loops *)

Section ApiLoop.
Import DTCCCDSScraper.
Context (lib : PyLib).

Lemma discover_returns (page : result string) :
  ordinary page -> exists eps, discover_api_endpoints page = Ok eps.
Proof.
  destruct page as [content|e]; cbn; [eauto|].
  destruct e; try discriminate. eauto.
Qed.

Lemma try_endpoints_returns (env : cycle_env) (eps : list string) :
  ordinary_env env -> exists trades, try_endpoints lib env eps = Ok trades.
Proof.
  intros (_ & Hget & Hjson & _). induction eps as [|ep rest IH]; cbn; [eauto|].
  destruct (fetch_cds_trades_returns (http_get env) ep (Hget ep) (Hjson ep))
    as [records ->]. cbn.
  destruct records as [|raw more]; [exact IH|].
  rewrite parse_all_omap. eauto.
Qed.

(** In an ordinary environment a cycle returns or raises below
    [Exception]. *)
Lemma scrape_cycle_ordinary (env : cycle_env) :
  ordinary_env env -> ordinary (scrape_cycle lib env).
Proof.
  intros Henv. unfold scrape_cycle.
  destruct (discover_returns (dashboard env) (proj1 Henv)) as [eps ->]. cbn.
  destruct (try_endpoints_returns env (take 2 eps) Henv) as [trades ->]. cbn.
  destruct trades as [|t more]; [exact I|].
  destruct Henv as (_ & _ & _ & Hupsert & _).
  specialize (Hupsert (t :: more)).
  destruct (upsert env (t :: more)); cbn; [exact I|exact Hupsert].
Qed.

(** In ordinary environments the loop is still running after any number of
    cycles, having slept 60 seconds after each cycle that returned and 30
    seconds after each cycle that raised. *)
Lemma run_forever_keeps_running (envs : list cycle_env) :
  Forall ordinary_env envs ->
  run_forever lib envs = (sleep_after lib <$> envs, Running).
Proof.
  induction 1 as [|env rest Henv _ IH]; cbn; [reflexivity|].
  pose proof (scrape_cycle_ordinary env Henv) as Hcycle.
  destruct Henv as (_ & _ & _ & _ & Hsleep).
  unfold sleep_after at 1.
  destruct (scrape_cycle lib env) as [n|e]; cbn in *.
  - rewrite Hsleep, IH. reflexivity.
  - destruct e; try discriminate. rewrite Hsleep, IH. reflexivity.
Qed.

(** [KeyboardInterrupt] in a cycle leaves the loop by [break]. *)
Lemma run_forever_stops_on_interrupt (env : cycle_env) (rest : list cycle_env) :
  scrape_cycle lib env = Raise KeyboardInterrupt ->
  run_forever lib (env :: rest) = ([], Stopped).
Proof. intros H. cbn. now rewrite H. Qed.

End ApiLoop.

Section TabularLoop.
Context (lib : PyLib).

(** The tabular loop catches nothing: the first exception of a cycle ends
    it. *)
Lemma run_ends_on_exception (env : cycle_env) (rest : list cycle_env)
    (seen : gset string) (e : exn) :
  (cycle lib env seen).2 = Raise e ->
  run lib (env :: rest) seen = ([], (cycle lib env seen).1, Crashed e).
Proof.
  intros H. cbn. destruct (cycle lib env seen) as [seen' r]. cbn in H.
  now rewrite H.
Qed.

(** After a cycle that went through it sleeps 60 seconds and goes on. *)
Lemma run_sleeps_a_minute (env : cycle_env) (rest : list cycle_env)
    (seen : gset string) (u : unit) :
  (cycle lib env seen).2 = Ok u ->
  run lib (env :: rest) seen
  = (60 :: (run lib rest (cycle lib env seen).1).1.1,
     (run lib rest (cycle lib env seen).1).1.2,
     (run lib rest (cycle lib env seen).1).2).
Proof.
  intros H. cbn. destruct (cycle lib env seen) as [seen' r]. cbn in *.
  rewrite H. now destruct (run lib rest seen') as [[sleeps final] status].
Qed.

End TabularLoop.

(** C2 on the tabular loop: a cycle whose download is no archive, or whose
    database write fails, ends the loop with the exception, without the
    30-second sleep; the cycle after it is never run.  The JSON-API loop
    sleeps 30 seconds after the failed cycle and goes on. *)
Theorem tabular_loop_ends_on_bad_cycle :
  run ref_lib [garbage_cycle; good_cycle] ∅
  = ([], ∅, Crashed (Exception "BadZipFile"))
  /\ run ref_lib [good_cycle; good_cycle] ∅ = ([60; 60], {["1001"]}, Running)
  /\ run ref_lib [sap_cycle_database_down; good_cycle] ∅
     = ([], {["1001"]}, Crashed (Exception "OperationalError"))
  /\ DTCCCDSScraper.run_forever ref_lib [api_good_cycle; api_upsert_fails; api_good_cycle]
     = ([60; 30; 60], Running).
Proof. vm_compute. repeat split. Qed.

(** * Further properties of the code *)

(** ** The entity filter *)

Section EntityFilter.

Lemma cell_is_str_spec (c : cell) (s : string) :
  cell_is_str c s = true <-> c = CStr s.
Proof.
  destruct c; cbn; try (split; discriminate).
  rewrite String.eqb_eq. split; [now intros ->|now intros [= ->]].
Qed.

Lemma is_target_spec (c : cell) :
  is_target c = true <->
  exists issuer code, c = CStr issuer /\ target_entities !! issuer = Some code.
Proof.
  destruct c as [| | | |issuer]; cbn;
    try (split; [discriminate|intros (? & ? & ? & _); discriminate]).
  rewrite bool_decide_eq_true. split.
  - intros [code Hcode]. now exists issuer, code.
  - intros (i & code & [= <-] & Hcode). now exists code.
Qed.

(** The filter's row test, spelled out. *)
Lemma keep_row_spec (r : row) :
  keep_row r = true <->
  row_get r "Asset Class" CNone = CStr "CR"
  /\ row_get r "Notional currency-Leg 1" CNone = CStr "EUR"
  /\ exists issuer code,
       row_get r "Underlying Asset Name" CNone = CStr issuer
       /\ target_entities !! issuer = Some code.
Proof.
  unfold keep_row. rewrite !andb_true_iff, !cell_is_str_spec, is_target_spec.
  tauto.
Qed.

Lemma column_check_present (d : DataFrame) (col : string) :
  col ∈ df_columns d -> column_check d col = Ok tt.
Proof. intros H. unfold column_check. now rewrite bool_decide_eq_true_2. Qed.

Lemma column_check_absent (d : DataFrame) (col : string) :
  col ∉ df_columns d -> column_check d col = KeyError.
Proof. intros H. unfold column_check. now rewrite bool_decide_eq_false_2. Qed.

(** The filter on a frame that has rows and the three columns. *)
Lemma filter_eur_cds_rows (d : DataFrame) :
  df_empty d = false ->
  "Asset Class" ∈ df_columns d ->
  "Notional currency-Leg 1" ∈ df_columns d ->
  "Underlying Asset Name" ∈ df_columns d ->
  filter_eur_cds (Some d)
  = Ok (mk_df (df_columns d)
              (filter (fun cells => keep_row (label (df_columns d) cells)) (df_rows d))).
Proof.
  intros Hne H1 H2 H3. unfold filter_eur_cds. rewrite Hne.
  now rewrite !column_check_present by assumption.
Qed.

(** X1: on a frame with rows and the three columns the filter keeps the
    columns and, in their order, exactly the rows whose asset class is CR,
    whose currency is EUR and whose issuer is a key of the entity table. *)
Theorem filter_keeps_exactly_the_universe (d : DataFrame) :
  df_empty d = false ->
  "Asset Class" ∈ df_columns d ->
  "Notional currency-Leg 1" ∈ df_columns d ->
  "Underlying Asset Name" ∈ df_columns d ->
  exists out,
    filter_eur_cds (Some d) = Ok out
    /\ df_columns out = df_columns d
    /\ df_rows out `sublist_of` df_rows d
    /\ forall cells,
         cells ∈ df_rows out <->
         cells ∈ df_rows d
         /\ row_get (label (df_columns d) cells) "Asset Class" CNone = CStr "CR"
         /\ row_get (label (df_columns d) cells) "Notional currency-Leg 1" CNone
            = CStr "EUR"
         /\ exists issuer code,
              row_get (label (df_columns d) cells) "Underlying Asset Name" CNone
              = CStr issuer
              /\ target_entities !! issuer = Some code.
Proof.
  intros Hne H1 H2 H3. eexists. split; [now apply filter_eur_cds_rows|].
  cbn. split; [reflexivity|]. split; [apply sublist_filter|].
  intros cells. rewrite list_elem_of_filter, Is_true_true, keep_row_spec. tauto.
Qed.

(** X2: on a frame with rows, a missing asset-class, currency or issuer
    column makes the filter raise [KeyError]. *)
Theorem filter_missing_column_raises (d : DataFrame) (col : string) :
  df_empty d = false ->
  col ∈ ["Asset Class"; "Notional currency-Leg 1"; "Underlying Asset Name"] ->
  col ∉ df_columns d ->
  filter_eur_cds (Some d) = KeyError.
Proof.
  intros Hne Hcol Habsent. unfold filter_eur_cds. rewrite Hne.
  destruct (decide ("Asset Class" ∈ df_columns d)) as [H1|H1];
    [rewrite (column_check_present _ _ H1)
    |now rewrite (column_check_absent _ _ H1)].
  destruct (decide ("Notional currency-Leg 1" ∈ df_columns d)) as [H2|H2];
    [rewrite (column_check_present _ _ H2)
    |now rewrite (column_check_absent _ _ H2)].
  destruct (decide ("Underlying Asset Name" ∈ df_columns d)) as [H3|H3];
    [|now rewrite (column_check_absent _ _ H3)].
  exfalso. apply Habsent.
  repeat (apply elem_of_cons in Hcol as [->|Hcol]; [assumption|]).
  inversion Hcol.
Qed.

(** What the filter can return. *)
Lemma filter_eur_cds_inv (df : option DataFrame) (out : DataFrame) :
  filter_eur_cds df = Ok out ->
  out = empty_frame
  \/ exists d, df = Some d /\ df_empty d = false
               /\ "Asset Class" ∈ df_columns d
               /\ "Notional currency-Leg 1" ∈ df_columns d
               /\ "Underlying Asset Name" ∈ df_columns d
               /\ out = mk_df (df_columns d)
                          (filter (fun cells => keep_row (label (df_columns d) cells))
                                  (df_rows d)).
Proof.
  unfold filter_eur_cds. destruct df as [d|]; [|intros [= <-]; now left].
  destruct (df_empty d) eqn:Hd; [intros [= <-]; now left|].
  destruct (decide ("Asset Class" ∈ df_columns d)) as [H1|H1];
    [rewrite (column_check_present _ _ H1)
    |now rewrite (column_check_absent _ _ H1)].
  destruct (decide ("Notional currency-Leg 1" ∈ df_columns d)) as [H2|H2];
    [rewrite (column_check_present _ _ H2)
    |now rewrite (column_check_absent _ _ H2)].
  destruct (decide ("Underlying Asset Name" ∈ df_columns d)) as [H3|H3];
    [rewrite (column_check_present _ _ H3)
    |now rewrite (column_check_absent _ _ H3)].
  cbn. intros [= <-]. right. exists d. repeat split; assumption.
Qed.

(** X3: filtering what the filter returned raises nothing and keeps every
    row. *)
Theorem filter_twice_keeps_rows (df : option DataFrame) (out : DataFrame) :
  filter_eur_cds df = Ok out ->
  exists again, filter_eur_cds (Some out) = Ok again /\ df_rows again = df_rows out.
Proof.
  intros Hfirst.
  apply filter_eur_cds_inv in Hfirst as [->|(d & -> & Hd & H1 & H2 & H3 & ->)].
  - exists empty_frame. now split.
  - remember (filter (fun cells => keep_row (label (df_columns d) cells)) (df_rows d))
      as kept_rows eqn:Hrows.
    destruct (df_empty (mk_df (df_columns d) kept_rows)) eqn:Hout.
    + exists empty_frame. split.
      * unfold filter_eur_cds. now rewrite Hout.
      * unfold df_empty in Hout. cbn in *.
        destruct (df_columns d); [inversion H1|].
        now destruct kept_rows.
    + eexists. split.
      * apply filter_eur_cds_rows; [exact Hout|assumption..].
      * cbn [df_rows df_columns]. rewrite Hrows.
        apply list_filter_filter_r. tauto.
Qed.

End EntityFilter.

Lemma filter_keeps_exactly_the_universe_witness :
  (df_empty mixed_frame = false
   /\ "Asset Class" ∈ df_columns mixed_frame
   /\ "Notional currency-Leg 1" ∈ df_columns mixed_frame
   /\ "Underlying Asset Name" ∈ df_columns mixed_frame)
  /\ exists out,
       filter_eur_cds (Some mixed_frame) = Ok out
       /\ df_columns out = df_columns mixed_frame
       /\ df_rows out `sublist_of` df_rows mixed_frame
       /\ forall cells,
            cells ∈ df_rows out <->
            cells ∈ df_rows mixed_frame
            /\ row_get (label (df_columns mixed_frame) cells) "Asset Class" CNone
               = CStr "CR"
            /\ row_get (label (df_columns mixed_frame) cells)
                 "Notional currency-Leg 1" CNone = CStr "EUR"
            /\ exists issuer code,
                 row_get (label (df_columns mixed_frame) cells)
                   "Underlying Asset Name" CNone = CStr issuer
                 /\ target_entities !! issuer = Some code.
Proof.
  assert (H0 : df_empty mixed_frame = false) by reflexivity.
  assert (H1 : "Asset Class" ∈ df_columns mixed_frame)
    by (apply list_elem_of_In; cbn; tauto).
  assert (H2 : "Notional currency-Leg 1" ∈ df_columns mixed_frame)
    by (apply list_elem_of_In; cbn; tauto).
  assert (H3 : "Underlying Asset Name" ∈ df_columns mixed_frame)
    by (apply list_elem_of_In; cbn; tauto).
  split; [repeat split; assumption|].
  exact (filter_keeps_exactly_the_universe mixed_frame H0 H1 H2 H3).
Defined.

Lemma filter_missing_column_raises_witness :
  (df_empty frame_without_currency = false
   /\ "Notional currency-Leg 1"
      ∈ ["Asset Class"; "Notional currency-Leg 1"; "Underlying Asset Name"]
   /\ "Notional currency-Leg 1" ∉ df_columns frame_without_currency)
  /\ filter_eur_cds (Some frame_without_currency) = KeyError.
Proof.
  assert (H0 : df_empty frame_without_currency = false) by reflexivity.
  assert (H1 : "Notional currency-Leg 1"
               ∈ ["Asset Class"; "Notional currency-Leg 1"; "Underlying Asset Name"])
    by (apply list_elem_of_In; cbn; tauto).
  assert (H2 : "Notional currency-Leg 1" ∉ df_columns frame_without_currency)
    by (intros H; apply list_elem_of_In in H; cbn in H; intuition discriminate).
  split; [repeat split; assumption|].
  exact (filter_missing_column_raises frame_without_currency _ H0 H1 H2).
Defined.

Lemma filter_twice_keeps_rows_witness :
  filter_eur_cds (Some mixed_frame)
  = Ok (mk_df columns [slice_row 1001 "SAP SE" "2027-06-20";
                       slice_row 1005 "BMW AG" "2028-06-20"])
  /\ exists again,
       filter_eur_cds (Some (mk_df columns [slice_row 1001 "SAP SE" "2027-06-20";
                                            slice_row 1005 "BMW AG" "2028-06-20"]))
       = Ok again
       /\ df_rows again
          = df_rows (mk_df columns [slice_row 1001 "SAP SE" "2027-06-20";
                                    slice_row 1005 "BMW AG" "2028-06-20"]).
Proof.
  assert (H : filter_eur_cds (Some mixed_frame)
              = Ok (mk_df columns [slice_row 1001 "SAP SE" "2027-06-20";
                                   slice_row 1005 "BMW AG" "2028-06-20"]))
    by (vm_compute; reflexivity).
  split; [exact H|].
  exact (filter_twice_keeps_rows (Some mixed_frame) _ H).
Defined.

(** ** Notional display outside the non-negative amounts *)

(** X4: [format_notional] raises exactly on a NaN ([ValueError]) and on the
    negative infinity ([OverflowError]); on every other amount, negative
    ones included, it returns a text. *)
Theorem format_notional_raises_only_on_nan_and_minus_infinity (amount : float) :
  match Prim2SF amount with
  | S754_nan => format_notional amount = ValueError
  | S754_infinity true => format_notional amount = OverflowError
  | _ => exists text, format_notional amount = Ok text
  end.
Proof.
  unfold format_notional. rewrite !leb_spec. unfold int_of_float.
  replace (Prim2SF 1e6) with (S754_finite false 8589934592000000 (-33))
    by (vm_compute; reflexivity).
  replace (Prim2SF 1e3) with (S754_finite false 8796093022208000 (-43))
    by (vm_compute; reflexivity).
  destruct (Prim2SF amount) as [s|[|]| |s m e].
  - cbn. eauto.
  - reflexivity.
  - cbn. eauto.
  - reflexivity.
  - destruct (SFleb (S754_finite false 8589934592000000 (-33)) (S754_finite s m e));
      [eauto|].
    destruct (SFleb (S754_finite false 8796093022208000 (-43)) (S754_finite s m e));
      [eauto|].
    cbn. eauto.
Qed.

(** ** The set of processed identifiers *)

Section ProcessedSet.
Context (lib : PyLib).

Lemma process_rows_within (now : Z) (rows : list row) (seen : gset string)
    (acc : list trade) :
  (process_rows lib now rows seen acc).1 ⊆ seen ∪ batch_ids lib rows.
Proof.
  revert seen acc. induction rows as [|r rest IH]; intros seen acc; cbn.
  - set_solver.
  - unfold batch_ids in *. cbn.
    case_bool_decide as Hseen.
    + etrans; [apply IH|]. set_solver.
    + destruct (process_row lib now r); cbn.
      * etrans; [apply IH|]. set_solver.
      * set_solver.
Qed.

Lemma process_rows_exact (now : Z) (rows : list row) (seen : gset string)
    (acc out : list trade) :
  (process_rows lib now rows seen acc).2 = Ok out ->
  (process_rows lib now rows seen acc).1 = seen ∪ batch_ids lib rows.
Proof.
  intros Hok. apply set_eq. intros x. split.
  - apply process_rows_within.
  - intros Hx. apply elem_of_union in Hx as [Hx|Hx].
    + now apply process_rows_grows.
    + unfold batch_ids in Hx. apply elem_of_list_to_set in Hx.
      apply list_elem_of_fmap in Hx as (r & -> & Hr).
      now apply (process_rows_marks lib now rows seen acc out).
Qed.

Lemma admitted_subset (seen : gset string) (rows : list row) (r : row) :
  r ∈ admitted lib seen rows -> r ∈ rows.
Proof.
  revert seen. induction rows as [|r0 rest IH]; intros seen; cbn; [easy|].
  case_bool_decide as Hseen.
  - intros Hin. right. now apply IH in Hin.
  - intros Hin.
    apply elem_of_cons in Hin as [->|Hin]; [left|right; now apply IH in Hin].
Qed.

(** The admitted rows carry exactly the new identifiers of the batch. *)
Lemma admitted_ids (seen : gset string) (rows : list row) :
  list_to_set (trade_id_of lib <$> admitted lib seen rows)
  = batch_ids lib rows ∖ seen.
Proof.
  apply set_eq. intros x.
  rewrite elem_of_list_to_set, elem_of_difference. unfold batch_ids.
  rewrite elem_of_list_to_set. split.
  - intros Hx. apply list_elem_of_fmap in Hx as (r & -> & Hr). split.
    + apply list_elem_of_fmap. exists r. split; [reflexivity|].
      now apply (admitted_subset seen).
    + now apply (admitted_fresh lib seen rows).
  - intros [Hx Hfresh]. apply list_elem_of_fmap in Hx as (r & -> & Hr).
    now apply admitted_complete.
Qed.

Lemma mapM_result_length {A B : Type} (f : A -> result B) (l : list A) (out : list B) :
  mapM f l = Ok out -> length out = length l.
Proof.
  revert out. induction l as [|a l IH]; intros out; cbn.
  - now intros [= <-].
  - destruct (f a) as [b|]; cbn; [|discriminate].
    destruct (mapM f l) as [bs|]; cbn; [|discriminate].
    intros [= <-]. cbn. f_equal. now apply IH.
Qed.

(** X5: the set [process_trades] leaves behind contains the set it found
    and lies within that set and the identifiers of the batch, whether it
    returned or raised; when it returned, it is exactly their union. *)
Theorem processed_set_is_old_plus_batch (now : Z) (seen : gset string)
    (df : DataFrame) (out : list trade) :
  (process_trades lib now seen df).2 = Ok out ->
  (process_trades lib now seen df).1 = seen ∪ batch_ids lib (iterrows df)
  /\ (forall now' seen' df',
        seen' ⊆ (process_trades lib now' seen' df').1
        /\ (process_trades lib now' seen' df').1 ⊆ seen' ∪ batch_ids lib (iterrows df')).
Proof.
  intros Hok. split.
  - now apply (process_rows_exact now _ seen [] out).
  - intros now' seen' df'. split;
      [apply process_rows_grows|apply process_rows_within].
Qed.

(** X6: when [process_trades] returns, the number of trades it returns is
    the number of distinct identifiers of the batch that were not in the
    set before. *)
Theorem returned_count_is_new_identifiers (now : Z) (seen : gset string)
    (df : DataFrame) (out : list trade) :
  (process_trades lib now seen df).2 = Ok out ->
  length out = size (batch_ids lib (iterrows df) ∖ seen).
Proof.
  unfold process_trades. rewrite process_rows_result. cbn.
  destruct (mapM _ _) as [l|] eqn:Hmap; cbn; [|discriminate].
  intros [= <-]. apply mapM_result_length in Hmap. rewrite Hmap.
  rewrite <- admitted_ids.
  rewrite size_list_to_set by apply admitted_ids_nodup.
  now rewrite length_fmap.
Qed.

(** Rows that all go through, whatever the duplicates among them. *)
Lemma process_rows_prefix (now : Z) (pre rest : list row) (seen : gset string)
    (acc : list trade) :
  Forall (fun r => is_ok (process_row lib now r) = true) pre ->
  exists acc',
    process_rows lib now (pre ++ rest) seen acc
    = process_rows lib now rest (seen ∪ batch_ids lib pre) acc'.
Proof.
  intros Hpre. revert seen acc.
  induction Hpre as [|r pre Hr _ IH]; intros seen acc.
  - exists acc. cbn. f_equal. unfold batch_ids. cbn. set_solver.
  - cbn. case_bool_decide as Hseen.
    + destruct (IH seen acc) as [acc' ->]. exists acc'. f_equal.
      unfold batch_ids. cbn. set_solver.
    + destruct (process_row lib now r) as [t|]; [|discriminate].
      destruct (IH ({[trade_id_of lib r]} ∪ seen) (acc ++ [t])%list) as [acc' ->].
      exists acc'. f_equal. unfold batch_ids. cbn. set_solver.
Qed.

(** X7: when a row of a batch raises, [process_trades] returns nothing, yet
    the identifiers of the rows before it are in the set from then on: the
    trades computed for them are lost to the caller and suppressed in every
    later call. *)
Theorem failing_row_loses_the_rows_before_it (now : Z) (seen : gset string)
    (df : DataFrame) (pre post : list row) (bad : row) (e : exn) :
  iterrows df = (pre ++ bad :: post)%list ->
  Forall (fun r => is_ok (process_row lib now r) = true) pre ->
  trade_id_of lib bad ∉ seen ∪ batch_ids lib pre ->
  process_row lib now bad = Raise e ->
  process_trades lib now seen df = (seen ∪ batch_ids lib pre, Raise e)
  /\ forall seen' df' r,
       seen ∪ batch_ids lib pre ⊆ seen' ->
       r ∈ admitted lib seen' (iterrows df') ->
       trade_id_of lib r ∉ batch_ids lib pre.
Proof.
  intros Hrows Hpre Hfresh Hbad. split.
  - unfold process_trades. rewrite Hrows.
    destruct (process_rows_prefix now pre (bad :: post) seen [] Hpre) as [acc' ->].
    cbn. rewrite bool_decide_eq_false_2 by exact Hfresh. now rewrite Hbad.
  - intros seen' df' r Hsub Hin Hold.
    apply admitted_fresh in Hin. apply Hin. apply Hsub. set_solver.
Qed.

End ProcessedSet.

Lemma processed_set_is_old_plus_batch_witness :
  (process_trades ref_lib clock_2024 ∅ sap_frame).2 = Ok sap_trades
  /\ ((process_trades ref_lib clock_2024 ∅ sap_frame).1
       = ∅ ∪ batch_ids ref_lib (iterrows sap_frame)
      /\ (forall now' seen' df',
            seen' ⊆ (process_trades ref_lib now' seen' df').1
            /\ (process_trades ref_lib now' seen' df').1
               ⊆ seen' ∪ batch_ids ref_lib (iterrows df'))).
Proof.
  assert (H : (process_trades ref_lib clock_2024 ∅ sap_frame).2 = Ok sap_trades)
    by (vm_compute; reflexivity).
  split; [exact H|].
  exact (processed_set_is_old_plus_batch ref_lib clock_2024 ∅ sap_frame sap_trades H).
Defined.

Lemma returned_count_is_new_identifiers_witness :
  (process_trades ref_lib clock_2024 ∅ sap_frame).2 = Ok sap_trades
  /\ length sap_trades = size (batch_ids ref_lib (iterrows sap_frame) ∖ ∅).
Proof.
  assert (H : (process_trades ref_lib clock_2024 ∅ sap_frame).2 = Ok sap_trades)
    by (vm_compute; reflexivity).
  split; [exact H|].
  exact (returned_count_is_new_identifiers ref_lib clock_2024 ∅ sap_frame sap_trades H).
Defined.

Lemma failing_row_loses_the_rows_before_it_witness :
  (iterrows five_rows = (rows_before_bad ++ bad_row :: rows_after_bad)%list
   /\ Forall (fun r => is_ok (process_row ref_lib clock_2024 r) = true) rows_before_bad
   /\ (trade_id_of ref_lib bad_row
       ∉ (∅ : gset string) ∪ batch_ids ref_lib rows_before_bad)
   /\ process_row ref_lib clock_2024 bad_row = Raise (Exception "ValueError"))
  /\ (process_trades ref_lib clock_2024 ∅ five_rows
       = (∅ ∪ batch_ids ref_lib rows_before_bad, Raise (Exception "ValueError"))
      /\ forall seen' df' r,
           ∅ ∪ batch_ids ref_lib rows_before_bad ⊆ seen' ->
           r ∈ admitted ref_lib seen' (iterrows df') ->
           trade_id_of ref_lib r ∉ batch_ids ref_lib rows_before_bad).
Proof.
  assert (H1 : iterrows five_rows
               = (rows_before_bad ++ bad_row :: rows_after_bad)%list) by reflexivity.
  assert (H2 : Forall (fun r => is_ok (process_row ref_lib clock_2024 r) = true)
                 rows_before_bad)
    by (repeat constructor; vm_compute; reflexivity).
  assert (H3 : trade_id_of ref_lib bad_row
               ∉ (∅ : gset string) ∪ batch_ids ref_lib rows_before_bad).
  { intros Hin. pose proof (bool_decide_eq_true_2 _ Hin) as Hb.
    vm_compute in Hb. discriminate. }
  assert (H4 : process_row ref_lib clock_2024 bad_row = Raise (Exception "ValueError"))
    by (vm_compute; reflexivity).
  split; [repeat split; assumption|].
  exact (failing_row_loses_the_rows_before_it ref_lib clock_2024 ∅ five_rows
           rows_before_bad rows_after_bad bad_row _ H1 H2 H3 H4).
Defined.

(** ** What a normalised row looks like *)

Section RowShape.
Context (lib : PyLib).

Lemma take_str_length (n : nat) (s : string) : (String.length (take_str n s) <= n)%nat.
Proof.
  revert s. induction n as [|n IH]; intros [|c s]; cbn; try lia.
  specialize (IH s). lia.
Qed.

Lemma years_to_maturity_at_least_one (expiry : dtval) (now years : Z) :
  years_to_maturity expiry now = Ok years -> 1 <= years.
Proof.
  unfold years_to_maturity. destruct expiry as [| |t]; [discriminate| |].
  - intros [= <-]. lia.
  - destruct (ts_aware t); [discriminate|]. intros [= <-]. apply Z.le_max_l.
Qed.

(** X8: every dictionary [process_trades] builds is consistent with its row:
    the entity name is the issuer cell, the instrument is the ticker of that
    name, the fixed tags and the tenor with a Y, the tenor is at least 1,
    the display text and the full amount come from one and the same
    notional, the platform code has at most four characters, and code,
    currency and sector are TR, EUR and empty. *)
Theorem normalised_row_shape (now : Z) (r : row) (t : trade) :
  process_row lib now r = Ok t ->
  row_get r "Underlying Asset Name" CNone = CStr (entity_name t)
  /\ instrument t
     = ticker_of (entity_name t) ++ " CDS EUR SR " ++ str_of_Z (rate_spread t) ++ "Y"
  /\ 1 <= rate_spread t
  /\ (exists amount,
        cell_float lib (row_get r "Notional amount-Leg 1" (CInt 0)) = Ok amount
        /\ format_notional amount = Ok (notional_display t)
        /\ int_of_float amount = Ok (notional_full t))
  /\ (String.length (platform_id t) <= 4)%nat
  /\ code t = "TR" /\ currency t = "EUR" /\ sector t = "".
Proof.
  unfold process_row, mbind, result_bind, ticker_of.
  destruct (row_get r "Underlying Asset Name" CNone) as [| | | |issuer];
    try discriminate.
  cbn [cell_slice].
  destruct (cell_float lib (row_get r "Notional amount-Leg 1" _)) as [amount|];
    [|discriminate].
  destruct (to_datetime lib (row_get r "Execution Timestamp" _)); [|discriminate].
  destruct (dt_time _); [|discriminate].
  destruct (to_datetime lib (row_get r "Expiration Date" _)) as [expiry|];
    [|discriminate].
  destruct (years_to_maturity expiry now) as [years|] eqn:Hyears; [|discriminate].
  destruct (cell_float lib (row_get r "Price" _)); [|discriminate].
  destruct (cell_slice 4 _) as [platform|] eqn:Hplatform; [|discriminate].
  destruct (format_notional amount) as [display|] eqn:Hdisplay; [|discriminate].
  destruct (dt_strftime _); [|discriminate].
  destruct (int_of_float amount) as [full|] eqn:Hfull; [|discriminate].
  destruct (if notnull _ then _ else _); [|discriminate].
  intros [= <-]. cbn.
  split; [reflexivity|]. split; [reflexivity|].
  split; [now apply (years_to_maturity_at_least_one expiry now)|].
  split; [now exists amount|].
  split; [|now repeat split].
  unfold cell_slice in Hplatform.
  destruct (row_get r "Platform identifier" _) as [| | | |venue]; try discriminate.
  injection Hplatform as <-. exact (take_str_length 4 venue).
Qed.

Lemma row_get_absent (cols : list string) (cells : list cell) (col : string)
    (dflt : cell) :
  col ∉ cols -> row_get (label cols cells) col dflt = dflt.
Proof.
  revert cells. induction cols as [|k cols IH]; intros cells Habsent; [reflexivity|].
  destruct cells as [|c cells]; [reflexivity|]. cbn.
  destruct (String.eqb k col) eqn:Heq.
  - apply String.eqb_eq in Heq. subst k. exfalso. apply Habsent. left.
  - apply IH. intros Hin. apply Habsent. now right.
Qed.

(** Rows that all raise the same exception. *)
Lemma process_rows_all_raise (now : Z) (rows : list row) (seen : gset string)
    (acc : list trade) (e : exn) (r : row) :
  (forall r', r' ∈ rows -> process_row lib now r' = Raise e) ->
  r ∈ rows -> trade_id_of lib r ∉ seen ->
  process_rows lib now rows seen acc = (seen, Raise e).
Proof.
  induction rows as [|r0 rest IH]; intros Hall Hin Hfresh; [inversion Hin|].
  cbn. case_bool_decide as Hseen.
  - apply IH.
    + intros r' Hr'. apply Hall. now right.
    + apply elem_of_cons in Hin as [->|Hin]; [contradiction|exact Hin].
    + exact Hfresh.
  - rewrite (Hall r0) by left. reflexivity.
Qed.

(** X9: on a frame without the issuer column [process_trades] raises
    [TypeError] at the first row whose identifier is new, and leaves the
    set as it found it. *)
Theorem missing_issuer_column_raises (now : Z) (seen : gset string)
    (df : DataFrame) (r : row) :
  "Underlying Asset Name" ∉ df_columns df ->
  r ∈ iterrows df -> trade_id_of lib r ∉ seen ->
  process_trades lib now seen df = (seen, TypeError).
Proof.
  intros Habsent Hin Hfresh. unfold process_trades.
  apply (process_rows_all_raise now _ seen [] _ r); [|exact Hin|exact Hfresh].
  intros r' Hr'. unfold iterrows in Hr'.
  apply list_elem_of_fmap in Hr' as (cells & -> & _).
  unfold process_row. now rewrite row_get_absent.
Qed.

End RowShape.

Lemma normalised_row_shape_witness :
  process_row ref_lib clock_2024 sap_row = Ok sap_trade
  /\ (row_get sap_row "Underlying Asset Name" CNone = CStr (entity_name sap_trade)
      /\ instrument sap_trade
         = ticker_of (entity_name sap_trade) ++ " CDS EUR SR "
             ++ str_of_Z (rate_spread sap_trade) ++ "Y"
      /\ 1 <= rate_spread sap_trade
      /\ (exists amount,
            cell_float ref_lib (row_get sap_row "Notional amount-Leg 1" (CInt 0))
            = Ok amount
            /\ format_notional amount = Ok (notional_display sap_trade)
            /\ int_of_float amount = Ok (notional_full sap_trade))
      /\ (String.length (platform_id sap_trade) <= 4)%nat
      /\ code sap_trade = "TR" /\ currency sap_trade = "EUR"
      /\ sector sap_trade = "").
Proof.
  assert (H : process_row ref_lib clock_2024 sap_row = Ok sap_trade)
    by (vm_compute; reflexivity).
  split; [exact H|].
  exact (normalised_row_shape ref_lib clock_2024 sap_row sap_trade H).
Defined.

Lemma missing_issuer_column_raises_witness :
  (("Underlying Asset Name" ∉ df_columns frame_without_issuer)
   /\ ([("Dissemination Identifier", CInt 2); ("Asset Class", CStr "CR")]
       ∈ iterrows frame_without_issuer)
   /\ trade_id_of ref_lib
        [("Dissemination Identifier", CInt 2); ("Asset Class", CStr "CR")]
      ∉ ({["1"]} : gset string))
  /\ process_trades ref_lib clock_2024 {["1"]} frame_without_issuer
     = ({["1"]}, TypeError).
Proof.
  assert (H1 : "Underlying Asset Name" ∉ df_columns frame_without_issuer)
    by (intros H; apply list_elem_of_In in H; cbn in H; intuition discriminate).
  assert (H2 : [("Dissemination Identifier", CInt 2); ("Asset Class", CStr "CR")]
               ∈ iterrows frame_without_issuer)
    by (apply list_elem_of_In; cbn; tauto).
  assert (H3 : trade_id_of ref_lib
                 [("Dissemination Identifier", CInt 2); ("Asset Class", CStr "CR")]
               ∉ ({["1"]} : gset string)).
  { intros Hin. pose proof (bool_decide_eq_true_2 _ Hin) as Hb.
    vm_compute in Hb. discriminate. }
  split; [repeat split; assumption|].
  exact (missing_issuer_column_raises ref_lib clock_2024 {["1"]} frame_without_issuer
           _ H1 H2 H3).
Defined.

(** ** Cycles of the tabular loop that have nothing to store *)

Section QuietCycles.
Context (lib : PyLib).

(** X10: when the dashboard carries no slice link, the cycle downloads
    nothing, stores nothing and goes to sleep, whatever the download and
    the database would have done; the set is left as it was. *)
Theorem cycle_without_slice_link (env : cycle_env) (seen : gset string)
    (anchors : list (option string)) :
  dashboard_anchors (source env) = Ok anchors ->
  find_slice_links anchors = [] ->
  get_latest_credit_slice (source env) = Ok None
  /\ cycle lib env seen = (seen, sleeping env 60).
Proof.
  intros Hpage Hnone.
  assert (Hget : get_latest_credit_slice (source env) = Ok None).
  { unfold get_latest_credit_slice. rewrite Hpage. cbn. now rewrite Hnone. }
  split; [exact Hget|].
  unfold cycle. rewrite Hget. reflexivity.
Qed.

(** X11: a cycle whose filtered batch holds only identifiers already in the
    set does not touch the database: it completes and goes to sleep even
    when every write would fail. *)
Theorem cycle_of_duplicates_skips_the_database (env : cycle_env)
    (seen : gset string) (df : option DataFrame) (eur : DataFrame) :
  get_latest_credit_slice (source env) = Ok df ->
  filter_eur_cds df = Ok eur ->
  (forall r, r ∈ iterrows eur -> trade_id_of lib r ∈ seen) ->
  forall db, cycle lib (with_database env db) seen = (seen, sleeping env 60).
Proof.
  intros Hget Hfilter Hseen db. unfold cycle, with_database. cbn.
  rewrite Hget, Hfilter. unfold process_trades.
  now rewrite process_rows_all_seen.
Qed.

(** X12: the tabular loop never takes another sleep than the 60 seconds
    after a completed cycle, never leaves by [break], and is still running
    exactly when every cycle completed; the set it ends with contains the
    set it started with. *)
Theorem tabular_loop_shape (envs : list cycle_env) (seen : gset string) :
  (run lib envs seen).1.1 = replicate (length (run lib envs seen).1.1) 60
  /\ (length (run lib envs seen).1.1 <= length envs)%nat
  /\ (run lib envs seen).2 <> Stopped
  /\ ((run lib envs seen).2 = Running
      <-> length (run lib envs seen).1.1 = length envs)
  /\ seen ⊆ (run lib envs seen).1.2.
Proof.
  split; [|split; [|split; [|split]]]; try apply run_grows;
    revert seen; induction envs as [|env rest IH]; intros seen; cbn;
    try (cbn; easy).
  - destruct (cycle lib env seen) as [seen' [u|e]]; cbn; [|reflexivity].
    specialize (IH seen').
    destruct (run lib rest seen') as [[sleeps final] status]; cbn in *.
    now f_equal.
  - destruct (cycle lib env seen) as [seen' [u|e]]; cbn; [|lia].
    specialize (IH seen').
    destruct (run lib rest seen') as [[sleeps final] status]; cbn in *. lia.
  - destruct (cycle lib env seen) as [seen' [u|e]]; cbn; [|discriminate].
    specialize (IH seen').
    now destruct (run lib rest seen') as [[sleeps final] status].
  - destruct (cycle lib env seen) as [seen' [u|e]]; cbn;
      [|split; [discriminate|lia]].
    specialize (IH seen').
    destruct (run lib rest seen') as [[sleeps final] status]; cbn in *.
    rewrite IH. split; lia.
Qed.

End QuietCycles.

Lemma cycle_without_slice_link_witness :
  (dashboard_anchors (source no_link_cycle)
   = Ok [Some "/about"; None; Some "/CFTC_SLICE_RATES.ZIP"]
   /\ find_slice_links [Some "/about"; None; Some "/CFTC_SLICE_RATES.ZIP"] = [])
  /\ (get_latest_credit_slice (source no_link_cycle) = Ok None
      /\ cycle ref_lib no_link_cycle {["1001"]}
         = ({["1001"]}, sleeping no_link_cycle 60)).
Proof.
  assert (H1 : dashboard_anchors (source no_link_cycle)
               = Ok [Some "/about"; None; Some "/CFTC_SLICE_RATES.ZIP"])
    by reflexivity.
  assert (H2 : find_slice_links [Some "/about"; None; Some "/CFTC_SLICE_RATES.ZIP"]
               = []) by (vm_compute; reflexivity).
  split; [split; assumption|].
  exact (cycle_without_slice_link ref_lib no_link_cycle {["1001"]} _ H1 H2).
Defined.

Lemma cycle_of_duplicates_skips_the_database_witness :
  (get_latest_credit_slice (source good_cycle) = Ok (Some sap_frame)
   /\ filter_eur_cds (Some sap_frame) = Ok sap_frame
   /\ (forall r, r ∈ iterrows sap_frame ->
                 trade_id_of ref_lib r ∈ ({["1001"]} : gset string)))
  /\ forall db, cycle ref_lib (with_database good_cycle db) {["1001"]}
                = ({["1001"]}, sleeping good_cycle 60).
Proof.
  assert (H1 : get_latest_credit_slice (source good_cycle) = Ok (Some sap_frame))
    by (vm_compute; reflexivity).
  assert (H2 : filter_eur_cds (Some sap_frame) = Ok sap_frame)
    by (vm_compute; reflexivity).
  assert (H3 : forall r, r ∈ iterrows sap_frame ->
                         trade_id_of ref_lib r ∈ ({["1001"]} : gset string)).
  { intros r Hr. apply list_elem_of_In in Hr. cbn in Hr.
    destruct Hr as [<-|[]]. apply elem_of_singleton. vm_compute. reflexivity. }
  split; [repeat split; assumption|].
  exact (cycle_of_duplicates_skips_the_database ref_lib good_cycle {["1001"]}
           (Some sap_frame) sap_frame H1 H2 H3).
Defined.

(** ** The patterns of the endpoint resolver *)

Section Patterns.

Lemma append_nil_r (s : string) : s ++ "" = s.
Proof.
  induction s as [|c s IH]; [reflexivity|exact (f_equal (String c) IH)].
Qed.

Lemma append_assoc (a b c : string) : (a ++ b) ++ c = a ++ b ++ c.
Proof.
  induction a as [|x a IH]; [reflexivity|exact (f_equal (String x) IH)].
Qed.

Lemma pushes_push (grp : option string) (a : string) (c : ascii) :
  pushes (push grp c) a = pushes grp (String c a).
Proof. destruct grp as [g|]; cbn; [|reflexivity]. now rewrite append_assoc. Qed.

Lemma pushes_app (grp : option string) (a b : string) :
  pushes (pushes grp a) b = pushes grp (a ++ b).
Proof. destruct grp as [g|]; cbn; [|reflexivity]. now rewrite append_assoc. Qed.

Lemma pushes_nil (grp : option string) : pushes grp "" = grp.
Proof. destruct grp as [g|]; cbn; [|reflexivity]. now rewrite append_nil_r. Qed.

(** A literal character consumes that character. *)
Lemma rmatch_chr (c : ascii) (re : list item) (s : string) (grp : option string)
    (cap : string) (r : string * string) :
  rmatch (Chr c :: re) s grp cap = Some r ->
  exists s', s = String c s' /\ rmatch re s' (pushes grp (String c "")) cap = Some r.
Proof.
  cbn. destruct s as [|x s']; [discriminate|].
  destruct (Ascii.eqb x c) eqn:Heq; [|discriminate].
  apply Ascii.eqb_eq in Heq. subst x. intros H. exists s'. split; [reflexivity|].
  destruct grp; exact H.
Qed.

(** A literal text consumes that text. *)
Lemma rmatch_lit (p : string) (re : list item) (s : string) (grp : option string)
    (cap : string) (r : string * string) :
  rmatch (lit p ++ re) s grp cap = Some r ->
  exists s', s = p ++ s' /\ rmatch re s' (pushes grp p) cap = Some r.
Proof.
  revert s grp. induction p as [|c p IH]; intros s grp H.
  - exists s. split; [reflexivity|]. now rewrite pushes_nil.
  - change (lit (String c p) ++ re)%list with (Chr c :: (lit p ++ re))%list in H.
    apply rmatch_chr in H as (s1 & -> & H).
    apply IH in H as (s2 & -> & H).
    exists s2. split; [reflexivity|].
    now rewrite pushes_app in H.
Qed.

(** A star consumes a run of characters of its class, and the rest of the
    pattern matches what follows the run. *)
Lemma rmatch_star (cls : ascii -> bool) (re : list item) (s : string)
    (grp : option string) (cap : string) (r : string * string) :
  rmatch (Star cls :: re) s grp cap = Some r ->
  exists a s', s = a ++ s' /\ all_chars cls a = true
               /\ rmatch re s' (pushes grp a) cap = Some r.
Proof.
  revert grp. induction s as [|x s IH]; intros grp H.
  - exists "", "". rewrite pushes_nil. now repeat split.
  - cbn in H. destruct (cls x) eqn:Hx.
    + match type of H with
      | match ?inner with _ => _ end = _ => destruct inner as [r'|] eqn:Hinner
      end.
      * injection H as ->.
        apply (IH (push grp x)) in Hinner as (a & s' & -> & Ha & Hrest).
        exists (String x a), s'. rewrite pushes_push in Hrest.
        split; [reflexivity|]. split; [cbn; now rewrite Hx|exact Hrest].
      * exists "", (String x s). rewrite pushes_nil. now repeat split.
    + exists "", (String x s). rewrite pushes_nil. now repeat split.
Qed.

Lemma rmatch_open (re : list item) (s : string) (grp : option string) (cap : string) :
  rmatch (GroupOpen :: re) s grp cap = rmatch re s (Some "") cap.
Proof. reflexivity. Qed.

Lemma rmatch_close (re : list item) (s : string) (grp : option string) (cap : string) :
  rmatch (GroupClose :: re) s grp cap = rmatch re s None (default "" grp).
Proof. reflexivity. Qed.

(** What the first pattern matches: the word fetch, a parenthesis, a quoted
    text without quotes that holds [/api/]; the group is the quoted text. *)
Lemma fetch_re_match (s cap rest : string) :
  match_here DTCCCDSScraper.fetch_re s = Some (cap, rest) ->
  exists a b, cap = a ++ "/api/" ++ b
              /\ quote_free a = true /\ quote_free b = true
              /\ s = "fetch(" ++ String quote (cap ++ String quote rest).
Proof.
  unfold match_here, DTCCCDSScraper.fetch_re. intros H.
  apply rmatch_lit in H as (s1 & -> & H). cbn [app pushes] in H.
  apply rmatch_chr in H as (s2 & -> & H). cbn [pushes] in H.
  rewrite rmatch_open in H.
  apply rmatch_star in H as (a & s3 & -> & Ha & H). cbn [pushes] in H.
  apply rmatch_lit in H as (s4 & -> & H). cbn [pushes] in H.
  apply rmatch_star in H as (b & s5 & -> & Hb & H). cbn [pushes] in H.
  rewrite rmatch_close in H. cbn [default] in H.
  apply rmatch_chr in H as (s6 & -> & H). cbn in H. injection H as <- <-.
  exists a, b. split; [now rewrite append_assoc|].
  split; [exact Ha|]. split; [exact Hb|].
  change (("" ++ a) ++ "/api/") with (a ++ "/api/").
  f_equal. change (String quote ?x) with (String quote "" ++ x).
  rewrite !append_assoc. reflexivity.
Qed.

(** What the second pattern matches: a quoted text without quotes that
    starts with [/ppd/api/]; the group is the quoted text. *)
Lemma ppd_re_match (s cap rest : string) :
  match_here DTCCCDSScraper.ppd_re s = Some (cap, rest) ->
  exists b, cap = "/ppd/api/" ++ b /\ quote_free b = true
            /\ s = String quote (cap ++ String quote rest).
Proof.
  unfold match_here, DTCCCDSScraper.ppd_re. intros H. cbn [app] in H.
  apply rmatch_chr in H as (s1 & -> & H). cbn [pushes] in H.
  rewrite rmatch_open in H.
  apply rmatch_lit in H as (s2 & -> & H). cbn [pushes] in H.
  apply rmatch_star in H as (b & s3 & -> & Hb & H). cbn [pushes] in H.
  rewrite rmatch_close in H. cbn [default] in H.
  apply rmatch_chr in H as (s4 & -> & H). cbn in H. injection H as <- <-.
  exists b. split; [reflexivity|]. split; [exact Hb|reflexivity].
Qed.

(** Every element of [findall] is the group of a match at some place of
    the text. *)
Lemma findall_from_match (re : list item) (s : string) (skip : nat) (cap : string) :
  cap ∈ findall_from re s skip ->
  exists before at_ rest, s = before ++ at_ /\ match_here re at_ = Some (cap, rest).
Proof.
  revert skip. induction s as [|x s IH]; intros skip Hin; [inversion Hin|].
  cbn [findall_from] in Hin.
  assert (Hlater : forall k, cap ∈ findall_from re s k ->
            exists before at_ rest,
              String x s = before ++ at_ /\ match_here re at_ = Some (cap, rest)).
  { intros k Hk. apply IH in Hk as (before & at_ & rest & -> & Hm).
    now exists (String x before), at_, rest. }
  destruct skip as [|k]; [|now apply (Hlater k)].
  destruct (match_here re (String x s)) as [[c rest]|] eqn:Hm;
    [|now apply (Hlater 0%nat)].
  apply elem_of_cons in Hin as [->|Hin]; [|now apply (Hlater _ Hin)].
  now exists "", (String x s), rest.
Qed.

Lemma startswith_app (p b : string) : startswith p (p ++ b) = true.
Proof.
  induction p as [|c p IH]; [reflexivity|].
  change (Ascii.eqb c c && startswith p (p ++ b) = true).
  now rewrite Ascii.eqb_refl, IH.
Qed.

Lemma contains_app (p a b : string) : contains p (a ++ p ++ b) = true.
Proof.
  induction a as [|c a IH].
  - change (contains p (p ++ b) = true).
    destruct (p ++ b) eqn:Hpb; cbn; rewrite <- Hpb, startswith_app; reflexivity.
  - change (startswith p (String c (a ++ p ++ b)) || contains p (a ++ p ++ b) = true).
    rewrite IH. apply orb_true_r.
Qed.

End Patterns.

Section DiscoveredEndpoints.
Import DTCCCDSScraper.

Lemma all_chars_app (cls : ascii -> bool) (a b : string) :
  all_chars cls (a ++ b) = all_chars cls a && all_chars cls b.
Proof.
  induction a as [|c a IH]; [reflexivity|].
  change (cls c && all_chars cls (a ++ b) = cls c && all_chars cls a && all_chars cls b).
  rewrite IH. now rewrite andb_assoc.
Qed.

(** Every match of either pattern is a quoted text of the page, without a
    quote inside, that holds [/api/]. *)
Lemma match_is_quoted_api_path (content m : string) :
  m ∈ findall fetch_re content \/ m ∈ findall ppd_re content ->
  exists a b before rest,
    m = a ++ "/api/" ++ b
    /\ quote_free m = true
    /\ content = before ++ String quote (m ++ String quote rest).
Proof.
  intros [Hm|Hm]; apply findall_from_match in Hm as (before & at_ & rest & -> & Hm).
  - apply fetch_re_match in Hm as (a & b & -> & Ha & Hb & ->).
    exists a, b, (before ++ "fetch("), rest. split; [reflexivity|].
    split; [|symmetry; apply append_assoc].
    unfold quote_free in *. rewrite !all_chars_app, Ha, Hb. reflexivity.
  - apply ppd_re_match in Hm as (b & -> & Hb & ->).
    exists "/ppd", b, before, rest. split; [reflexivity|].
    split; [|reflexivity].
    unfold quote_free in *. rewrite all_chars_app, Hb. reflexivity.
Qed.

(** X13: when the dashboard request succeeds, the resolver returns a list
    without repeats, and every endpoint in it comes from the page: it is a
    quoted text of the page that holds [/api/] and no quote, taken as it is,
    or put behind the base address when it starts with a slash.  Every
    endpoint returned holds [/api/]. *)
Theorem discovered_endpoints_come_from_the_page (content : string) :
  exists eps,
    discover_api_endpoints (Ok content) = Ok eps
    /\ NoDup eps
    /\ forall u, u ∈ eps ->
         contains "/api/" u = true
         /\ exists m before rest,
              content = before ++ String quote (m ++ String quote rest)
              /\ quote_free m = true
              /\ contains "/api/" m = true
              /\ u = (if startswith "/" m then dtcc_base ++ m else m).
Proof.
  exists (elements (scan content)). split; [reflexivity|].
  split; [apply NoDup_elements|].
  intros u Hu. apply elem_of_elements, scan_spec in Hu as (m & Hm & ->).
  apply match_is_quoted_api_path in Hm as (a & b & before & rest & -> & Hfree & ->).
  assert (Hm : contains "/api/" (a ++ "/api/" ++ b) = true) by apply contains_app.
  split.
  - destruct (startswith "/" _); [|exact Hm].
    rewrite <- append_assoc. apply contains_app.
  - exists (a ++ "/api/" ++ b), before, rest. now repeat split.
Qed.

End DiscoveredEndpoints.

(** ** The JSON decoder *)

Section JsonDecoder.
Import DTCCCDSScraper.

Lemma find_container_dict (d : list (string * pyval)) (keys : list string) :
  find_container (PDict d) keys = Ok (first_list d keys).
Proof.
  induction keys as [|key rest IH]; [reflexivity|].
  cbn. destruct (assoc d key) as [v|]; cbn.
  - now destruct v.
  - exact IH.
Qed.

Lemma find_container_list (l : list pyval) (keys : list string) :
  find_container (PList l) keys = if holds_key l keys then TypeError else Ok None.
Proof.
  induction keys as [|key rest IH]; [reflexivity|].
  cbn. unfold holds_key in *. cbn.
  destruct (existsb _ l); cbn; [reflexivity|exact IH].
Qed.

(** X14: [fetch_cds_trades] returns a list whenever the request and the
    decoding return or raise below [Exception]; an exception outside
    [Exception], such as [KeyboardInterrupt], passes through it. *)
Theorem fetch_returns_a_list (http_get : string -> result response)
    (endpoint : string) :
  ordinary (http_get endpoint) ->
  (forall r, http_get endpoint = Ok r -> ordinary (json r)) ->
  (exists records, fetch_cds_trades http_get endpoint = Ok records)
  /\ (forall e, is_Exception e = false ->
        fetch_cds_trades (fun _ => Raise e) endpoint = Raise e)
  /\ (forall e status, is_Exception e = false ->
        (status < 400 \/ 600 <= status) ->
        fetch_cds_trades (fun _ => Ok (mk_response status (Raise e))) endpoint
        = Raise e).
Proof.
  intros Hget Hjson. split; [now apply fetch_cds_trades_returns|]. split.
  - intros e He. unfold fetch_cds_trades, fetch_body. cbn. now destruct e.
  - intros e status He Hstatus. unfold fetch_cds_trades, fetch_body, raise_for_status.
    cbn. replace ((400 <=? status) && (status <? 600)) with false by lia.
    cbn. now destruct e.
Qed.

(** X15: from a JSON object the decoder returns the value of the first of
    the keys data, trades, records and results whose value is a list; a key
    whose value is no list is passed over, and an object without such a key
    gives the empty list. *)
Theorem object_body_first_list_wins (http_get : string -> result response)
    (endpoint : string) (r : response) (d : list (string * pyval)) :
  http_get endpoint = Ok r ->
  (status_code r < 400 \/ 600 <= status_code r) ->
  json r = Ok (PDict d) ->
  fetch_cds_trades http_get endpoint = Ok (default [] (first_list d container_keys)).
Proof.
  intros Hget Hstatus Hjson.
  unfold fetch_cds_trades, fetch_body, raise_for_status. rewrite Hget.
  cbn -[find_container container_keys].
  replace ((400 <=? status_code r) && (status_code r <? 600)) with false by lia.
  cbn -[find_container container_keys]. rewrite Hjson.
  cbn -[find_container container_keys]. rewrite find_container_dict.
  cbn -[first_list container_keys]. now destruct (first_list d container_keys).
Qed.

(** X16: a body that is itself a list is returned as it is, unless one of
    its elements is the string data, trades, records or results: then the
    key test succeeds, the indexing fails, and the decoder returns the
    empty list. *)
Theorem list_body_unless_it_holds_a_key (http_get : string -> result response)
    (endpoint : string) (r : response) (l : list pyval) :
  http_get endpoint = Ok r ->
  (status_code r < 400 \/ 600 <= status_code r) ->
  json r = Ok (PList l) ->
  fetch_cds_trades http_get endpoint
  = Ok (if holds_key l container_keys then [] else l).
Proof.
  intros Hget Hstatus Hjson.
  unfold fetch_cds_trades, fetch_body, raise_for_status. rewrite Hget.
  cbn -[find_container container_keys].
  replace ((400 <=? status_code r) && (status_code r <? 600)) with false by lia.
  cbn -[find_container container_keys]. rewrite Hjson.
  cbn -[find_container container_keys]. rewrite find_container_list.
  now destruct (holds_key l container_keys).
Qed.

(** X17: a response with a status from 400 to 599 gives the empty list,
    whatever its body holds. *)
Theorem error_status_gives_no_records (http_get : string -> result response)
    (endpoint : string) (r : response) :
  http_get endpoint = Ok r ->
  400 <= status_code r < 600 ->
  fetch_cds_trades http_get endpoint = Ok [].
Proof.
  intros Hget Hstatus.
  unfold fetch_cds_trades, fetch_body, raise_for_status. rewrite Hget. cbn.
  replace ((400 <=? status_code r) && (status_code r <? 600)) with true by lia.
  reflexivity.
Qed.

End JsonDecoder.

Lemma fetch_returns_a_list_witness :
  (ordinary (DTCCCDSScraper.http_get api_good_cycle "u")
   /\ (forall r, DTCCCDSScraper.http_get api_good_cycle "u" = Ok r ->
                 ordinary (DTCCCDSScraper.json r)))
  /\ ((exists records,
         DTCCCDSScraper.fetch_cds_trades (DTCCCDSScraper.http_get api_good_cycle) "u"
         = Ok records)
      /\ (forall e, is_Exception e = false ->
            DTCCCDSScraper.fetch_cds_trades (fun _ => Raise e) "u" = Raise e)
      /\ (forall e status, is_Exception e = false ->
            (status < 400 \/ 600 <= status) ->
            DTCCCDSScraper.fetch_cds_trades
              (fun _ => Ok (DTCCCDSScraper.mk_response status (Raise e))) "u"
            = Raise e)).
Proof.
  assert (H1 : ordinary (DTCCCDSScraper.http_get api_good_cycle "u")) by exact I.
  assert (H2 : forall r, DTCCCDSScraper.http_get api_good_cycle "u" = Ok r ->
                         ordinary (DTCCCDSScraper.json r))
    by (intros r [= <-]; exact I).
  split; [split; assumption|].
  exact (fetch_returns_a_list (DTCCCDSScraper.http_get api_good_cycle) "u" H1 H2).
Defined.

Lemma object_body_first_list_wins_witness :
  (DTCCCDSScraper.http_get api_good_cycle "u"
   = Ok (ok_response (DTCCCDSScraper.PDict
                        [("count", DTCCCDSScraper.PInt 5);
                         ("trades", DTCCCDSScraper.PList five_records)]))
   /\ (200 < 400 \/ 600 <= 200)
   /\ DTCCCDSScraper.json
        (ok_response (DTCCCDSScraper.PDict
                        [("count", DTCCCDSScraper.PInt 5);
                         ("trades", DTCCCDSScraper.PList five_records)]))
      = Ok (DTCCCDSScraper.PDict
              [("count", DTCCCDSScraper.PInt 5);
               ("trades", DTCCCDSScraper.PList five_records)]))
  /\ DTCCCDSScraper.fetch_cds_trades (DTCCCDSScraper.http_get api_good_cycle) "u"
     = Ok (default []
             (first_list [("count", DTCCCDSScraper.PInt 5);
                          ("trades", DTCCCDSScraper.PList five_records)]
                         DTCCCDSScraper.container_keys)).
Proof.
  split; [repeat split; lia|].
  apply (object_body_first_list_wins (DTCCCDSScraper.http_get api_good_cycle) "u"
           (ok_response (DTCCCDSScraper.PDict
                           [("count", DTCCCDSScraper.PInt 5);
                            ("trades", DTCCCDSScraper.PList five_records)])));
    [reflexivity|cbn; lia|reflexivity].
Defined.

Lemma list_body_unless_it_holds_a_key_witness :
  ((fun _ : string =>
      Ok (ok_response (DTCCCDSScraper.PList
                         [DTCCCDSScraper.PStr "data"; DTCCCDSScraper.PInt 1]))) "u"
   = Ok (ok_response (DTCCCDSScraper.PList
                        [DTCCCDSScraper.PStr "data"; DTCCCDSScraper.PInt 1]))
   /\ (200 < 400 \/ 600 <= 200))
  /\ DTCCCDSScraper.fetch_cds_trades
       (fun _ => Ok (ok_response (DTCCCDSScraper.PList
                                    [DTCCCDSScraper.PStr "data"; DTCCCDSScraper.PInt 1])))
       "u"
     = Ok (if holds_key [DTCCCDSScraper.PStr "data"; DTCCCDSScraper.PInt 1]
                DTCCCDSScraper.container_keys
           then [] else [DTCCCDSScraper.PStr "data"; DTCCCDSScraper.PInt 1]).
Proof.
  split; [split; [reflexivity|lia]|].
  apply (list_body_unless_it_holds_a_key _ "u"
           (ok_response (DTCCCDSScraper.PList
                           [DTCCCDSScraper.PStr "data"; DTCCCDSScraper.PInt 1])));
    [reflexivity|cbn; lia|reflexivity].
Defined.

Lemma error_status_gives_no_records_witness :
  ((fun _ : string =>
      Ok (DTCCCDSScraper.mk_response 503
            (Ok (DTCCCDSScraper.PList five_records)))) "u"
   = Ok (DTCCCDSScraper.mk_response 503 (Ok (DTCCCDSScraper.PList five_records)))
   /\ 400 <= 503 < 600)
  /\ DTCCCDSScraper.fetch_cds_trades
       (fun _ => Ok (DTCCCDSScraper.mk_response 503
                       (Ok (DTCCCDSScraper.PList five_records)))) "u"
     = Ok [].
Proof.
  split; [split; [reflexivity|lia]|].
  apply (error_status_gives_no_records _ "u"
           (DTCCCDSScraper.mk_response 503 (Ok (DTCCCDSScraper.PList five_records))));
    [reflexivity|cbn; lia].
Defined.

(** ** The fields of a parsed record *)

Section ParsedFields.
Import DTCCCDSScraper.
Context (lib : PyLib).

(** Where each field of the dictionary of [parse_trade] comes from. *)
Lemma parse_trade_body_fields (now : datetime) (d : list (string * pyval)) (t : trade) :
  parse_trade_body lib now (PDict d) = Ok t ->
  parse_timestamp lib now (get_or d "executionTimestamp" PNone (PStr ""))
    = Ok (trade_time t)
  /\ py_float lib (get_or d "price" (PInt 0) (PInt 0)) = Ok (price t)
  /\ py_float lib (get_or d "notionalAmount" (PInt 0) (PInt 0)) = Ok (notional t)
  /\ int_times_100 lib (get_or d "spread" (PInt 0) (PInt 0)) = Ok (rate_spr t)
  /\ py_float lib (get_or d "upfrontPayment" (PInt 0) (PInt 0)) = Ok (other_payment t)
  /\ ticker t = default (PStr "UNKNOWN") (assoc d "referenceEntity")
  /\ name t = default (PStr "") (assoc d "issuerName")
  /\ code t = default (PStr "") (assoc d "tradeType")
  /\ currency t = default (PStr "EUR") (assoc d "currency")
  /\ platform_id t = default (PStr "") (assoc d "executionVenue").
Proof.
  rewrite parse_trade_body_dict. unfold mbind, result_bind.
  destruct (parse_timestamp lib now _); [|discriminate].
  destruct (py_float lib (get_or d "price" _ _)); [|discriminate].
  destruct (py_float lib (get_or d "notionalAmount" _ _)); [|discriminate].
  destruct (parse_date lib now _); [|discriminate].
  destruct (int_times_100 lib _); [|discriminate].
  destruct (py_float lib (get_or d "upfrontPayment" _ _)); [|discriminate].
  destruct (py_upper _); [|discriminate].
  intros [= <-]. now repeat split.
Qed.

(** X18: in a parsed record a numeric field that is absent, null, zero or
    empty text is 0, and the spread then gives 0; the fields passed through
    (ticker, name, code, currency, venue) take their default only when the
    key is absent, while a key present with null keeps the null. *)
Theorem absent_and_null_fields (now : datetime) (d : list (string * pyval)) (t : trade) :
  parse_trade_body lib now (PDict d) = Ok t ->
  (truthy (default (PInt 0) (assoc d "price")) = false -> price t = 0%float)
  /\ (truthy (default (PInt 0) (assoc d "notionalAmount")) = false ->
      notional t = 0%float)
  /\ (truthy (default (PInt 0) (assoc d "upfrontPayment")) = false ->
      other_payment t = 0%float)
  /\ (truthy (default (PInt 0) (assoc d "spread")) = false -> rate_spr t = 0)
  /\ (assoc d "referenceEntity" = None -> ticker t = PStr "UNKNOWN")
  /\ (assoc d "currency" = None -> currency t = PStr "EUR")
  /\ (forall key v, assoc d key = Some v ->
        (key = "referenceEntity" -> ticker t = v)
        /\ (key = "issuerName" -> name t = v)
        /\ (key = "tradeType" -> code t = v)
        /\ (key = "currency" -> currency t = v)
        /\ (key = "executionVenue" -> platform_id t = v)).
Proof.
  intros Hparse.
  apply parse_trade_body_fields in Hparse
    as (_ & Hprice & Hnotional & Hspread & Hup & Hticker & Hname & Hcode & Hcur & Hvenue).
  unfold get_or, py_or in *.
  repeat split.
  - intros Hf. rewrite Hf in Hprice. cbn in Hprice. now injection Hprice.
  - intros Hf. rewrite Hf in Hnotional. cbn in Hnotional. now injection Hnotional.
  - intros Hf. rewrite Hf in Hup. cbn in Hup. now injection Hup.
  - intros Hf. rewrite Hf in Hspread. cbn in Hspread. now injection Hspread.
  - intros Hnone. now rewrite Hticker, Hnone.
  - intros Hnone. now rewrite Hcur, Hnone.
  - intros ->. now rewrite Hticker, H.
  - intros ->. now rewrite Hname, H.
  - intros ->. now rewrite Hcode, H.
  - intros ->. now rewrite Hcur, H.
  - intros ->. now rewrite Hvenue, H.
Qed.

(** X19: the spread is multiplied by 100 before it is converted: a whole
    number gives a hundred times the number, but a spread written as text
    is repeated a hundred times and the repetition is converted. *)
Theorem spread_times_hundred (now : datetime) (d : list (string * pyval)) (t : trade) :
  parse_trade_body lib now (PDict d) = Ok t ->
  match assoc d "spread" with
  | None => rate_spr t = 0
  | Some (PInt z) => rate_spr t = z * 100
  | Some (PStr s) =>
      if String.eqb s "" then rate_spr t = 0
      else int_of_str lib (repeat_str 100 s) = Some (rate_spr t)
  | Some _ => True
  end.
Proof.
  intros Hparse.
  apply parse_trade_body_fields in Hparse as (_ & _ & _ & Hspread & _).
  unfold get_or, py_or in Hspread.
  destruct (assoc d "spread") as [[| |z| |s| |]|]; try exact I; cbn in Hspread.
  - destruct (z =? 0) eqn:Hz; cbn in Hspread; injection Hspread as <-;
      [apply Z.eqb_eq in Hz; lia|reflexivity].
  - destruct (String.eqb s ""); cbn in Hspread.
    + now injection Hspread.
    + destruct (int_of_str lib _); [now injection Hspread as ->|discriminate].
  - now injection Hspread.
Qed.

(** X20: a date or a timestamp that is not text is replaced by the current
    date or time, whatever [strptime] would do. *)
Theorem non_text_date_becomes_now (now : datetime) (v : pyval) :
  (forall s, v <> PStr s) ->
  parse_date lib now v = Ok (strftime_Ymd now)
  /\ parse_timestamp lib now v = Ok (strftime_HMS now).
Proof.
  intros Hv. unfold parse_date, parse_timestamp.
  rewrite !first_format_none; [easy|..];
    repeat constructor; destruct v; try reflexivity; now destruct (Hv s).
Qed.

End ParsedFields.

Lemma absent_and_null_fields_witness :
  DTCCCDSScraper.parse_trade_body ref_lib wall_clock (DTCCCDSScraper.PDict sparse_entries)
  = Ok sparse_trade
  /\ DTCCCDSScraper.price sparse_trade = 0%float
  /\ DTCCCDSScraper.currency sparse_trade = DTCCCDSScraper.PNone
  /\ DTCCCDSScraper.ticker sparse_trade = DTCCCDSScraper.PStr "UNKNOWN".
Proof.
  assert (H : DTCCCDSScraper.parse_trade_body ref_lib wall_clock
                (DTCCCDSScraper.PDict sparse_entries) = Ok sparse_trade)
    by (vm_compute; reflexivity).
  split; [exact H|].
  destruct (absent_and_null_fields ref_lib wall_clock sparse_entries sparse_trade H)
    as (Hprice & _ & _ & _ & Hticker & _ & Hpass).
  split; [apply Hprice; reflexivity|].
  split; [|apply Hticker; reflexivity].
  apply (Hpass "currency" DTCCCDSScraper.PNone); reflexivity.
Defined.

Lemma spread_times_hundred_witness :
  DTCCCDSScraper.parse_trade_body ref_lib wall_clock (DTCCCDSScraper.PDict sparse_entries)
  = Ok sparse_trade
  /\ match DTCCCDSScraper.assoc sparse_entries "spread" with
     | None => DTCCCDSScraper.rate_spr sparse_trade = 0
     | Some (DTCCCDSScraper.PInt z) => DTCCCDSScraper.rate_spr sparse_trade = z * 100
     | Some (DTCCCDSScraper.PStr s) =>
         if String.eqb s "" then DTCCCDSScraper.rate_spr sparse_trade = 0
         else int_of_str ref_lib (repeat_str 100 s)
              = Some (DTCCCDSScraper.rate_spr sparse_trade)
     | Some _ => True
     end.
Proof.
  assert (H : DTCCCDSScraper.parse_trade_body ref_lib wall_clock
                (DTCCCDSScraper.PDict sparse_entries) = Ok sparse_trade)
    by (vm_compute; reflexivity).
  split; [exact H|].
  exact (spread_times_hundred ref_lib wall_clock sparse_entries sparse_trade H).
Defined.

Lemma non_text_date_becomes_now_witness :
  (forall s, DTCCCDSScraper.PInt 20270620 <> DTCCCDSScraper.PStr s)
  /\ (DTCCCDSScraper.parse_date ref_lib wall_clock (DTCCCDSScraper.PInt 20270620)
       = Ok (strftime_Ymd wall_clock)
      /\ DTCCCDSScraper.parse_timestamp ref_lib wall_clock (DTCCCDSScraper.PInt 20270620)
         = Ok (strftime_HMS wall_clock)).
Proof.
  assert (H : forall s, DTCCCDSScraper.PInt 20270620 <> DTCCCDSScraper.PStr s)
    by discriminate.
  split; [exact H|].
  exact (non_text_date_becomes_now ref_lib wall_clock (DTCCCDSScraper.PInt 20270620) H).
Defined.

(** ** The JSON-API cycle and loop *)

Section ApiCycle.
Import DTCCCDSScraper.
Context (lib : PyLib).

(** X21: when the first endpoint tried serves any records, the cycle stays
    with it: the trades are what the records of that endpoint yield, the
    other endpoints are not asked, also when every record was dropped, and
    the upsert runs only for a batch that is not empty. *)
Theorem first_endpoint_with_records_is_final (env : cycle_env)
    (ep : string) (others : list string) (raw : pyval) (more : list pyval) :
  discover_api_endpoints (dashboard env) = Ok (ep :: others) ->
  fetch_cds_trades (http_get env) ep = Ok (raw :: more) ->
  scrape_cycle lib env
  = match omap (kept lib (now env)) (raw :: more) with
    | [] => Ok O
    | found => _ ← upsert env found; Ok (length found)
    end.
Proof.
  intros Hdiscover Hfetch. unfold scrape_cycle. rewrite Hdiscover.
  cbn -[omap parse_all]. rewrite Hfetch. cbn -[omap parse_all].
  rewrite parse_all_omap. cbn -[omap].
  now destruct (omap (kept lib (now env)) (raw :: more)).
Qed.

(** X22: a cycle asks at most the first two endpoints of the list: when
    neither serves a record it stores nothing and returns, whatever the
    endpoints after them would serve. *)
Theorem only_two_endpoints_are_tried (env : cycle_env)
    (first second : string) (others : list string) :
  discover_api_endpoints (dashboard env) = Ok (first :: second :: others) ->
  fetch_cds_trades (http_get env) first = Ok [] ->
  fetch_cds_trades (http_get env) second = Ok [] ->
  scrape_cycle lib env = Ok O.
Proof.
  intros Hdiscover Hfirst Hsecond. unfold scrape_cycle. rewrite Hdiscover.
  cbn. rewrite Hfirst. cbn. rewrite Hsecond. reflexivity.
Qed.

(** X23: in ordinary environments the loop is still running after any
    number of cycles and has slept once per cycle: 60 seconds after a cycle
    that returned, 30 seconds after a cycle that raised. *)
Theorem api_loop_survives_failed_cycles (envs : list cycle_env) :
  Forall ordinary_env envs ->
  run_forever lib envs = (sleep_after lib <$> envs, Running)
  /\ length (run_forever lib envs).1 = length envs.
Proof.
  intros Henvs. rewrite (run_forever_keeps_running lib envs Henvs).
  split; [reflexivity|]. cbn. apply length_fmap.
Qed.

(** X24: whatever the environments do, every sleep of the loop is 60 or 30
    seconds, there is at most one per cycle, and the loop is still running
    exactly when it slept after every cycle. *)
Theorem api_loop_shape (envs : list cycle_env) :
  Forall (fun z => z = 60 \/ z = 30) (run_forever lib envs).1
  /\ (length (run_forever lib envs).1 <= length envs)%nat
  /\ ((run_forever lib envs).2 = Running
      <-> length (run_forever lib envs).1 = length envs).
Proof.
  induction envs as [|env rest (IH1 & IH2 & IH3)]; cbn.
  - split; [constructor|]. split; [lia|easy].
  - destruct (scrape_cycle lib env ≫= _) as [u|[cls| |]]; cbn.
    + destruct (run_forever lib rest) as [sleeps status]; cbn in *.
      split; [constructor; [now left|exact IH1]|]. split; [lia|].
      rewrite IH3. split; lia.
    + destruct (sleeping env 30); cbn.
      * destruct (run_forever lib rest) as [sleeps status]; cbn in *.
        split; [constructor; [now right|exact IH1]|]. split; [lia|].
        rewrite IH3. split; lia.
      * split; [constructor|]. split; [lia|]. split; [discriminate|lia].
    + split; [constructor|]. split; [lia|]. split; [discriminate|lia].
    + split; [constructor|]. split; [lia|]. split; [discriminate|lia].
Qed.

End ApiCycle.

Lemma first_endpoint_with_records_is_final_witness :
  (DTCCCDSScraper.discover_api_endpoints (DTCCCDSScraper.dashboard api_all_dropped)
   = Ok [DTCCCDSScraper.default_endpoint]
   /\ DTCCCDSScraper.fetch_cds_trades (DTCCCDSScraper.http_get api_all_dropped)
        DTCCCDSScraper.default_endpoint
      = Ok [dropped_record; dropped_record])
  /\ DTCCCDSScraper.scrape_cycle ref_lib api_all_dropped
     = match omap (kept ref_lib (DTCCCDSScraper.now api_all_dropped))
               [dropped_record; dropped_record] with
       | [] => Ok O
       | found => _ ← DTCCCDSScraper.upsert api_all_dropped found; Ok (length found)
       end.
Proof.
  split; [split; reflexivity|].
  apply (first_endpoint_with_records_is_final ref_lib api_all_dropped
           DTCCCDSScraper.default_endpoint [] dropped_record [dropped_record]);
    reflexivity.
Defined.

Lemma only_two_endpoints_are_tried_witness :
  (DTCCCDSScraper.discover_api_endpoints
     (DTCCCDSScraper.dashboard api_third_endpoint_only)
   = Ok [ "https://pddata.dtcc.com/v2/api/rates";
          "https://pddata.dtcc.com/ppd/api/cds/slices";
          "https://pddata.dtcc.com/ppd/api/cds/trades" ]
   /\ DTCCCDSScraper.fetch_cds_trades (DTCCCDSScraper.http_get api_third_endpoint_only)
        "https://pddata.dtcc.com/v2/api/rates" = Ok []
   /\ DTCCCDSScraper.fetch_cds_trades (DTCCCDSScraper.http_get api_third_endpoint_only)
        "https://pddata.dtcc.com/ppd/api/cds/slices" = Ok [])
  /\ DTCCCDSScraper.scrape_cycle ref_lib api_third_endpoint_only = Ok O.
Proof.
  assert (H1 : DTCCCDSScraper.discover_api_endpoints
                 (DTCCCDSScraper.dashboard api_third_endpoint_only)
               = Ok [ "https://pddata.dtcc.com/v2/api/rates";
                      "https://pddata.dtcc.com/ppd/api/cds/slices";
                      "https://pddata.dtcc.com/ppd/api/cds/trades" ])
    by (vm_compute; reflexivity).
  assert (H2 : DTCCCDSScraper.fetch_cds_trades
                 (DTCCCDSScraper.http_get api_third_endpoint_only)
                 "https://pddata.dtcc.com/v2/api/rates" = Ok [])
    by (vm_compute; reflexivity).
  assert (H3 : DTCCCDSScraper.fetch_cds_trades
                 (DTCCCDSScraper.http_get api_third_endpoint_only)
                 "https://pddata.dtcc.com/ppd/api/cds/slices" = Ok [])
    by (vm_compute; reflexivity).
  split; [repeat split; assumption|].
  exact (only_two_endpoints_are_tried ref_lib api_third_endpoint_only _ _ _ H1 H2 H3).
Defined.

Lemma api_loop_survives_failed_cycles_witness :
  Forall ordinary_env [api_good_cycle; api_upsert_fails; api_all_dropped]
  /\ (DTCCCDSScraper.run_forever ref_lib [api_good_cycle; api_upsert_fails; api_all_dropped]
       = (sleep_after ref_lib <$> [api_good_cycle; api_upsert_fails; api_all_dropped],
          Running)
      /\ length (DTCCCDSScraper.run_forever ref_lib
                   [api_good_cycle; api_upsert_fails; api_all_dropped]).1
         = length [api_good_cycle; api_upsert_fails; api_all_dropped]).
Proof.
  assert (H : Forall ordinary_env [api_good_cycle; api_upsert_fails; api_all_dropped]).
  { repeat constructor; cbn; try reflexivity; try exact I;
      intros ep r [= <-]; exact I. }
  split; [exact H|].
  exact (api_loop_survives_failed_cycles ref_lib _ H).
Defined.

(** ** Which links the tabular scraper follows *)

Section SliceLinks.

(** Whether a pattern matches does not depend on what its group holds. *)
Lemma rmatch_some_any_group (re : list item) (s : string)
    (g1 g2 : option string) (c1 c2 : string) :
  is_Some (rmatch re s g1 c1) -> is_Some (rmatch re s g2 c2).
Proof.
  revert s g1 g2 c1 c2. induction re as [|[c|cls| |] re IH]; intros s g1 g2 c1 c2.
  - cbn. eauto.
  - cbn. destruct s as [|x s]; [easy|]. destruct (Ascii.eqb x c); [apply IH|easy].
  - revert g1 g2. induction s as [|x s IHs]; intros g1 g2.
    + apply IH.
    + cbn. destruct (cls x); [|apply IH].
      intros H.
      match goal with
      | |- is_Some (match ?inner with _ => _ end) => destruct inner eqn:Hinner2
      end; [eauto|].
      match type of H with
      | is_Some (match ?inner with _ => _ end) => destruct inner eqn:Hinner1
      end.
      * assert (Hsome : is_Some (rmatch (Star cls :: re) s (push g2 x) c2)).
        { apply (IHs (push g1 x)). cbn. rewrite Hinner1. eauto. }
        cbn in Hsome. rewrite Hinner2 in Hsome. now destruct Hsome.
      * revert H. apply IH.
  - cbn. apply IH.
  - cbn. apply IH.
Qed.

Lemma rmatch_lit_eq (p : string) (re : list item) (s : string)
    (grp : option string) (cap : string) :
  rmatch (lit p ++ re) (p ++ s) grp cap = rmatch re s (pushes grp p) cap.
Proof.
  revert grp. induction p as [|c p IH]; intros grp.
  - now rewrite pushes_nil.
  - change (rmatch (Chr c :: (lit p ++ re)) (String c (p ++ s)) grp cap
            = rmatch re s (pushes grp (String c p)) cap).
    cbn [rmatch]. rewrite Ascii.eqb_refl, IH. now rewrite pushes_push.
Qed.

(** A star followed by a pattern matches whenever the pattern matches after
    some run of characters of the class. *)
Lemma rmatch_star_complete (cls : ascii -> bool) (re : list item) (a s : string)
    (g g' : option string) (c c' : string) :
  all_chars cls a = true ->
  is_Some (rmatch re s g' c') ->
  is_Some (rmatch (Star cls :: re) (a ++ s) g c).
Proof.
  intros Ha Hre. revert g Ha. induction a as [|x a IH]; intros g Ha.
  - change ("" ++ s) with s. destruct s as [|y s].
    + cbn. revert Hre. apply rmatch_some_any_group.
    + cbn. destruct (cls y); [|revert Hre; apply rmatch_some_any_group].
      match goal with
      | |- is_Some (match ?inner with _ => _ end) => destruct inner
      end; [eauto|]. revert Hre. apply rmatch_some_any_group.
  - cbn in Ha. apply andb_true_iff in Ha as [Hx Ha].
    change (String x a ++ s) with (String x (a ++ s)). cbn. rewrite Hx.
    specialize (IH (push g x) Ha). cbn in IH.
    destruct IH as [r Hr]. rewrite Hr. eauto.
Qed.

(** [search] finds a match exactly when the pattern matches at some place
    of the text. *)
Lemma search_spec (re : list item) (s : string) :
  search re s = true <->
  exists before at_, s = before ++ at_ /\ is_Some (match_here re at_).
Proof.
  induction s as [|x s IH].
  - cbn. destruct (match_here re "") eqn:Hm.
    + split; [|reflexivity]. intros _. exists "", "". rewrite Hm. eauto.
    + split; [discriminate|]. intros (before & at_ & Hs & Hsome).
      destruct before as [|y before];
        [|change (String y before ++ at_) with (String y (before ++ at_)) in Hs;
          discriminate].
      change ("" ++ at_) with at_ in Hs. subst at_.
      rewrite Hm in Hsome. now destruct Hsome.
  - cbn. destruct (match_here re (String x s)) eqn:Hm.
    + split; [|reflexivity]. intros _. exists "", (String x s). rewrite Hm. eauto.
    + rewrite IH. split.
      * intros (before & at_ & -> & Hsome). now exists (String x before), at_.
      * intros (before & at_ & Hs & Hsome). destruct before as [|y before].
        -- change ("" ++ at_) with at_ in Hs. subst at_.
           rewrite Hm in Hsome. now destruct Hsome.
        -- change (String y before ++ at_) with (String y (before ++ at_)) in Hs.
           injection Hs as -> ->. now exists before, at_.
Qed.

(** The slice pattern at a place of a text. *)
Lemma slice_link_re_match (s : string) :
  is_Some (match_here slice_link_re s) <->
  exists mid rest, s = "CFTC_SLICE_CREDITS" ++ mid ++ ".ZIP" ++ rest
                   /\ newline_free mid = true.
Proof.
  unfold match_here, slice_link_re. split.
  - intros [r H].
    apply rmatch_lit in H as (s1 & -> & H). cbn [app pushes] in H.
    apply rmatch_star in H as (mid & s2 & -> & Hmid & H). cbn [pushes] in H.
    rewrite <- (app_nil_r (lit ".ZIP")) in H.
    apply rmatch_lit in H as (rest & -> & H).
    now exists mid, rest.
  - intros (mid & rest & -> & Hmid).
    rewrite rmatch_lit_eq. cbn [app pushes].
    apply (rmatch_star_complete _ _ mid _ _ None "" ""); [exact Hmid|].
    rewrite <- (app_nil_r (lit ".ZIP")). rewrite rmatch_lit_eq. cbn. eauto.
Qed.

(** X25: the links the tabular scraper considers are, in document order,
    exactly the hrefs that hold CFTC_SLICE_CREDITS and, later on the same
    line, .ZIP; anchors without an href are passed over. *)
Theorem slice_links_are_the_credit_archives (anchors : list (option string)) :
  find_slice_links anchors `sublist_of` omap id anchors
  /\ forall href,
       href ∈ find_slice_links anchors <->
       Some href ∈ anchors
       /\ exists before mid rest,
            href = before ++ "CFTC_SLICE_CREDITS" ++ mid ++ ".ZIP" ++ rest
            /\ newline_free mid = true.
Proof.
  split.
  - unfold find_slice_links.
    induction anchors as [|[href|] anchors IH]; cbn -[search slice_link_re].
    + constructor.
    + destruct (search slice_link_re href); [apply sublist_skip|apply sublist_cons];
        exact IH.
    + exact IH.
  - intros href. unfold find_slice_links. rewrite list_elem_of_omap. split.
    + intros ([h|] & Hin & Hkeep); [|discriminate].
      destruct (search slice_link_re h) eqn:Hsearch; [|discriminate].
      injection Hkeep as ->. split; [exact Hin|].
      apply search_spec in Hsearch as (before & at_ & -> & Hm).
      apply slice_link_re_match in Hm as (mid & rest & -> & Hmid).
      now exists before, mid, rest.
    + intros (Hin & before & mid & rest & -> & Hmid).
      eexists. split; [exact Hin|]. cbn.
      replace (search slice_link_re _) with true; [reflexivity|].
      symmetry. apply search_spec.
      exists before, ("CFTC_SLICE_CREDITS" ++ mid ++ ".ZIP" ++ rest).
      split; [reflexivity|]. apply slice_link_re_match. now exists mid, rest.
Qed.

End SliceLinks.

(** ** Deduplication, the clock and the split of a batch *)

Section DedupComposition.
Context (lib : PyLib).

Lemma process_row_ok_any_clock (now1 now2 : Z) (r : row) :
  is_ok (process_row lib now1 r) = is_ok (process_row lib now2 r).
Proof.
  destruct (process_row lib now1 r) as [t1|e1] eqn:H1;
    destruct (process_row lib now2 r) as [t2|e2] eqn:H2; try reflexivity.
  - apply (process_row_raise_any_clock lib now2 now1) in H2. congruence.
  - apply (process_row_raise_any_clock lib now1 now2) in H1. congruence.
Qed.

Lemma process_rows_any_clock (now1 now2 : Z) (rows : list row) (seen : gset string)
    (acc1 acc2 : list trade) :
  length acc1 = length acc2 ->
  (process_rows lib now1 rows seen acc1).1 = (process_rows lib now2 rows seen acc2).1
  /\ match (process_rows lib now1 rows seen acc1).2,
           (process_rows lib now2 rows seen acc2).2 with
     | Ok out1, Ok out2 => length out1 = length out2
     | Raise e1, Raise e2 => e1 = e2
     | _, _ => False
     end.
Proof.
  revert seen acc1 acc2. induction rows as [|r rest IH]; intros seen acc1 acc2 Hlen.
  - cbn. now split.
  - cbn. case_bool_decide as Hseen; [now apply IH|].
    destruct (process_row lib now1 r) as [t1|e1] eqn:H1.
    + pose proof (process_row_ok_any_clock now1 now2 r) as Hok.
      rewrite H1 in Hok. destruct (process_row lib now2 r) as [t2|]; [|discriminate].
      apply IH. rewrite !length_app. cbn. lia.
    + rewrite (process_row_raise_any_clock lib now1 now2 r e1 H1). cbn. now split.
Qed.

(** X26: what [process_trades] admits does not depend on the clock: at any
    two times it leaves the same set, fails with the same exception or
    returns the same number of trades. *)
Theorem admission_does_not_depend_on_the_clock (now1 now2 : Z)
    (seen : gset string) (df : DataFrame) :
  (process_trades lib now1 seen df).1 = (process_trades lib now2 seen df).1
  /\ match (process_trades lib now1 seen df).2, (process_trades lib now2 seen df).2 with
     | Ok out1, Ok out2 => length out1 = length out2
     | Raise e1, Raise e2 => e1 = e2
     | _, _ => False
     end.
Proof. now apply process_rows_any_clock. Qed.

Lemma process_rows_set_any_acc (now : Z) (rows : list row) (seen : gset string)
    (acc1 acc2 : list trade) :
  (process_rows lib now rows seen acc1).1 = (process_rows lib now rows seen acc2).1.
Proof.
  revert seen acc1 acc2. induction rows as [|r rest IH]; intros seen acc1 acc2; cbn;
    [reflexivity|].
  case_bool_decide; [apply IH|].
  destruct (process_row lib now r); [apply IH|reflexivity].
Qed.

Lemma process_rows_app (now : Z) (rows1 rows2 : list row) (seen : gset string)
    (acc : list trade) :
  process_rows lib now (rows1 ++ rows2) seen acc
  = match (process_rows lib now rows1 seen acc).2 with
    | Ok acc1 => process_rows lib now rows2 (process_rows lib now rows1 seen acc).1 acc1
    | Raise e => ((process_rows lib now rows1 seen acc).1, Raise e)
    end.
Proof.
  revert seen acc. induction rows1 as [|r rest IH]; intros seen acc; cbn;
    [reflexivity|].
  case_bool_decide; [apply IH|].
  destruct (process_row lib now r); [apply IH|reflexivity].
Qed.

(** X27: processing a frame in one call is processing its upper part and
    then, from the set that leaves, its lower part: the sets agree, the
    trades are those of the two parts in order, and an exception in the
    upper part keeps the lower part from being read. *)
Theorem batch_can_be_split (now : Z) (seen : gset string) (cols : list string)
    (upper lower : list (list cell)) :
  process_trades lib now seen (mk_df cols (upper ++ lower))
  = match process_trades lib now seen (mk_df cols upper) with
    | (seen1, Ok out1) =>
        ((process_trades lib now seen1 (mk_df cols lower)).1,
         out2 ← (process_trades lib now seen1 (mk_df cols lower)).2;
         Ok (out1 ++ out2)%list)
    | (seen1, Raise e) => (seen1, Raise e)
    end.
Proof.
  unfold process_trades, iterrows. cbn [df_columns df_rows].
  rewrite List.map_app, process_rows_app.
  destruct (process_rows lib now (map (label cols) upper) seen []) as [seen1 [out1|e]];
    cbn [fst snd]; [|reflexivity].
  rewrite (surjective_pairing (process_rows lib now (map (label cols) lower) seen1 out1)).
  f_equal.
  - apply process_rows_set_any_acc.
  - rewrite !process_rows_result. cbn.
    now destruct (mapM _ _).
Qed.

(** The entity table: TITIM is the code of TELECOM ITALIA SPA, and of no
    other issuer. *)
Lemma titim_is_telecom_italia (issuer code : string) :
  target_entities !! issuer = Some code ->
  (code = "TITIM" <-> issuer = "TELECOM ITALIA SPA").
Proof.
  intros Hlookup. unfold target_entities in Hlookup.
  apply elem_of_list_to_map_2 in Hlookup.
  repeat (apply elem_of_cons in Hlookup as [[= -> ->]|Hlookup];
          [split; [discriminate || reflexivity|discriminate || reflexivity]|]).
  inversion Hlookup.
Qed.

Lemma process_row_name_and_instrument (now : Z) (r : row) (t : trade) :
  process_row lib now r = Ok t ->
  row_get r "Underlying Asset Name" CNone = CStr (entity_name t)
  /\ instrument t
     = ticker_of (entity_name t) ++ " CDS EUR SR " ++ str_of_Z (rate_spread t) ++ "Y".
Proof.
  unfold process_row, mbind, result_bind, ticker_of.
  destruct (row_get r "Underlying Asset Name" CNone) as [| | | |issuer];
    try discriminate.
  cbn [cell_slice].
  destruct (cell_float lib (row_get r "Notional amount-Leg 1" _)); [|discriminate].
  destruct (to_datetime lib (row_get r "Execution Timestamp" _)); [|discriminate].
  destruct (dt_time _); [|discriminate].
  destruct (to_datetime lib (row_get r "Expiration Date" _)); [|discriminate].
  destruct (years_to_maturity _ _); [|discriminate].
  destruct (cell_float lib (row_get r "Price" _)); [|discriminate].
  destruct (cell_slice 4 _); [|discriminate].
  destruct (format_notional _); [|discriminate].
  destruct (dt_strftime _); [|discriminate].
  destruct (int_of_float _); [|discriminate].
  destruct (if notnull _ then _ else _); [|discriminate].
  intros [= <-]. now split.
Qed.

(** X28: for a row that passes the entity filter, the ticker is the code of
    the table, never a cut of the issuer name, and the rating category is HY
    exactly when the issuer is TELECOM ITALIA SPA. *)
Theorem filtered_rows_use_the_table (now : Z) (r : row) (t : trade) :
  keep_row r = true ->
  process_row lib now r = Ok t ->
  exists code,
    target_entities !! entity_name t = Some code
    /\ instrument t = code ++ " CDS EUR SR " ++ str_of_Z (rate_spread t) ++ "Y"
    /\ (rating_category t = "HY" <-> entity_name t = "TELECOM ITALIA SPA")
    /\ (rating_category t = "IG" <-> entity_name t <> "TELECOM ITALIA SPA").
Proof.
  intros Hkeep Hrow.
  apply keep_row_spec in Hkeep as (_ & _ & issuer & code & Hissuer & Hcode).
  pose proof (process_row_name_and_instrument now r t Hrow) as (Hname & Hinstr).
  rewrite Hissuer in Hname. injection Hname as ->.
  assert (Hticker : ticker_of (entity_name t) = code).
  { unfold ticker_of, lookup_ticker. now rewrite Hcode. }
  pose proof (process_row_rating lib now r t Hrow) as Hrating.
  rewrite Hticker in Hrating, Hinstr.
  pose proof (titim_is_telecom_italia _ _ Hcode) as Htitim.
  exists code. split; [exact Hcode|]. split; [exact Hinstr|].
  destruct (String.eqb code "TITIM") eqn:Heq; rewrite Hrating.
  - apply String.eqb_eq in Heq. split; [tauto|].
    split; [discriminate|]. intros Hne. exfalso. apply Hne. tauto.
  - apply String.eqb_neq in Heq. split; [|tauto].
    split; [discriminate|]. intros Hname. exfalso. apply Heq. tauto.
Qed.

End DedupComposition.

Lemma filtered_rows_use_the_table_witness :
  keep_row sap_row = true
  /\ process_row ref_lib clock_2024 sap_row = Ok sap_trade
  /\ exists code,
       target_entities !! entity_name sap_trade = Some code
       /\ instrument sap_trade
          = code ++ " CDS EUR SR " ++ str_of_Z (rate_spread sap_trade) ++ "Y"
       /\ (rating_category sap_trade = "HY"
           <-> entity_name sap_trade = "TELECOM ITALIA SPA")
       /\ (rating_category sap_trade = "IG"
           <-> entity_name sap_trade <> "TELECOM ITALIA SPA").
Proof.
  split; [vm_compute; reflexivity|].
  split; [vm_compute; reflexivity|].
  apply (filtered_rows_use_the_table ref_lib clock_2024 sap_row sap_trade);
    vm_compute; reflexivity.
Defined.

(** ** Interrupts and rating texts in the JSON-API scraper *)

Section ApiInterrupts.
Import DTCCCDSScraper.
Context (lib : PyLib).

(** X29: a [KeyboardInterrupt] during the dashboard request, during the
    request to the first endpoint or during the 60-second sleep leaves the
    loop by [break], with no sleep taken and no later cycle run; during the
    30-second sleep of the exception handler it is not caught and ends the
    loop with the interrupt. *)
Theorem interrupt_handling_of_the_api_loop (env : cycle_env) (rest : list cycle_env) :
  (dashboard env = Raise KeyboardInterrupt ->
   scrape_cycle lib env = Raise KeyboardInterrupt
   /\ run_forever lib (env :: rest) = ([], Stopped))
  /\ (forall ep others,
        discover_api_endpoints (dashboard env) = Ok (ep :: others) ->
        http_get env ep = Raise KeyboardInterrupt ->
        scrape_cycle lib env = Raise KeyboardInterrupt
        /\ run_forever lib (env :: rest) = ([], Stopped))
  /\ (is_ok (scrape_cycle lib env) = true ->
      sleeping env 60 = Raise KeyboardInterrupt ->
      run_forever lib (env :: rest) = ([], Stopped))
  /\ (forall cls,
        scrape_cycle lib env = Raise (Exception cls) ->
        sleeping env 30 = Raise KeyboardInterrupt ->
        run_forever lib (env :: rest) = ([], Crashed KeyboardInterrupt)).
Proof.
  assert (Hstop : scrape_cycle lib env = Raise KeyboardInterrupt ->
                  run_forever lib (env :: rest) = ([], Stopped)).
  { intros Hcycle. cbn. now rewrite Hcycle. }
  split; [|split; [|split]].
  - intros Hpage.
    assert (Hcycle : scrape_cycle lib env = Raise KeyboardInterrupt)
      by (unfold scrape_cycle; now rewrite Hpage).
    split; [exact Hcycle|exact (Hstop Hcycle)].
  - intros ep others Heps Hget.
    assert (Hcycle : scrape_cycle lib env = Raise KeyboardInterrupt).
    { unfold scrape_cycle. rewrite Heps. cbn.
      unfold fetch_cds_trades, fetch_body. now rewrite Hget. }
    split; [exact Hcycle|exact (Hstop Hcycle)].
  - intros Hok Hsleep. cbn.
    destruct (scrape_cycle lib env); [|discriminate]. cbn. now rewrite Hsleep.
  - intros cls Hcycle Hsleep. cbn. rewrite Hcycle. cbn. now rewrite Hsleep.
Qed.

Lemma upper_app (a b : string) : upper (a ++ b) = upper a ++ upper b.
Proof.
  induction a as [|c a IH]; [reflexivity|].
  exact (f_equal (String (upper_char c)) IH).
Qed.

Lemma rating_text_of_text (d : list (string * pyval)) (s : string) :
  assoc d "ratingClass" = Some (PStr s) -> rating_text d = upper s.
Proof.
  intros H. unfold rating_text, get_or, py_or. rewrite H. cbn.
  destruct (String.eqb s "") eqn:Heq; cbn; [|reflexivity].
  apply String.eqb_eq in Heq. now subst s.
Qed.

(** X30: the two rating flags are substring tests on the upper-cased rating
    class: a text that holds the letters ig, in any case and anywhere, sets
    [is_ig], and one that holds hy sets [is_hy]; so a rating class of High
    Yield is flagged investment grade. *)
Theorem rating_flags_are_substring_tests (now : datetime)
    (d : list (string * pyval)) (t : trade) (before word after : string) :
  parse_trade_body lib now (PDict d) = Ok t ->
  assoc d "ratingClass" = Some (PStr (before ++ word ++ after)) ->
  (upper word = "IG" -> is_ig t = true)
  /\ (upper word = "HY" -> is_hy t = true).
Proof.
  intros Hbody Hclass.
  apply parse_trade_flags in Hbody as [Hhy Hig].
  rewrite (rating_text_of_text d _ Hclass), !upper_app in Hhy, Hig.
  split; intros Hword; rewrite Hword in *.
  - rewrite Hig. apply contains_app.
  - rewrite Hhy. apply contains_app.
Qed.

End ApiInterrupts.

Lemma interrupt_handling_of_the_api_loop_witness :
  DTCCCDSScraper.run_forever ref_lib [api_interrupted_request; api_good_cycle] = ([], Stopped)
  /\ DTCCCDSScraper.run_forever ref_lib [api_interrupted_fetch; api_good_cycle] = ([], Stopped)
  /\ DTCCCDSScraper.run_forever ref_lib [api_interrupted_sleep; api_good_cycle] = ([], Stopped)
  /\ DTCCCDSScraper.run_forever ref_lib [api_interrupted_backoff; api_good_cycle]
     = ([], Crashed KeyboardInterrupt).
Proof.
  split; [|split; [|split]].
  - apply (proj1 (interrupt_handling_of_the_api_loop ref_lib
                    api_interrupted_request [api_good_cycle])).
    reflexivity.
  - apply (proj1 (proj2 (interrupt_handling_of_the_api_loop ref_lib
                           api_interrupted_fetch [api_good_cycle]))
             DTCCCDSScraper.default_endpoint []); reflexivity.
  - apply (proj1 (proj2 (proj2 (interrupt_handling_of_the_api_loop ref_lib
                                  api_interrupted_sleep [api_good_cycle]))));
      vm_compute; reflexivity.
  - apply (proj2 (proj2 (proj2 (interrupt_handling_of_the_api_loop ref_lib
                                  api_interrupted_backoff [api_good_cycle])))
             "APIError"); vm_compute; reflexivity.
Defined.

Lemma rating_flags_are_substring_tests_witness :
  DTCCCDSScraper.parse_trade_body ref_lib wall_clock
    (DTCCCDSScraper.PDict high_yield_entries) = Ok high_yield_trade
  /\ DTCCCDSScraper.is_ig high_yield_trade = true
  /\ DTCCCDSScraper.is_hy high_yield_trade = false.
Proof.
  split; [vm_compute; reflexivity|].
  split; [|vm_compute; reflexivity].
  apply (proj1 (rating_flags_are_substring_tests ref_lib wall_clock
                  high_yield_entries high_yield_trade "H" "ig" "h Yield"
                  ltac:(vm_compute; reflexivity) ltac:(reflexivity))).
  reflexivity.
Defined.
